(** * Messenger interfaces of chatsky: lifecycle, polling loop, workers

    A shallow embedding of [chatsky/messengers/common/interface.py]:
    [MessengerInterface] with [run_in_foreground] and [shutdown], the
    constructor of [MessengerInterfaceWithAttachments],
    [PollingMessengerInterface] with its polling loop and workers, and
    [CallbackMessengerInterface].

    The interface object is its attribute dictionary ([self.__dict__], a
    [gmap] from attribute names to Python values), so that a read of an
    attribute that was never assigned raises [AttributeError] exactly as
    in Python.  Coroutines are computations in a reader-state-exception
    monad: they read the behaviour of the outside world from an
    [environment], thread a [world] (attributes, asyncio tasks, held
    conversation locks, the trace of observable events) and end in a
    value, in a Python exception, or in [Unfinished] when a [while] loop
    is cut by its fuel or the coroutine waits for something that this
    execution cannot supply.

    The environment holds what the code takes from outside: the values
    of the [loop] predicate passed to [connect] and [run_in_foreground],
    the outcomes of the hooks [_get_updates] and [_respond] and of the
    pipeline runner, the version of Python as far as the code depends on
    it, and, for every suspension of the coroutine at an [await], what
    the rest of the program did meanwhile to the interface (clear
    [running], set [finished_working], cancel the coroutine).  The
    [fuel] argument of the methods that loop is the only argument
    without a counterpart in the source.

    asyncio is modelled by its documented behaviour:
    - [wait_for] raises [asyncio.TimeoutError] when the bound runs out:
      the builtin [TimeoutError] from Python 3.11 on, a class of its own
      before (the package declares Python 3.7 and later);
    - an unbounded [Queue] never blocks on [put];
    - [create_task] accepts coroutines only and raises [TypeError] on a
      future; [shield] wraps its coroutine in a task and returns a future;
      the first step of that task is queued when it is created, ahead of
      any wake-up of the coroutine that awaits the future;
    - [wait] raises [ValueError] on an empty collection;
    - [Task.cancel] does nothing on a task that is done;
    - awaiting a task returns its result or raises its exception;
    - a coroutine object, like any object without [__bool__] or
      [__len__], is true. *)

From Stdlib Require Import ZArith Lia.
From stdpp Require Import base option list gmap strings.

(** ** Python values, exceptions, events *)

(** [None] stands for an unset timeout ([poll_timeout: float = None]);
    the code only forwards these numbers to asyncio. *)
Definition timeout_t : Type := option nat.

(** A queue entry: a [(ctx_id, update)] pair, or the [None] sentinel. *)
Definition request : Type := option (string * string).

(** Coroutine objects: what calling an [async def] returns before it is
    awaited.  The constructor records the function and its arguments. *)
Inductive coro : Type :=
| CoWorker (worker_timeout : timeout_t)
| CoWorkerJob (worker_timeout : timeout_t)
| CoPollingJob (poll_timeout : timeout_t)
| CoProcessRequest (ctx_id update : string)
| CoConnect (poll_timeout worker_timeout : timeout_t) (timeout : nat).

Inductive pyval : Type :=
| PyNone
| PyBool (b : bool)
| PyInt (n : Z)
| PyCoroutine (c : coro)
| PyFuture (t : nat)
| PyTask (t : nat)
| PyTaskList (ts : list nat)
| PyQueue (q : list request)
| PyPipeline (name : string)
| PyRunner (name : string).

(** Python truth value of an object: [None], [False], [0] and empty
    containers are false, every other object is true. *)
Definition truthy (v : pyval) : bool :=
  match v with
  | PyNone => false
  | PyBool b => b
  | PyInt n => negb (n =? 0)%Z
  | PyTaskList ts => negb (bool_decide (ts = []))
  | PyCoroutine _ | PyFuture _ | PyTask _ | PyQueue _
  | PyPipeline _ | PyRunner _ => true
  end.

(** [TimeoutError] is the builtin.  [AsyncioTimeoutError] is
    [asyncio.TimeoutError] where that is a class of its own, before
    Python 3.11; from 3.11 on the two names are one class and this
    constructor stands for nothing. *)
Inductive exn : Type :=
| CancelledError
| TimeoutError
| AsyncioTimeoutError
| AttributeError (owner attr : string)
| TypeError (msg : string)
| ValueError (msg : string)
| NotImplementedError
| OtherError (msg : string).

(** [isinstance(e, Exception)].  [CancelledError] derives from
    [BaseException] directly (from Python 3.8 on; the code needs 3.9
    for [asyncio.to_thread]); the other exceptions of the model derive
    from [Exception] ([OtherError] stands for the errors of the hooks). *)
Definition is_exception (e : exn) : bool :=
  match e with
  | CancelledError => false
  | _ => true
  end.

Inductive level : Type := DEBUG | INFO | ERROR.

(** [MessengerInterface] is abstract and has no instances of its own:
    [MessengerInterfaceT] stands for a class that derives from it
    directly, defines [connect] and inherits the rest. *)
Inductive class_id : Type :=
| MessengerInterfaceT
| PollingMessengerInterfaceT
| CallbackMessengerInterfaceT.

Definition class_name (k : class_id) : string :=
  match k with
  | MessengerInterfaceT => "MessengerInterface"
  | PollingMessengerInterfaceT => "PollingMessengerInterface"
  | CallbackMessengerInterfaceT => "CallbackMessengerInterface"
  end.

(** What the rest of the program does to the interface while a coroutine
    is suspended at an [await]. *)
Record interference : Type := Interference {
  stop_requested : bool;      (* another coroutine ran [self.running = False] *)
  foreground_finished : bool; (* [run_in_foreground] reached [finished_working = True] *)
  cancel_delivered : bool     (* this coroutine is resumed with [CancelledError] *)
}.

Inductive event : Type :=
| EvLog (l : level) (msg : string)
| EvSetAttr (name : string) (v : pyval)
| EvPut (r : request)
| EvGet (r : request)
| EvLoopCall (b : bool)
| EvFetch (poll_timeout : timeout_t)
| EvSleep (d : nat)
| EvResume (i : interference)
| EvDetach (c : coro)
| EvCoroutine (c : coro)
| EvSpawn (t : nat) (c : coro)
| EvCancel (t : nat)
| EvCall (method : string)
| EvSignal
| EvAcquire (ctx_id : string)
| EvRelease (ctx_id : string)
| EvRunPipeline (ctx_id update : string)
| EvRespond (ctx_id response : string).

(** ** Tasks *)

Inductive task_state : Type :=
| Scheduled (cancel_requested : bool)  (* created, first step not yet run *)
| Suspended (cancel_requested : bool)  (* started, waiting at an [await] *)
| Finished
| Cancelled
| Failed (e : exn).

Definition task_done (s : task_state) : bool :=
  match s with
  | Scheduled _ | Suspended _ => false
  | Finished | Cancelled | Failed _ => true
  end.

(** ** The world *)

Record world : Type := World {
  self_class : class_id;            (* [type(self)] *)
  attrs : gmap string pyval;        (* [self.__dict__] *)
  tasks : list (coro * task_state); (* asyncio tasks, a handle is an index *)
  held : gset string;               (* conversation ids whose lock is held *)
  trace : list event;               (* observable events, oldest first *)
  loop_calls : nat;                 (* calls of [loop()] so far *)
  fetches : nat;                    (* calls of [_get_updates] so far *)
  suspensions : nat;                (* suspensions so far *)
  runs : nat                        (* pipeline runs so far *)
}.

Definition with_attrs (a : gmap string pyval) (w : world) : world :=
  World (self_class w) a (tasks w) (held w) (trace w)
        (loop_calls w) (fetches w) (suspensions w) (runs w).

Definition with_tasks (ts : list (coro * task_state)) (w : world) : world :=
  World (self_class w) (attrs w) ts (held w) (trace w)
        (loop_calls w) (fetches w) (suspensions w) (runs w).

Definition with_held (h : gset string) (w : world) : world :=
  World (self_class w) (attrs w) (tasks w) h (trace w)
        (loop_calls w) (fetches w) (suspensions w) (runs w).

Definition with_trace (t : list event) (w : world) : world :=
  World (self_class w) (attrs w) (tasks w) (held w) t
        (loop_calls w) (fetches w) (suspensions w) (runs w).

Definition record (e : event) (w : world) : world :=
  with_trace (trace w ++ [e]) w.

Definition write (name : string) (v : pyval) (w : world) : world :=
  with_attrs (<[name := v]> (attrs w)) w.

Definition tick_loop (w : world) : world :=
  World (self_class w) (attrs w) (tasks w) (held w) (trace w)
        (S (loop_calls w)) (fetches w) (suspensions w) (runs w).

Definition tick_fetch (w : world) : world :=
  World (self_class w) (attrs w) (tasks w) (held w) (trace w)
        (loop_calls w) (S (fetches w)) (suspensions w) (runs w).

Definition tick_suspension (w : world) : world :=
  World (self_class w) (attrs w) (tasks w) (held w) (trace w)
        (loop_calls w) (fetches w) (S (suspensions w)) (runs w).

Definition tick_run (w : world) : world :=
  World (self_class w) (attrs w) (tasks w) (held w) (trace w)
        (loop_calls w) (fetches w) (suspensions w) (S (runs w)).

(** ** The environment *)

(** How an awaited hook of a subclass ends: it returns a value, possibly
    later than the bound given to [asyncio.wait_for], or it raises. *)
Inductive hook_result (A : Type) : Type :=
| Returns (a : A) (exceeds_bound : bool)
| Raises (e : exn).
Arguments Returns {A} a exceeds_bound.
Arguments Raises {A} e.

Record environment : Type := Environment {
  (* the value of the n-th call of the [loop] predicate *)
  loop_fn : nat -> bool;
  (* the n-th call of [_get_updates]: a list of pairs, or [None] *)
  get_updates : nat -> hook_result (option (list (string * string)));
  (* the n-th pipeline run: the last response of the returned context *)
  run_pipeline : nat -> string -> string -> hook_result string;
  (* what happens during the n-th suspension *)
  resume : nat -> interference;
  (* the state in which a task that was already running is found when
     the n-th suspension, an [await] on it, ends; a state that is not
     done means that it never ends *)
  settle : nat -> task_state;
  (* how the [connect] of a class deriving directly from
     [MessengerInterface] ends: it returns, or raises, [CancelledError]
     when it is cancelled *)
  user_connect : hook_result unit;
  (* the call of [_respond] made after n pipeline runs; the bound it may
     exceed is that of the [wait_for] around the whole request *)
  respond : nat -> string -> string -> hook_result unit;
  (* when a cancellation is delivered at the n-th suspension, an [await]
     of a shielded job: whether that job has come to its end by then (as
     one whose fetch has its answer at hand does, in its first step) *)
  shielded_job_done : nat -> bool;
  (* Python 3.11 or later: [asyncio.TimeoutError] is [TimeoutError] *)
  python_3_11 : bool
}.

(** ** The monad of coroutines *)

Inductive result (A : Type) : Type :=
| Ret (a : A)
| Exc (e : exn)
| Unfinished.
Arguments Ret {A} a.
Arguments Exc {A} e.
Arguments Unfinished {A}.

Definition M (A : Type) : Type := environment -> world -> result A * world.

#[global] Instance M_ret : MRet M := fun A a _ w => (Ret a, w).

#[global] Instance M_bind : MBind M := fun A B f m E w =>
  match m E w with
  | (Ret a, w') => f a E w'
  | (Exc e, w') => (Exc e, w')
  | (Unfinished, w') => (Unfinished, w')
  end.

Definition raise {A} (e : exn) : M A := fun _ w => (Exc e, w).

Definition unfinished {A} : M A := fun _ w => (Unfinished, w).

Definition emit (e : event) : M unit := fun _ w => (Ret tt, record e w).

(** [try: body except <exceptions selected by handler>: ...] *)
Definition try_except {A} (body : M A) (handler : exn -> option (M A)) : M A :=
  fun E w =>
    match body E w with
    | (Exc e, w') =>
        match handler e with
        | Some h => h E w'
        | None => (Exc e, w')
        end
    | r => r
    end.

(** [try: body finally: fin]: [fin] runs on every way out of [body]; an
    exception of [fin] replaces the pending one. *)
Definition try_finally {A} (body : M A) (fin : M unit) : M A :=
  fun E w =>
    match body E w with
    | (Unfinished, w') => (Unfinished, w')
    | (r, w') =>
        match fin E w' with
        | (Ret _, w'') => (r, w'')
        | (Exc e, w'') => (Exc e, w'')
        | (Unfinished, w'') => (Unfinished, w'')
        end
    end.

(** [for x in l: body x] *)
Fixpoint for_each {A} (l : list A) (body : A -> M unit) : M unit :=
  match l with
  | [] => mret tt
  | x :: l' => body x ;; for_each l' body
  end.

(** ** Attributes *)

(** [self.name] *)
Definition getattr (name : string) : M pyval := fun _ w =>
  match attrs w !! name with
  | Some v => (Ret v, w)
  | None => (Exc (AttributeError (class_name (self_class w)) name), w)
  end.

(** [self.name = v] *)
Definition setattr (name : string) (v : pyval) : M unit := fun _ w =>
  (Ret tt, record (EvSetAttr name v) (with_attrs (<[name := v]> (attrs w)) w)).

(** [logger.<level>(msg)] *)
Definition log (l : level) (msg : string) : M unit := emit (EvLog l msg).

(** The object bound to [self.name] changes in place to [v]: no
    assignment is made to the attribute. *)
Definition mutate (name : string) (v : pyval) : M unit := fun _ w =>
  (Ret tt, with_attrs (<[name := v]> (attrs w)) w).

(** [type(self)] *)
Definition type_of_self : M class_id := fun _ w => (Ret (self_class w), w).

(** ** asyncio.Queue *)

(** The queue object lives in [self.request_queue]; [put] and [get]
    change the object, not the attribute binding. *)
Definition store_queue (q : list request) : M unit :=
  mutate "request_queue" (PyQueue q).

(** [self.request_queue.put_nowait(x)], and [await self.request_queue.put(x)]:
    the queue is created without [maxsize], so neither blocks nor raises. *)
Definition queue_put (x : request) : M unit :=
  v ← getattr "request_queue";
  match v with
  | PyQueue q => store_queue (q ++ [x]) ;; emit (EvPut x)
  | _ => raise (AttributeError "object" "put")
  end.

(** [self.request_queue.empty()] *)
Definition queue_empty : M bool :=
  v ← getattr "request_queue";
  match v with
  | PyQueue q => mret (bool_decide (q = []))
  | _ => raise (AttributeError "object" "empty")
  end.

(** [await self.request_queue.get()]: on an empty queue the coroutine
    waits for a producer, which this sequential reading cannot supply. *)
Definition queue_get : M request :=
  v ← getattr "request_queue";
  match v with
  | PyQueue [] => unfinished
  | PyQueue (x :: q) => store_queue q ;; emit (EvGet x) ;; mret x
  | _ => raise (AttributeError "object" "get")
  end.

(** ** Suspension points *)

Definition apply_interference (i : interference) (w : world) : world :=
  let w1 := tick_suspension w in
  let w2 := if stop_requested i then write "running" (PyBool false) w1 else w1 in
  let w3 := if foreground_finished i
            then write "finished_working" (PyBool true) w2 else w2 in
  record (EvResume i) w3.

(** An [await] at which the coroutine yields to the event loop. *)
Definition suspend : M unit := fun E w =>
  let i := resume E (suspensions w) in
  let w' := apply_interference i w in
  if cancel_delivered i then (Exc CancelledError, w') else (Ret tt, w').

(** [await asyncio.sleep(d)] *)
Definition asyncio_sleep (d : nat) : M unit :=
  emit (EvSleep d) ;; suspend.

(** The exception with which [asyncio.wait_for] reports that its bound
    has run out. *)
Definition asyncio_timeout (E : environment) : exn :=
  if python_3_11 E then TimeoutError else AsyncioTimeoutError.

(** [raise asyncio.TimeoutError] *)
Definition raise_timeout {A} : M A := fun E w => (Exc (asyncio_timeout E), w).

(** [await asyncio.wait_for(hook, timeout=bound)] on the outcome of the
    hook: without a bound the result is awaited however late it comes. *)
Definition wait_for {A} (r : hook_result A) (bound : timeout_t) : M A :=
  match r with
  | Raises e => raise e
  | Returns a late =>
      match bound with
      | Some _ => if late then raise_timeout else mret a
      | None => mret a
      end
  end.

(** ** Environment queries *)

(** [loop()]: the predicate is a zero-argument function to [bool]. *)
Definition call_loop : M bool := fun E w =>
  let b := loop_fn E (loop_calls w) in
  (Ret b, record (EvLoopCall b) (tick_loop w)).

(** [self._get_updates()], the abstract hook awaited under [wait_for]. *)
Definition call_get_updates (poll_timeout : timeout_t)
  : M (hook_result (option (list (string * string)))) := fun E w =>
  (Ret (get_updates E (fetches w)), record (EvFetch poll_timeout) (tick_fetch w)).

(** [pipeline._run_pipeline(update, ctx_id)]; the value is the
    [last_response] of the context it returns. *)
Definition call_run_pipeline (ctx_id update : string)
  : M (hook_result string) := fun E w =>
  (Ret (run_pipeline E (runs w) ctx_id update),
   record (EvRunPipeline ctx_id update) (tick_run w)).

(** Calling an [async def] function builds a coroutine object and runs
    nothing of its body. *)
Definition call_async (c : coro) : M pyval :=
  emit (EvCoroutine c) ;; mret (PyCoroutine c).

(** [range(n)] *)
Definition range (n : pyval) : M (list nat) :=
  match n with
  | PyInt z => mret (seq 0 (Z.to_nat z))
  | PyBool b => mret (seq 0 (if b then 1 else 0))
  | _ => raise (TypeError "object cannot be interpreted as an integer")
  end.

(** ** asyncio tasks *)

Definition spawn (c : coro) : M nat := fun _ w =>
  let t := length (tasks w) in
  (Ret t, record (EvSpawn t c) (with_tasks (tasks w ++ [(c, Scheduled false)]) w)).

Definition set_task_state (t : nat) (s : task_state) (w : world) : world :=
  with_tasks (alter (fun cs => (cs.1, s)) t (tasks w)) w.

(** [asyncio.create_task(x)]: only a coroutine is accepted. *)
Definition asyncio_create_task (x : pyval) : M pyval :=
  match x with
  | PyCoroutine c => t ← spawn c; mret (PyTask t)
  | _ => raise (TypeError "a coroutine was expected")
  end.

(** [asyncio.shield(x)]: the coroutine is wrapped in a task of its own
    and the caller gets a plain future standing for it. *)
Definition asyncio_shield (x : pyval) : M pyval :=
  match x with
  | PyCoroutine c => t ← spawn c; mret (PyFuture t)
  | PyTask t | PyFuture t => mret (PyFuture t)
  | _ => raise (TypeError "An asyncio.Future, a coroutine or an awaitable is required")
  end.

(** What a coroutine does in the first step of its task, up to its
    first wait: [_polling_job] has called [_get_updates] and waits for
    it under [wait_for]. *)
Definition first_step (c : coro) : M unit :=
  match c with
  | CoPollingJob poll_timeout => call_get_updates poll_timeout ;; mret tt
  | _ => mret tt
  end.

(** [await asyncio.shield(c)] with the coroutine [c] of body [body].
    [shield] wraps [c] in a task whose first step is queued at once, so
    it has run by the time the awaiting coroutine is resumed.  When no
    cancellation is delivered the job is awaited to its end.  When one
    is, the awaiting coroutine gets [CancelledError] whatever the job
    did: either the job has come to its end by then, or it has run its
    first step at the least and is left running on its own, and what it
    does later is no longer part of this execution. *)
Definition await_shielded (c : coro) (body : M unit) : M unit := fun E w =>
  let i := resume E (suspensions w) in
  let w' := apply_interference i w in
  if cancel_delivered i then
    if shielded_job_done E (suspensions w) then
      match body E w' with
      | (Unfinished, w'') => (Unfinished, w'')
      | (_, w'') => (Exc CancelledError, w'')
      end
    else (Exc CancelledError, record (EvDetach c) (first_step c E w').2)
  else body E w'.

(** [t.cancel()] *)
Definition task_cancel (x : pyval) : M unit :=
  match x with
  | PyTask t | PyFuture t => fun _ w =>
      let w' := record (EvCancel t) w in
      match tasks w !! t with
      | Some (c, Scheduled _) => (Ret tt, set_task_state t (Scheduled true) w')
      | Some (c, Suspended _) => (Ret tt, set_task_state t (Suspended true) w')
      | _ => (Ret tt, w')
      end
  | PyNone => raise (AttributeError "NoneType" "cancel")
  | _ => raise (AttributeError "object" "cancel")
  end.

(** Let the event loop run task [t] until it is done.  A task that was
    never started runs its body [interp c] from the beginning (or is
    cancelled unstarted); one that was already under way ends as the
    environment says. *)
Definition drive_task (interp : coro -> M unit) (t : nat) : M unit := fun E w =>
  match tasks w !! t with
  | Some (c, Scheduled false) =>
      match interp c E w with
      | (Ret _, w') => (Ret tt, set_task_state t Finished w')
      | (Exc CancelledError, w') => (Ret tt, set_task_state t Cancelled w')
      | (Exc e, w') => (Ret tt, set_task_state t (Failed e) w')
      | (Unfinished, w') => (Unfinished, w')
      end
  | Some (c, Scheduled true) => (Ret tt, set_task_state t Cancelled w)
  | Some (c, Suspended _) =>
      let s := settle E (suspensions w) in
      if task_done s then (Ret tt, set_task_state t s w) else (Unfinished, w)
  | _ => (Ret tt, w)
  end.

(** [await t] *)
Definition await_task (interp : coro -> M unit) (x : pyval) : M unit :=
  match x with
  | PyTask t | PyFuture t => fun E w =>
      let outcome (w1 : world) : result unit * world :=
        match tasks w1 !! t with
        | Some (_, Cancelled) => (Exc CancelledError, w1)
        | Some (_, Failed e) => (Exc e, w1)
        | _ => (Ret tt, w1)
        end in
      match tasks w !! t with
      | Some (_, s) =>
          if task_done s then outcome w
          else match (drive_task interp t ;; suspend) E w with
               | (Ret _, w1) => outcome w1
               | r => r
               end
      | None => (Exc (OtherError "unknown task"), w)
      end
  | _ => raise (TypeError "object can't be used in 'await' expression")
  end.

(** [await asyncio.wait(ts)]: an empty collection is refused with
    [ValueError]; otherwise the caller is suspended until every task is
    done, whatever their results. *)
Definition asyncio_wait (interp : coro -> M unit) (ts : pyval) : M unit :=
  match ts with
  | PyTaskList [] => raise (ValueError "Set of Tasks/Futures is empty.")
  | PyTaskList l => for_each l (drive_task interp) ;; suspend
  | _ => raise (TypeError "expect a list of futures")
  end.

(** ** Conversation locks *)

(** Modelled from the spec: [Pipeline.context_lock], which is not among
    the sources, is "one mutual-exclusion lock per conversation id,
    created lazily on first use"; [held] is the set of ids whose lock is
    taken.  A coroutine that finds the lock taken waits for its owner. *)
Definition acquire (ctx_id : string) : M unit := fun _ w =>
  if bool_decide (ctx_id ∈ held w) then (Unfinished, w)
  else (Ret tt, record (EvAcquire ctx_id) (with_held ({[ctx_id]} ∪ held w) w)).

Definition release (ctx_id : string) : M unit := fun _ w =>
  (Ret tt, record (EvRelease ctx_id) (with_held (held w ∖ {[ctx_id]}) w)).

(** [async with self.pipeline.context_lock[ctx_id]: body] *)
Definition async_with_context_lock {A} (ctx_id : string) (body : M A) : M A :=
  p ← getattr "pipeline";
  match p with
  | PyPipeline _ => acquire ctx_id ;; try_finally body (release ctx_id)
  | PyNone => raise (AttributeError "NoneType" "context_lock")
  | _ => raise (AttributeError "object" "context_lock")
  end.

(** A freshly allocated object of class [k], before [__init__]. *)
Definition new_object (k : class_id) : world :=
  World k ∅ [] ∅ [] 0 0 0 0.

(** ** class MessengerInterface *)

Module MessengerInterface.

Definition __init__ : M unit :=
  setattr "task" PyNone ;;
  setattr "pipeline" PyNone ;;
  setattr "running_in_foreground" (PyBool false) ;;
  setattr "running" (PyBool true) ;;
  setattr "finished_working" (PyBool false).

(** Abstract: the body below is what [super().connect(...)] runs.  A
    class deriving directly from [MessengerInterface] brings its own
    [connect], whose outcome is the environment's. *)
Definition connect : M unit := raise NotImplementedError.

Definition subclass_connect : M unit := fun E w =>
  (match user_connect E with
   | Returns _ _ => Ret tt
   | Raises e => Exc e
   end, record (EvCall "connect") w).

(** The placeholder: [pass]. *)
Definition cleanup : M unit := mret tt.

End MessengerInterface.

(** ** class MessengerInterfaceWithAttachments(MessengerInterface) *)

(** What the constructor takes from the operating system.  A [Path] is
    identified with its [str]. *)
Record filesystem : Type := Filesystem {
  gettempdir : string;                 (* [tempfile.gettempdir()] *)
  absolute : string → string;          (* [str(Path(p).absolute())] *)
  joinpath : string → string → string; (* [str(Path(p) / name)] *)
  (* how [Path(p).mkdir(parents=True, exist_ok=True)] ends *)
  mkdir_outcome : string → option exn
}.

(** An object of a class deriving from [MessengerInterfaceWithAttachments]:
    what it has as a [MessengerInterface] (class, attributes, log), the
    attribute that this class adds, and the directories it asked for. *)
Record attachments_object : Type := AttachmentsObject {
  lifecycle : world;
  attachments_directory : option string; (* [None]: not assigned yet *)
  mkdir_calls : list string
}.

Module MessengerInterfaceWithAttachments.

(** [self.attachments_directory = p] *)
Definition set_attachments_directory (p : string) (o : attachments_object)
  : attachments_object :=
  AttachmentsObject (lifecycle o) (Some p) (mkdir_calls o).

(** [logger.info(msg)] *)
Definition info (msg : string) (o : attachments_object) : attachments_object :=
  AttachmentsObject (record (EvLog INFO msg) (lifecycle o))
                    (attachments_directory o) (mkdir_calls o).

(** [self.attachments_directory.mkdir(parents=True, exist_ok=True)] *)
Definition mkdir (fs : filesystem) (o : attachments_object)
  : result unit * attachments_object :=
  match attachments_directory o with
  | Some p =>
      (match mkdir_outcome fs p with
       | None => Ret tt
       | Some e => Exc e
       end,
       AttachmentsObject (lifecycle o) (attachments_directory o) (mkdir_calls o ++ [p]))
  | None =>
      (Exc (AttributeError (class_name (self_class (lifecycle o))) "attachments_directory"), o)
  end.

(** No call of [super().__init__()]. *)
Definition __init__ (fs : filesystem) (directory : option string)
    (o : attachments_object) : result unit * attachments_object :=
  let tempdir := gettempdir fs in
  let name := class_name (self_class (lifecycle o)) in
  let warning_start := "Attachments directory for " +:+ name +:+ " messenger interface" in
  let warning_end := "attachment data won't be cached locally!" in
  mkdir fs
    (match directory with
     | Some given =>
         if negb (String.prefix tempdir (absolute fs given))
         then set_attachments_directory given o
         else info (warning_start +:+ " is in tempdir, so " +:+ warning_end)
                (set_attachments_directory given o)
     | None =>
         info (warning_start +:+ " is None, so will be set to tempdir and " +:+ warning_end)
           (set_attachments_directory (joinpath fs tempdir ("chatsky-cache-" +:+ name)) o)
     end).

End MessengerInterfaceWithAttachments.

(** ** class PollingMessengerInterface(MessengerInterface) *)

Inductive loop_control : Type := Break | Continue.

Module PollingMessengerInterface.

Definition __init__ (number_of_workers : Z) : M unit :=
  setattr "request_queue" (PyQueue []) ;;
  setattr "number_of_workers" (PyInt number_of_workers) ;;
  setattr "_worker_tasks" (PyTaskList []) ;;
  MessengerInterface.__init__.

(** [self._respond(ctx_id, last_response)], the abstract hook of the
    subclass: the call is recorded, its outcome is the environment's. *)
Definition _respond (ctx_id last_response : string)
  : M (hook_result unit) := fun E w =>
  (Ret (respond E (runs w) ctx_id last_response),
   record (EvRespond ctx_id last_response) w).

(** [bound] is the timeout of the [wait_for] under which the whole
    coroutine is awaited: it cuts the pipeline run, and the call of
    [_respond] after it, at whichever the time runs out. *)
Definition _process_request (bound : timeout_t) (ctx_id update : string)
  : M unit :=
  r ← call_run_pipeline ctx_id update;
  last_response ← wait_for r bound;
  sent ← _respond ctx_id last_response;
  wait_for sent bound.

(** [asyncio.to_thread(f, *args)] with an [async def] function [f]: the
    thread calls [f], which only builds the coroutine object.  The job
    waits for the thread, and then under [wait_for], inside its
    [async with] block; the executions followed here are those in which
    both waits come to an end, the second with the outcome of the hooks
    awaited there (a [CancelledError], when the job is cancelled). *)
Definition to_thread (c : coro) : M pyval := call_async c.

(** [await asyncio.wait_for(x, timeout=bound)] on a coroutine object *)
Definition wait_for_coroutine (x : pyval) (bound : timeout_t) : M unit :=
  match x with
  | PyCoroutine (CoProcessRequest ctx_id update) =>
      _process_request bound ctx_id update
  | PyCoroutine _ => mret tt
  | _ => raise (TypeError "An asyncio.Future, a coroutine or an awaitable is required")
  end.

Definition _worker_job (worker_timeout : timeout_t) : M bool :=
  request ← queue_get;
  match request with
  | Some (ctx_id, update) =>
      async_with_context_lock ctx_id
        (co ← to_thread (CoProcessRequest ctx_id update);
         wait_for_coroutine co worker_timeout) ;;
      mret false
  | None => mret true
  end.

(** [no_more_jobs = self._worker_job(...)] is a call without [await]:
    [no_more_jobs] is the coroutine object. *)
Fixpoint _worker (fuel : nat) (worker_timeout : timeout_t) : M unit :=
  match fuel with
  | O => unfinished
  | S fuel' =>
      running ← getattr "running";
      go ← (if truthy running then mret true
            else e ← queue_empty; mret (negb e));
      if (go : bool) then
        ctl ← try_except
                (no_more_jobs ← call_async (CoWorkerJob worker_timeout);
                 if truthy no_more_jobs
                 then log INFO "Worker finished working - all remaining requests have been processed." ;;
                      mret Break
                 else mret Continue)
                (fun e => match e with
                          | TimeoutError =>
                              Some (log INFO "worker couldn't process request in time. A request *may* have been lost." ;;
                                    mret Continue)
                          | _ => None
                          end);
        match ctl with
        | Break => mret tt
        | Continue => _worker fuel' worker_timeout
        end
      else mret tt
  end.

Definition _polling_job (poll_timeout : timeout_t) : M unit :=
  try_except
    (r ← call_get_updates poll_timeout;
     received_updates ← wait_for r poll_timeout;
     match received_updates with
     | Some l => for_each l (fun update => queue_put (Some update))
     | None => mret tt
     end)
    (fun e => match e with
              | TimeoutError => Some (log DEBUG "polling_job failed - timed out")
              | _ => None
              end).

(** The [while loop() and self.running] of [_polling_loop]. *)
Fixpoint polling_while (fuel : nat) (poll_timeout : timeout_t) (timeout : nat)
  : M unit :=
  match fuel with
  | O => unfinished
  | S fuel' =>
      l ← call_loop;
      go ← (if (l : bool)
            then running ← getattr "running"; mret (truthy running)
            else mret false);
      if (go : bool) then
        await_shielded (CoPollingJob poll_timeout) (_polling_job poll_timeout) ;;
        asyncio_sleep timeout ;;
        polling_while fuel' poll_timeout timeout
      else mret tt
  end.

Definition _polling_loop (fuel : nat) (poll_timeout : timeout_t) (timeout : nat)
  : M unit :=
  try_finally
    (polling_while fuel poll_timeout timeout)
    (setattr "running" (PyBool false) ;;
     l ← call_loop;
     (if negb (l : bool)
      then log INFO "polling_loop stopped working - the loop() condition was false"
      else log INFO "polling_loop stopped working - the stop signal was received.") ;;
     n ← getattr "number_of_workers";
     r ← range n;
     for_each r (fun _ => queue_put None)).

(** [self._worker_tasks.append(task)] *)
Definition append_worker_task (task : pyval) : M unit :=
  ts ← getattr "_worker_tasks";
  match ts, task with
  | PyTaskList l, (PyTask t | PyFuture t) =>
      mutate "_worker_tasks" (PyTaskList (l ++ [t]))
  | _, _ => raise (AttributeError "object" "append")
  end.

Definition connect (fuel : nat) (pipeline_runner : pyval)
    (poll_timeout worker_timeout : timeout_t) (timeout : nat) : M unit :=
  n ← getattr "number_of_workers";
  r ← range n;
  for_each r (fun _ =>
    co ← call_async (CoWorker worker_timeout);
    shielded ← asyncio_shield co;
    task ← asyncio_create_task shielded;
    append_worker_task task) ;;
  _polling_loop fuel poll_timeout timeout.

(** The bodies of the tasks this class creates. *)
Definition task_body (fuel : nat) (c : coro) : M unit :=
  match c with
  | CoWorker worker_timeout => _worker fuel worker_timeout
  | CoPollingJob poll_timeout => _polling_job poll_timeout
  | _ => mret tt
  end.

Definition cleanup (fuel : nat) : M unit :=
  MessengerInterface.cleanup ;;
  ts ← getattr "_worker_tasks";
  asyncio_wait (task_body fuel) ts.

Definition _on_exception (e : exn) : M unit :=
  k ← type_of_self;
  if is_exception e
  then log ERROR ("Exception in " +:+ class_name k +:+ " loop!")
  else log INFO (class_name k +:+ " has stopped polling.").

End PollingMessengerInterface.

(** ** class CallbackMessengerInterface(MessengerInterface) *)

Module CallbackMessengerInterface.

(** No call of [super().__init__()]. *)
Definition __init__ : M unit :=
  setattr "_pipeline_runner" PyNone.

Definition connect (pipeline_runner : pyval) : M unit :=
  setattr "_pipeline_runner" pipeline_runner.

End CallbackMessengerInterface.

(** ** Methods of MessengerInterface that dispatch on the class of [self] *)

(** [self.connect(pipeline_runner, loop=..., poll_timeout=..., worker_timeout=...,
    timeout=...)] as called by [run_in_foreground]: the call builds the
    coroutine object, and binds the arguments first.  The [connect] of the
    callback class takes [pipeline_runner] only. *)
Definition call_connect (poll_timeout worker_timeout : timeout_t) (timeout : nat)
  : M pyval := fun E w =>
  match self_class w with
  | CallbackMessengerInterfaceT =>
      (Exc (TypeError "connect() got an unexpected keyword argument 'loop'"), w)
  | _ => call_async (CoConnect poll_timeout worker_timeout timeout) E w
  end.

(** The body of a task, by the class of [self]. *)
Definition dispatch_task_body (fuel : nat) (pipeline_runner : pyval) (c : coro)
  : M unit :=
  fun E w =>
  match c with
  | CoConnect poll_timeout worker_timeout timeout =>
      match self_class w with
      | MessengerInterfaceT => MessengerInterface.subclass_connect E w
      | PollingMessengerInterfaceT =>
          PollingMessengerInterface.connect fuel pipeline_runner
            poll_timeout worker_timeout timeout E w
      | CallbackMessengerInterfaceT =>
          CallbackMessengerInterface.connect pipeline_runner E w
      end
  | _ => PollingMessengerInterface.task_body fuel c E w
  end.

(** The [cleanup] of the class of [self]; the callback class inherits
    the placeholder. *)
Definition dispatch_cleanup (fuel : nat) : M unit := fun E w =>
  match self_class w with
  | PollingMessengerInterfaceT => PollingMessengerInterface.cleanup fuel E w
  | _ => MessengerInterface.cleanup E w
  end.

(** [await self.cleanup()] *)
Definition call_cleanup (fuel : nat) : M unit :=
  emit (EvCall "cleanup") ;; dispatch_cleanup fuel.

(** [signal.signal(signal.SIGINT, placeholder_func)] *)
Definition install_sigint_handler : M unit := emit EvSignal.

Definition run_in_foreground (fuel : nat) (pipeline pipeline_runner : pyval)
    (poll_timeout worker_timeout : timeout_t) (timeout : nat) : M unit :=
  setattr "running_in_foreground" (PyBool true) ;;
  setattr "pipeline" pipeline ;;
  install_sigint_handler ;;
  co ← call_connect poll_timeout worker_timeout timeout;
  task ← asyncio_create_task co;
  setattr "task" task ;;
  try_finally
    (try_except
       (t ← getattr "task"; await_task (dispatch_task_body fuel pipeline_runner) t)
       (fun e => match e with
                 | CancelledError => Some (asyncio_sleep 0)
                 | _ => None
                 end))
    (call_cleanup fuel) ;;
  setattr "finished_working" (PyBool true).

Definition shutdown (fuel : nat) (pipeline_runner : pyval) : M unit :=
  log INFO "messenger_interface.shutdown() called - shutting down interface" ;;
  setattr "running" (PyBool false) ;;
  t ← getattr "task";
  task_cancel t ;;
  try_except
    (t ← getattr "task"; await_task (dispatch_task_body fuel pipeline_runner) t)
    (fun e => match e with
              | CancelledError =>
                  Some (fw ← getattr "finished_working";
                        if negb (truthy fw) then raise CancelledError
                        else mret tt)
              | _ => None
              end) ;;
  k ← type_of_self;
  log INFO (class_name k +:+ " has stopped working - SIGINT received").

(** * Specification vocabulary *)

(** ** Traces *)

(** The assignment [self.running = False]. *)
Definition clear_running : event := EvSetAttr "running" (PyBool false).

(** The events recorded between two worlds of one execution. *)
Definition new_events (w w' : world) : list event :=
  drop (length (trace w)) (trace w').

(** Every occurrence of [a] comes before every occurrence of [b]. *)
Definition precedes (a b : event) (tr : list event) : Prop :=
  ∀ i j, tr !! i = Some a → tr !! j = Some b → i < j.

Definition is_sentinel_put (e : event) : bool :=
  match e with
  | EvPut None => true
  | _ => false
  end.

(** Number of sentinels enqueued in a trace. *)
Definition sentinels (tr : list event) : nat :=
  length (List.filter is_sentinel_put tr).

Definition is_run (e : event) : bool :=
  match e with
  | EvRunPipeline _ _ => true
  | _ => false
  end.

(** Number of invocations of the pipeline runner in a trace. *)
Definition runner_invocations (tr : list event) : nat :=
  length (List.filter is_run tr).

(** ** Kinds of events, of attribute writes and of exceptions *)

Definition any_event (e : event) : Prop := True.

Definition any_write (k : string) (v : pyval) : Prop := True.

Definition no_write (k : string) (v : pyval) : Prop := False.

(** All that a worker records. *)
Definition worker_event (e : event) : Prop :=
  match e with
  | EvCoroutine (CoWorkerJob _) | EvLog INFO _ => True
  | _ => False
  end.

Definition not_run (e : event) : Prop :=
  match e with
  | EvRunPipeline _ _ => False
  | _ => True
  end.

(** What the [while] loop of [_polling_loop] records: neither a
    sentinel nor an assignment to an attribute. *)
Definition loop_body_event (e : event) : Prop :=
  match e with
  | EvPut None | EvSetAttr _ _ => False
  | _ => True
  end.

(** The attributes that the [finally] block of [_polling_loop] reads. *)
Definition polling_attrs (n : Z) (a : gmap string pyval) : Prop :=
  a !! "number_of_workers" = Some (PyInt n) ∧
  ∃ q, a !! "request_queue" = Some (PyQueue q).

(** The writes that keep them: none to [number_of_workers], and only
    queues to [request_queue]. *)
Definition polling_write (k : string) (v : pyval) : Prop :=
  k ≠ "number_of_workers" ∧ (k = "request_queue" → ∃ q, v = PyQueue q).

(** [_worker_tasks] is the empty list. *)
Definition worker_tasks_empty (a : gmap string pyval) : Prop :=
  a !! "_worker_tasks" = Some (PyTaskList []).

(** The writes that keep it so. *)
Definition not_worker_tasks (k : string) (v : pyval) : Prop :=
  k ≠ "_worker_tasks".

Definition not_timeout (e : exn) : Prop :=
  match e with
  | TimeoutError => False
  | _ => True
  end.

(** What the [n]-th call of [_get_updates] delivers to a polling job
    whose bound is [poll_timeout]: the list it returns, when it returns
    one, and in time. *)
Definition delivered (E : environment) (poll_timeout : timeout_t) (n : nat)
  : list (string * string) :=
  match get_updates E n with
  | Returns (Some l) late =>
      match poll_timeout with
      | Some _ => if late then [] else l
      | None => l
      end
  | _ => []
  end.

(** The updates delivered by [k] calls of [_get_updates] in a row, the
    first of which is the [n]-th, in the order of the calls. *)
Definition delivered_by (E : environment) (poll_timeout : timeout_t) (n k : nat)
  : list (string * string) :=
  flat_map (delivered E poll_timeout) (seq n k).

(** How [_worker_job] ends once it has called [_respond]: it returns
    [False] when the hook returns within [worker_timeout], and ends with
    the exception of the hook, or with the timeout, otherwise. *)
Definition worker_job_end (E : environment) (worker_timeout : timeout_t)
    (sent : hook_result unit) : result bool :=
  match sent with
  | Raises e => Exc e
  | Returns _ late =>
      match worker_timeout with
      | Some _ => if late then Exc (asyncio_timeout E) else Ret false
      | None => Ret false
      end
  end.

(** The log records that [_on_exception] writes: any record at error
    level, and the farewell at info level. *)
Definition on_exception_record (ev : event) : Prop :=
  match ev with
  | EvLog ERROR _ => True
  | EvLog INFO msg => ∃ k, msg = class_name k +:+ " has stopped polling."
  | _ => False
  end.

Definition not_on_exception_record (ev : event) : Prop := ¬ on_exception_record ev.

(** ** Relations between the worlds of an execution *)

(** [maintains R m]: whatever the environment, the world in which [m]
    ends is related by [R] to the one in which it started. *)
Definition maintains {A} (R : world → world → Prop) (m : M A) : Prop :=
  ∀ E w, R w (m E w).2.

(** [R] is closed under the elementary changes of the world: recording
    an event allowed by [aev], binding or mutating an attribute allowed
    by [awr], counting, and changes of tasks and locks. *)
Record closed_under (aev : event → Prop) (awr : string → pyval → Prop)
    (R : world → world → Prop) : Prop := ClosedUnder {
  cu_refl : ∀ w, R w w;
  cu_trans : ∀ w1 w2 w3, R w1 w2 → R w2 w3 → R w1 w3;
  cu_record : ∀ e w, aev e → R w (record e w);
  cu_write : ∀ k v w, awr k v → R w (with_attrs (<[k := v]> (attrs w)) w);
  cu_tick_loop : ∀ w, R w (tick_loop w);
  cu_tick_fetch : ∀ w, R w (tick_fetch w);
  cu_tick_suspension : ∀ w, R w (tick_suspension w);
  cu_tick_run : ∀ w, R w (tick_run w);
  cu_tasks : ∀ ts w, R w (with_tasks ts w);
  cu_held : ∀ h w, R w (with_held h w)
}.

(** [aev] and [awr] allow what a suspension lets the rest of the program
    do. *)
Definition allows_interference (aev : event → Prop)
    (awr : string → pyval → Prop) : Prop :=
  awr "running" (PyBool false) ∧ awr "finished_working" (PyBool true) ∧
  ∀ i, aev (EvResume i).

Definition allows_queue (awr : string → pyval → Prop) : Prop :=
  ∀ q, awr "request_queue" (PyQueue q).

(** The trace of [w'] is that of [w] followed by events of kind [ok]. *)
Definition trace_grows (ok : event → Prop) (w w' : world) : Prop :=
  ∃ evs, trace w' = trace w ++ evs ∧ Forall ok evs.

Definition keeps_attrs (I : gmap string pyval → Prop) (w w' : world) : Prop :=
  I (attrs w) → I (attrs w').

Definition same_attrs (w w' : world) : Prop := attrs w' = attrs w.

(** [m] ends with no other exceptions than those of kind [P]. *)
Definition raises_only {A} (P : exn → Prop) (m : M A) : Prop :=
  ∀ E w e, (m E w).1 = Exc e → P e.

(** ** Intermediate worlds of shutdown and run_in_foreground *)

(** What [await t] gives on a task that is done. *)
Definition task_outcome (s : task_state) : result unit :=
  match s with
  | Cancelled => Exc CancelledError
  | Failed e => Exc e
  | _ => Ret tt
  end.

(** The state in which [shutdown] leaves the task that it has cancelled
    and awaited: a task that was done stays as it was; one whose first
    step had not run is cancelled before it; one that was under way
    ends as the environment says, or, if it never ends, is still under
    way with the cancellation requested. *)
Definition task_after_shutdown (E : environment) (w : world) (s : task_state)
  : task_state :=
  match s with
  | Scheduled _ => Cancelled
  | Suspended _ =>
      if task_done (settle E (suspensions w)) then settle E (suspensions w)
      else Suspended true
  | _ => s
  end.

(** The world in which [shutdown] enters its [try]. *)
Definition shutdown_cancelled (t : nat) (E : environment) (w : world) : world :=
  (task_cancel (PyTask t) E
     (record clear_running
        (write "running" (PyBool false)
           (record (EvLog INFO "messenger_interface.shutdown() called - shutting down interface") w)))).2.

(** The last log line of [shutdown]. *)
Definition stopped_message (w : world) : event :=
  EvLog INFO (class_name (self_class w) +:+ " has stopped working - SIGINT received").

(** The state in which the connect task of a class deriving directly
    from [MessengerInterface] ends. *)
Definition connect_end_state (E : environment) : task_state :=
  match user_connect E with
  | Returns _ _ => Finished
  | Raises CancelledError => Cancelled
  | Raises e => Failed e
  end.

(** The assignment [self.finished_working = True]. *)
Definition set_finished : event := EvSetAttr "finished_working" (PyBool true).

(** The world in which [run_in_foreground] enters its [try]. *)
Definition foreground_started (p : pyval) (pt wt : timeout_t) (d : nat)
    (w : world) : world :=
  let t := length (tasks w) in
  let w1 := record (EvSetAttr "running_in_foreground" (PyBool true))
              (write "running_in_foreground" (PyBool true) w) in
  let w2 := record EvSignal
              (record (EvSetAttr "pipeline" p) (write "pipeline" p w1)) in
  let w3 := record (EvCoroutine (CoConnect pt wt d)) w2 in
  let w4 := record (EvSpawn t (CoConnect pt wt d))
              (with_tasks (tasks w ++ [(CoConnect pt wt d, Scheduled false)]) w3) in
  record (EvSetAttr "task" (PyTask t)) (write "task" (PyTask t) w4).

(** ** The end of _polling_loop *)

(** The text of the [finally] block of [_polling_loop]. *)
Definition polling_loop_finally_block : M unit :=
  setattr "running" (PyBool false) ;;
  l ← call_loop;
  (if negb (l : bool)
   then log INFO "polling_loop stopped working - the loop() condition was false"
   else log INFO "polling_loop stopped working - the stop signal was received.") ;;
  n ← getattr "number_of_workers";
  r ← range n;
  for_each r (fun _ => queue_put None).

(** The log record with which [_polling_loop] says why it stopped,
    [b] being the value of the call of [loop()] made in the [finally]
    block. *)
Definition stop_reason (b : bool) : event :=
  EvLog INFO (if b
              then "polling_loop stopped working - the stop signal was received."
              else "polling_loop stopped working - the loop() condition was false").

(** ** Concrete environments and interfaces *)

Definition quiet : interference := Interference false false false.

(** The loop predicate is false from the first call on, nothing is
    fetched, nobody interferes; the [connect] of a direct subclass
    returns. *)
Definition idle_env : environment :=
  Environment (λ _, false) (λ _, Returns None false)
              (λ _ _ _, Returns "ok" false) (λ _, quiet) (λ _, Finished)
              (Returns tt false)
              (λ _ _ _, Returns tt false) (λ _, false) false.

(** The loop predicate holds, nothing is fetched, and the first
    suspension delivers a cancellation. *)
Definition cancelling_env : environment :=
  Environment (λ _, true) (λ _, Returns None false)
              (λ _ _ _, Returns "ok" false)
              (λ n, Interference false false (n =? 0)) (λ _, Cancelled)
              (Raises CancelledError)
              (λ _ _ _, Returns tt false) (λ _, false) false.

(** The loop predicate holds, the first suspension delivers a
    cancellation, and the polling job shielded there has its three
    updates at hand: it has run to its end by then. *)
Definition prompt_env : environment :=
  Environment (λ _, true)
              (λ _, Returns (Some [("A", "one"); ("B", "two"); ("A", "three")]) false)
              (λ _ _ _, Returns "ok" false)
              (λ n, Interference false false (n =? 0)) (λ _, Cancelled)
              (Raises CancelledError)
              (λ _ _ _, Returns tt false) (λ n, n =? 0) false.

(** The loop predicate holds once; the fetch delivers three updates in
    time. *)
Definition delivering_env : environment :=
  Environment (λ n, n <? 1)
              (λ _, Returns (Some [("A", "one"); ("B", "two"); ("A", "three")]) false)
              (λ _ _ _, Returns "ok" false) (λ _, quiet) (λ _, Finished)
              (Returns tt false)
              (λ _ _ _, Returns tt false) (λ _, false) false.

(** The loop predicate holds once; every fetch comes too late. *)
Definition slow_env : environment :=
  Environment (λ n, n <? 1) (λ _, Returns None true)
              (λ _ _ _, Returns "ok" false) (λ _, quiet) (λ _, Finished)
              (Returns tt false)
              (λ _ _ _, Returns tt false) (λ _, false) false.

(** The [connect] of a direct subclass is cancelled; nobody interferes. *)
Definition cancelled_connect_env : environment :=
  Environment (λ _, false) (λ _, Returns None false)
              (λ _ _ _, Returns "ok" false) (λ _, quiet) (λ _, Cancelled)
              (Raises CancelledError)
              (λ _ _ _, Returns tt false) (λ _, false) false.

(** The [connect] of a direct subclass is cancelled, and so is the
    foreground coroutine at its second suspension, the
    [asyncio.sleep(0)] of its handler. *)
Definition recancelling_env : environment :=
  Environment (λ _, false) (λ _, Returns None false)
              (λ _ _ _, Returns "ok" false)
              (λ n, Interference false false (n =? 1)) (λ _, Cancelled)
              (Raises CancelledError)
              (λ _ _ _, Returns tt false) (λ _, false) false.

(** The pipeline run of every request fails. *)
Definition failing_run_env : environment :=
  Environment (λ _, false) (λ _, Returns None false)
              (λ _ _ _, Raises (ValueError "bad request")) (λ _, quiet) (λ _, Finished)
              (Returns tt false)
              (λ _ _ _, Returns tt false) (λ _, false) false.

(** The pipeline runs, and the response cannot be sent. *)
Definition failing_respond_env : environment :=
  Environment (λ _, false) (λ _, Returns None false)
              (λ _ _ _, Returns "ok" false) (λ _, quiet) (λ _, Finished)
              (Returns tt false)
              (λ _ _ _, Raises (OtherError "user unreachable")) (λ _, false) false.

(** The loop predicate holds for ever and every fetch fails. *)
Definition failing_fetch_env : environment :=
  Environment (λ _, true) (λ _, Raises (OtherError "connection lost"))
              (λ _ _ _, Returns "ok" false) (λ _, quiet) (λ _, Finished)
              (Returns tt false)
              (λ _ _ _, Returns tt false) (λ _, false) false.

(** The [connect] of a direct subclass fails. *)
Definition failing_connect_env : environment :=
  Environment (λ _, false) (λ _, Returns None false)
              (λ _ _ _, Returns "ok" false) (λ _, quiet) (λ _, Finished)
              (Raises (OtherError "no network"))
              (λ _ _ _, Returns tt false) (λ _, false) false.

(** The [connect] of a direct subclass is cancelled, and the foreground
    run comes to its end, setting [finished_working], while another
    coroutine is suspended. *)
Definition finishing_env : environment :=
  Environment (λ _, false) (λ _, Returns None false)
              (λ _ _ _, Returns "ok" false)
              (λ _, Interference false true false) (λ _, Cancelled)
              (Raises CancelledError)
              (λ _ _ _, Returns tt false) (λ _, false) false.

(** The loop predicate holds for ever, the fetch delivers three updates
    in time, and [running] is cleared while the loop sleeps after its
    first cycle. *)
Definition stopping_env : environment :=
  Environment (λ _, true)
              (λ _, Returns (Some [("A", "one"); ("B", "two"); ("A", "three")]) false)
              (λ _ _ _, Returns "ok" false)
              (λ n, Interference (n =? 1) false false) (λ _, Finished)
              (Returns tt false)
              (λ _ _ _, Returns tt false) (λ _, false) false.

(** The same environment on Python 3.11 or later. *)
Definition on_python_3_11 (E : environment) : environment :=
  Environment (loop_fn E) (get_updates E) (run_pipeline E) (resume E) (settle E)
              (user_connect E) (respond E) (shielded_job_done E) true.

(** New objects, after [__init__]. *)
Definition base_interface : world :=
  (MessengerInterface.__init__ idle_env (new_object MessengerInterfaceT)).2.

Definition polling_interface (number_of_workers : Z) : world :=
  (PollingMessengerInterface.__init__ number_of_workers idle_env
     (new_object PollingMessengerInterfaceT)).2.

Definition callback_interface : world :=
  (CallbackMessengerInterface.__init__ idle_env
     (new_object CallbackMessengerInterfaceT)).2.

(** The interface with the queue holding [q]. *)
Definition with_queue (q : list request) (w : world) : world :=
  write "request_queue" (PyQueue q) w.

(** An interface of a class deriving directly from [MessengerInterface]
    after a foreground run whose connect task has completed: the run
    has returned and has set [finished_working]. *)
Definition finished_interface : world :=
  (run_in_foreground 1 (PyPipeline "pipeline") (PyRunner "run") None None 0
     idle_env base_interface).2.

(** The same after a foreground run whose connect task was cancelled. *)
Definition cancelled_interface : world :=
  (run_in_foreground 1 (PyPipeline "pipeline") (PyRunner "run") None None 0
     cancelled_connect_env base_interface).2.

(** The same after a foreground run whose connect task was cancelled
    and which was cancelled in its turn while it yielded in its handler:
    [finished_working] is still false. *)
Definition interrupted_interface : world :=
  (run_in_foreground 1 (PyPipeline "pipeline") (PyRunner "run") None None 0
     recancelling_env base_interface).2.

(** The interface in a foreground run that has created the connect task,
    whose first step has not run yet. *)
Definition started_interface : world :=
  foreground_started (PyPipeline "pipeline") None None 0 base_interface.

(** The same with the connect task under way, waiting at an [await]. *)
Definition running_interface : world :=
  set_task_state 0 (Suspended false) started_interface.

(** A polling interface in a foreground run, which has made the
    pipeline known, with the queue holding [q]. *)
Definition serving_interface (q : list request) : world :=
  with_queue q (write "pipeline" (PyPipeline "pipeline") (polling_interface 2)).

(** An interface whose connect task has failed. *)
Definition failed_interface : world :=
  write "task" (PyTask 0)
    (with_tasks [(CoConnect None None 0, Failed (TypeError "a coroutine was expected"))]
       (polling_interface 2)).

(** A freshly allocated object of a class with attachments. *)
Definition new_attachments_object : attachments_object :=
  AttachmentsObject (new_object MessengerInterfaceT) None [].

(** A POSIX system whose temporary directory is [/tmp] and on which
    every directory can be created; the paths handed to it are
    absolute already. *)
Definition posix_fs : filesystem :=
  Filesystem "/tmp" (λ p, p) (λ p name, p +:+ "/" +:+ name) (λ _, None).

(** * Properties *)

(** The methods of the polling class are written unqualified from here on. *)
Import PollingMessengerInterface.

(** ** Relations maintained by every step of a computation *)

(** Most invariants below say that an execution only adds events of some
    kind to the trace, or only writes attributes of some kind.  They are
    proved once, for the monad and for every primitive, for any relation
    that the elementary changes of the world respect; a method is then
    covered by following its text. *)

Section Maintains.
Context {aev : event → Prop} {awr : string → pyval → Prop}
        {R : world → world → Prop} (HR : closed_under aev awr R).

Lemma maintains_ret {A} (a : A) : maintains R (mret a).
Proof. intros E w. apply (cu_refl _ _ _ HR). Qed.

Lemma maintains_raise {A} e : maintains R (raise e : M A).
Proof. intros E w. apply (cu_refl _ _ _ HR). Qed.

Lemma maintains_unfinished {A} : maintains R (unfinished : M A).
Proof. intros E w. apply (cu_refl _ _ _ HR). Qed.

Lemma maintains_bind {A B} (m : M A) (f : A → M B) :
  maintains R m → (∀ a, maintains R (f a)) → maintains R (m ≫= f).
Proof.
  intros Hm Hf E w. unfold mbind, M_bind.
  specialize (Hm E w). destruct (m E w) as [[a| |] w1]; cbn in *; auto.
  eapply (cu_trans _ _ _ HR); [exact Hm | apply Hf].
Qed.

Lemma maintains_try_except {A} (body : M A) handler :
  maintains R body →
  (∀ e h, handler e = Some h → maintains R h) →
  maintains R (try_except body handler).
Proof.
  intros Hb Hh E w. unfold try_except.
  specialize (Hb E w). destruct (body E w) as [[a|e|] w1]; cbn in *; auto.
  destruct (handler e) as [h|] eqn:He; cbn; auto.
  eapply (cu_trans _ _ _ HR); [exact Hb | by eapply Hh].
Qed.

Lemma maintains_try_finally {A} (body : M A) fin :
  maintains R body → maintains R fin → maintains R (try_finally body fin).
Proof.
  intros Hb Hf E w. unfold try_finally.
  specialize (Hb E w). destruct (body E w) as [[a|e|] w1]; cbn in *; auto.
  all: specialize (Hf E w1); destruct (fin E w1) as [[[]|e'|] w2]; cbn in *.
  all: eapply (cu_trans _ _ _ HR); eauto.
Qed.

Lemma maintains_for_each {A} (l : list A) body :
  (∀ x, maintains R (body x)) → maintains R (for_each l body).
Proof.
  intros Hb. induction l as [|x l IH]; cbn.
  - apply maintains_ret.
  - apply maintains_bind; auto.
Qed.

Lemma maintains_emit e : aev e → maintains R (emit e).
Proof. intros H E w. by apply (cu_record _ _ _ HR). Qed.

Lemma maintains_log l msg : aev (EvLog l msg) → maintains R (log l msg).
Proof. apply maintains_emit. Qed.

Lemma maintains_getattr name : maintains R (getattr name).
Proof.
  intros E w. unfold getattr. destruct (attrs w !! name); apply (cu_refl _ _ _ HR).
Qed.

Lemma maintains_setattr name v :
  awr name v → aev (EvSetAttr name v) → maintains R (setattr name v).
Proof.
  intros H1 H2 E w. cbn.
  eapply (cu_trans _ _ _ HR); [by apply (cu_write _ _ _ HR)|].
  by apply (cu_record _ _ _ HR).
Qed.

Lemma maintains_mutate name v : awr name v → maintains R (mutate name v).
Proof. intros H E w. by apply (cu_write _ _ _ HR). Qed.

Lemma maintains_type_of_self : maintains R type_of_self.
Proof. intros E w. apply (cu_refl _ _ _ HR). Qed.
End Maintains.

Section MaintainsPrimitives.
Context {aev : event → Prop} {awr : string → pyval → Prop}
        {R : world → world → Prop} (HR : closed_under aev awr R).

Ltac step := first
  [ apply (maintains_bind HR); [|intros ?]
  | apply (maintains_ret HR) | apply (maintains_raise HR)
  | apply (maintains_unfinished HR) | apply (maintains_getattr HR)
  | apply (maintains_emit HR) | apply (maintains_mutate HR)
  | apply (maintains_type_of_self HR) ].

Lemma maintains_queue_put x :
  allows_queue awr → aev (EvPut x) → maintains R (queue_put x).
Proof.
  intros Hq He. unfold queue_put, store_queue. step; [step|].
  destruct a; repeat step; auto.
Qed.

Lemma maintains_queue_empty : maintains R queue_empty.
Proof. unfold queue_empty. step; [step|]. destruct a; repeat step. Qed.

Lemma maintains_queue_get :
  allows_queue awr → (∀ x, aev (EvGet x)) → maintains R queue_get.
Proof.
  intros Hq He. unfold queue_get, store_queue. step; [step|].
  destruct a as [| | | | | | |[|x q]| |]; repeat step; auto.
Qed.

Lemma maintains_apply_interference i w :
  allows_interference aev awr → R w (apply_interference i w).
Proof.
  intros (H1 & H2 & H3). unfold apply_interference.
  eapply (cu_trans _ _ _ HR); [apply (cu_tick_suspension _ _ _ HR)|].
  eapply (cu_trans _ _ _ HR); [|apply (cu_record _ _ _ HR), H3].
  pose proof (cu_write _ _ _ HR _ _ (tick_suspension w) H1) as W1.
  destruct (stop_requested i), (foreground_finished i).
  - eapply (cu_trans _ _ _ HR); [exact W1|apply (cu_write _ _ _ HR _ _ _ H2)].
  - exact W1.
  - apply (cu_write _ _ _ HR _ _ _ H2).
  - apply (cu_refl _ _ _ HR).
Qed.

Lemma maintains_suspend :
  allows_interference aev awr → maintains R suspend.
Proof.
  intros H E w. unfold suspend.
  destruct (cancel_delivered _); by apply maintains_apply_interference.
Qed.

Lemma maintains_asyncio_sleep d :
  allows_interference aev awr → aev (EvSleep d) → maintains R (asyncio_sleep d).
Proof. intros. unfold asyncio_sleep. step; [by step|]. by apply maintains_suspend. Qed.

Lemma maintains_raise_timeout {A} : maintains R (raise_timeout : M A).
Proof. intros E w. apply (cu_refl _ _ _ HR). Qed.

Lemma maintains_wait_for {A} (r : hook_result A) bound :
  maintains R (wait_for r bound).
Proof.
  destruct r as [a []|e], bound; cbn; first [step|apply maintains_raise_timeout].
Qed.

Lemma maintains_call_loop : (∀ b, aev (EvLoopCall b)) → maintains R call_loop.
Proof.
  intros H E w. cbn.
  eapply (cu_trans _ _ _ HR); [apply (cu_tick_loop _ _ _ HR)|].
  apply (cu_record _ _ _ HR), H.
Qed.

Lemma maintains_call_get_updates pt :
  aev (EvFetch pt) → maintains R (call_get_updates pt).
Proof.
  intros H E w. cbn.
  eapply (cu_trans _ _ _ HR); [apply (cu_tick_fetch _ _ _ HR)|].
  by apply (cu_record _ _ _ HR).
Qed.

Lemma maintains_call_run_pipeline c u :
  aev (EvRunPipeline c u) → maintains R (call_run_pipeline c u).
Proof.
  intros H E w. cbn.
  eapply (cu_trans _ _ _ HR); [apply (cu_tick_run _ _ _ HR)|].
  by apply (cu_record _ _ _ HR).
Qed.

Lemma maintains_respond c resp :
  aev (EvRespond c resp) → maintains R (_respond c resp).
Proof. intros H E w. by apply (cu_record _ _ _ HR). Qed.

Lemma maintains_first_step pt :
  aev (EvFetch pt) → maintains R (first_step (CoPollingJob pt)).
Proof.
  intros H. cbn [first_step]. step; [by apply maintains_call_get_updates|step].
Qed.

Lemma maintains_call_async c : aev (EvCoroutine c) → maintains R (call_async c).
Proof. intros. unfold call_async. step; [by step|step]. Qed.

Lemma maintains_range n : maintains R (range n).
Proof. destruct n; cbn; step. Qed.

Lemma maintains_spawn c : (∀ t, aev (EvSpawn t c)) → maintains R (spawn c).
Proof.
  intros H E w. cbn.
  eapply (cu_trans _ _ _ HR); [apply (cu_tasks _ _ _ HR)|].
  apply (cu_record _ _ _ HR), H.
Qed.

Lemma maintains_asyncio_create_task x :
  (∀ t c, aev (EvSpawn t c)) → maintains R (asyncio_create_task x).
Proof.
  intros H. destruct x; cbn; try step.
  - by apply maintains_spawn.
  - step.
Qed.

Lemma maintains_asyncio_shield x :
  (∀ t c, aev (EvSpawn t c)) → maintains R (asyncio_shield x).
Proof.
  intros H. destruct x; cbn; try step.
  - by apply maintains_spawn.
  - step.
Qed.

Lemma maintains_await_shielded c body :
  allows_interference aev awr → aev (EvDetach c) →
  maintains R (first_step c) →
  maintains R body → maintains R (await_shielded c body).
Proof.
  intros Hi Hd Hs Hb E w. unfold await_shielded.
  pose proof (maintains_apply_interference (resume E (suspensions w)) w Hi) as H1.
  set (w1 := apply_interference (resume E (suspensions w)) w) in *.
  specialize (Hb E w1). specialize (Hs E w1).
  destruct (cancel_delivered _); [destruct (shielded_job_done _ _)|]; cbn.
  - eapply (cu_trans _ _ _ HR); [exact H1|].
    by destruct (body E w1) as [[[]|e|] w2].
  - eapply (cu_trans _ _ _ HR); [exact H1|].
    eapply (cu_trans _ _ _ HR); [exact Hs|by apply (cu_record _ _ _ HR)].
  - eapply (cu_trans _ _ _ HR); [exact H1|exact Hb].
Qed.

Lemma R_set_task_state t s w : R w (set_task_state t s w).
Proof. apply (cu_tasks _ _ _ HR). Qed.

Lemma maintains_task_cancel x :
  (∀ t, aev (EvCancel t)) → maintains R (task_cancel x).
Proof.
  intros H. destruct x; cbn; try step.
  all: intros E w; cbn.
  all: assert (R w (record (EvCancel t) w)) by apply (cu_record _ _ _ HR), H.
  all: destruct (tasks w !! t) as [[c []]|]; cbn; auto.
  all: eapply (cu_trans _ _ _ HR); [eassumption|apply R_set_task_state].
Qed.

Lemma maintains_drive_task interp t :
  (∀ c, maintains R (interp c)) → maintains R (drive_task interp t).
Proof.
  intros Hi E w. unfold drive_task.
  destruct (tasks w !! t) as [[c [[]|[]| | |]]|]; cbn;
    try apply (cu_refl _ _ _ HR); try apply R_set_task_state.
  - specialize (Hi c E w). destruct (interp c E w) as [[[]|e|] w1]; cbn in *; auto.
    + eapply (cu_trans _ _ _ HR); [eassumption|apply R_set_task_state].
    + destruct e; (eapply (cu_trans _ _ _ HR); [eassumption|apply R_set_task_state]).
  - destruct (task_done _); cbn; [apply R_set_task_state|apply (cu_refl _ _ _ HR)].
  - destruct (task_done _); cbn; [apply R_set_task_state|apply (cu_refl _ _ _ HR)].
Qed.

Lemma maintains_await_task interp x :
  allows_interference aev awr →
  (∀ c, maintains R (interp c)) → maintains R (await_task interp x).
Proof.
  intros Ha Hi. destruct x; cbn; try step.
  all: intros E w; cbn.
  all: destruct (tasks w !! t) as [[c s]|] eqn:Ht; cbn;
    [|apply (cu_refl _ _ _ HR)].
  all: destruct (task_done s).
  all: try (destruct s; cbn; apply (cu_refl _ _ _ HR)).
  all: assert (Hm : maintains R (drive_task interp t ;; suspend))
    by (apply (maintains_bind HR);
        [by apply maintains_drive_task|intros; by apply maintains_suspend]).
  all: specialize (Hm E w).
  all: destruct ((drive_task interp t ;; suspend) E w) as [[[]|e|] w1]; cbn in *; auto.
  all: destruct (tasks w1 !! t) as [[c' []]|]; cbn; auto.
Qed.

Lemma maintains_asyncio_wait interp ts :
  allows_interference aev awr →
  (∀ c, maintains R (interp c)) → maintains R (asyncio_wait interp ts).
Proof.
  intros Ha Hi. destruct ts as [| | | | | |[|t l]| | |]; cbn -[for_each]; try step.
  - apply (maintains_for_each HR). intros. by apply maintains_drive_task.
  - by apply maintains_suspend.
Qed.

Lemma maintains_acquire c : aev (EvAcquire c) → maintains R (acquire c).
Proof.
  intros H E w. unfold acquire. destruct (bool_decide _); cbn.
  - apply (cu_refl _ _ _ HR).
  - eapply (cu_trans _ _ _ HR); [apply (cu_held _ _ _ HR)|].
    by apply (cu_record _ _ _ HR).
Qed.

Lemma maintains_release c : aev (EvRelease c) → maintains R (release c).
Proof.
  intros H E w. cbn.
  eapply (cu_trans _ _ _ HR); [apply (cu_held _ _ _ HR)|].
  by apply (cu_record _ _ _ HR).
Qed.

Lemma maintains_async_with_context_lock {A} c (body : M A) :
  aev (EvAcquire c) → aev (EvRelease c) →
  maintains R body → maintains R (async_with_context_lock c body).
Proof.
  intros. unfold async_with_context_lock. step; [step|].
  destruct a; try step.
  - by apply maintains_acquire.
  - apply (maintains_try_finally HR); [done|by apply maintains_release].
Qed.
End MaintainsPrimitives.

Ltac maintain_handler :=
  let e := fresh "e" in let h := fresh "h" in let H := fresh "H" in
  intros e h H; destruct e; simplify_eq/=.

Ltac maintain_with HR extra :=
  repeat first
    [ extra
    | apply (maintains_ret HR) | apply (maintains_raise HR)
    | apply (maintains_unfinished HR) | apply (maintains_getattr HR)
    | apply (maintains_type_of_self HR) | apply (maintains_queue_empty HR)
    | apply (maintains_range HR) | apply (maintains_wait_for HR)
    | apply (maintains_bind HR); [|intros ?]
    | apply (maintains_try_except HR); [|maintain_handler]
    | apply (maintains_try_finally HR)
    | apply (maintains_for_each HR); intros ?
    | apply (maintains_log HR) | apply (maintains_emit HR)
    | apply (maintains_setattr HR) | apply (maintains_mutate HR)
    | apply (maintains_queue_put HR) | apply (maintains_queue_get HR)
    | apply (maintains_suspend HR) | apply (maintains_asyncio_sleep HR)
    | apply (maintains_call_loop HR) | apply (maintains_call_get_updates HR)
    | apply (maintains_call_run_pipeline HR) | apply (maintains_call_async HR)
    | apply (maintains_respond HR) | apply (maintains_first_step HR)
    | apply (maintains_spawn HR) | apply (maintains_asyncio_create_task HR)
    | apply (maintains_asyncio_shield HR) | apply (maintains_await_shielded HR)
    | apply (maintains_task_cancel HR)
    | apply (maintains_drive_task HR); intros ?
    | apply (maintains_await_task HR); [|intros ?]
    | apply (maintains_asyncio_wait HR); [|intros ?]
    | apply (maintains_async_with_context_lock HR)
    | match goal with
      | |- maintains _ (match ?x with _ => _ end) => destruct x
      end
    | done ].

Ltac maintain HR := maintain_with HR fail.

Section MaintainsPolling.
Context {aev : event → Prop} {awr : string → pyval → Prop}
        {R : world → world → Prop} (HR : closed_under aev awr R).


Lemma maintains_worker fuel wt :
  aev (EvCoroutine (CoWorkerJob wt)) → (∀ msg, aev (EvLog INFO msg)) →
  maintains R (_worker fuel wt).
Proof.
  intros Hc Hl. induction fuel as [|fuel IH]; cbn [_worker]; maintain HR.
Qed.

Lemma maintains_polling_job pt :
  allows_queue awr → (∀ x, aev (EvPut (Some x))) → aev (EvFetch pt) →
  (∀ msg, aev (EvLog DEBUG msg)) →
  maintains R (_polling_job pt).
Proof. intros. unfold _polling_job. maintain HR. Qed.

Lemma maintains_polling_while fuel pt d :
  allows_queue awr → allows_interference aev awr →
  (∀ x, aev (EvPut (Some x))) → aev (EvFetch pt) →
  (∀ msg, aev (EvLog DEBUG msg)) → (∀ b, aev (EvLoopCall b)) →
  aev (EvDetach (CoPollingJob pt)) → aev (EvSleep d) →
  maintains R (polling_while fuel pt d).
Proof.
  intros. induction fuel as [|fuel IH]; cbn [polling_while]; maintain HR.
Qed.
End MaintainsPolling.

Section MaintainsPollingLoop.
Context {aev : event → Prop} {awr : string → pyval → Prop}
        {R : world → world → Prop} (HR : closed_under aev awr R).

Lemma maintains_polling_loop fuel pt d :
  allows_queue awr → allows_interference aev awr →
  (∀ x, aev (EvPut x)) → aev (EvFetch pt) →
  (∀ l msg, aev (EvLog l msg)) → (∀ b, aev (EvLoopCall b)) →
  aev (EvDetach (CoPollingJob pt)) → aev (EvSleep d) →
  aev clear_running →
  maintains R (_polling_loop fuel pt d).
Proof.
  intros Hq Hi Hput Hf Hlog Hloop Hdet Hsl Hclear.
  unfold _polling_loop. apply (maintains_try_finally HR).
  - by apply (maintains_polling_while HR).
  - destruct Hi as (Hr & ? & ?). maintain HR.
Qed.
End MaintainsPollingLoop.

(** ** Relations that are closed under the elementary changes *)

Lemma trace_grows_closed ok : closed_under ok any_write (trace_grows ok).
Proof.
  split; unfold trace_grows; cbn; intros.
  - exists []. by rewrite app_nil_r.
  - destruct H as (e1 & H1 & F1), H0 as (e2 & H2 & F2).
    exists (e1 ++ e2). rewrite H2, H1, app_assoc. split; [done|by apply Forall_app].
  - exists [e]. auto.
  - exists []. by rewrite app_nil_r.
  - exists []. by rewrite app_nil_r.
  - exists []. by rewrite app_nil_r.
  - exists []. by rewrite app_nil_r.
  - exists []. by rewrite app_nil_r.
  - exists []. by rewrite app_nil_r.
  - exists []. by rewrite app_nil_r.
Qed.

Lemma keeps_attrs_closed I (awr : string → pyval → Prop) :
  (∀ a k v, awr k v → I a → I (<[k := v]> a)) →
  closed_under any_event awr (keeps_attrs I).
Proof. intros H. split; unfold keeps_attrs; cbn; eauto. Qed.

Lemma same_attrs_closed : closed_under any_event no_write same_attrs.
Proof.
  split; unfold same_attrs, no_write; cbn; try done.
  intros w1 w2 w3 H1 H2. by rewrite H2.
Qed.

Lemma closed_under_and aev1 aev2 awr1 awr2 R1 R2 :
  closed_under aev1 awr1 R1 → closed_under aev2 awr2 R2 →
  closed_under (λ e, aev1 e ∧ aev2 e) (λ k v, awr1 k v ∧ awr2 k v)
               (λ w w', R1 w w' ∧ R2 w w').
Proof.
  intros H1 H2. split.
  - split; [apply (cu_refl _ _ _ H1)|apply (cu_refl _ _ _ H2)].
  - intros w1 w2 w3 [] []. split;
      [eapply (cu_trans _ _ _ H1)|eapply (cu_trans _ _ _ H2)]; eauto.
  - intros e w []. split; [by apply (cu_record _ _ _ H1)|by apply (cu_record _ _ _ H2)].
  - intros k v w []. split; [by apply (cu_write _ _ _ H1)|by apply (cu_write _ _ _ H2)].
  - split; [apply (cu_tick_loop _ _ _ H1)|apply (cu_tick_loop _ _ _ H2)].
  - split; [apply (cu_tick_fetch _ _ _ H1)|apply (cu_tick_fetch _ _ _ H2)].
  - split; [apply (cu_tick_suspension _ _ _ H1)|apply (cu_tick_suspension _ _ _ H2)].
  - split; [apply (cu_tick_run _ _ _ H1)|apply (cu_tick_run _ _ _ H2)].
  - split; [apply (cu_tasks _ _ _ H1)|apply (cu_tasks _ _ _ H2)].
  - split; [apply (cu_held _ _ _ H1)|apply (cu_held _ _ _ H2)].
Qed.

(** ** The whole lifecycle, for relations indifferent to everything but pipeline runs *)

Section MaintainsLifecycle.
Context {aev : event → Prop} {awr : string → pyval → Prop}
        {R : world → world → Prop} (HR : closed_under aev awr R).
Context (Hev : ∀ e, not_run e → aev e) (Hwr : ∀ k v, awr k v).

Local Ltac side := intros; first [ apply Hwr | apply Hev; exact I ].

Local Lemma lifecycle_interference : allows_interference aev awr.
Proof. repeat split; intros; side. Qed.

Local Lemma lifecycle_queue : allows_queue awr.
Proof. intros q. side. Qed.

Local Ltac go_with extra :=
  pose proof lifecycle_interference; pose proof lifecycle_queue;
  maintain_with HR extra; try side.

Local Ltac go := go_with fail.

Lemma maintains_polling_loop_any fuel pt d :
  maintains R (PollingMessengerInterface._polling_loop fuel pt d).
Proof.
  unfold PollingMessengerInterface._polling_loop.
  apply (maintains_try_finally HR).
  - pose proof lifecycle_interference; pose proof lifecycle_queue.
    apply (maintains_polling_while HR); try done; intros; side.
  - go.
Qed.

Lemma maintains_polling_connect fuel pr pt wt d :
  maintains R (PollingMessengerInterface.connect fuel pr pt wt d).
Proof.
  unfold PollingMessengerInterface.connect,
    PollingMessengerInterface.append_worker_task.
  go_with ltac:(apply maintains_polling_loop_any).
Qed.

Lemma maintains_polling_task_body fuel c :
  maintains R (PollingMessengerInterface.task_body fuel c).
Proof.
  destruct c; cbn; try apply (maintains_ret HR).
  - apply (maintains_worker HR); intros; side.
  - pose proof lifecycle_queue.
    apply (maintains_polling_job HR); try done; intros; side.
Qed.

Lemma maintains_polling_cleanup fuel :
  maintains R (PollingMessengerInterface.cleanup fuel).
Proof.
  unfold PollingMessengerInterface.cleanup, MessengerInterface.cleanup.
  go_with ltac:(apply maintains_polling_task_body).
Qed.

Lemma maintains_dispatch_task_body fuel pr c : maintains R (dispatch_task_body fuel pr c).
Proof.
  intros E w. unfold dispatch_task_body. destruct c.
  1-4: apply maintains_polling_task_body.
  destruct (self_class w).
  - unfold MessengerInterface.subclass_connect.
    destruct (user_connect E); cbn; apply (cu_record _ _ _ HR); side.
  - apply maintains_polling_connect.
  - unfold CallbackMessengerInterface.connect. revert E w. go.
Qed.

Lemma maintains_dispatch_cleanup fuel : maintains R (dispatch_cleanup fuel).
Proof.
  intros E w. unfold dispatch_cleanup. destruct (self_class w).
  - apply (maintains_ret HR).
  - apply maintains_polling_cleanup.
  - apply (maintains_ret HR).
Qed.

Lemma maintains_call_connect pt wt d : maintains R (call_connect pt wt d).
Proof.
  intros E w. unfold call_connect. destruct (self_class w).
  - revert E w. go.
  - revert E w. go.
  - apply (cu_refl _ _ _ HR).
Qed.

Lemma maintains_run_in_foreground fuel p pr pt wt d :
  maintains R (run_in_foreground fuel p pr pt wt d).
Proof.
  unfold run_in_foreground, install_sigint_handler, call_cleanup.
  go_with ltac:(first [ apply maintains_call_connect
                      | apply maintains_dispatch_task_body
                      | apply maintains_dispatch_cleanup ]).
Qed.

Lemma maintains_shutdown fuel pr : maintains R (shutdown fuel pr).
Proof. unfold shutdown. go_with ltac:(apply maintains_dispatch_task_body). Qed.
End MaintainsLifecycle.

(** ** Which exceptions a computation can end with *)

Section RaisesOnly.
Context (P : exn → Prop).

Lemma raises_only_silent {A} (m : M A) :
  (∀ E w, ∃ a, (m E w).1 = Ret a) → raises_only P m.
Proof. intros H E w e He. destruct (H E w) as [a Ha]. congruence. Qed.

Lemma raises_only_ret {A} (a : A) : raises_only P (mret a).
Proof. apply raises_only_silent. by eexists. Qed.

Lemma raises_only_raise {A} e : P e → raises_only P (raise e : M A).
Proof. intros H E w e' [= <-]. done. Qed.

Lemma raises_only_unfinished {A} : raises_only P (unfinished : M A).
Proof. intros E w e [=]. Qed.

Lemma raises_only_bind {A B} (m : M A) (f : A → M B) :
  raises_only P m → (∀ a, raises_only P (f a)) → raises_only P (m ≫= f).
Proof.
  intros Hm Hf E w e. unfold mbind, M_bind.
  specialize (Hm E w). destruct (m E w) as [[a|e'|] w1]; cbn in *.
  - apply Hf.
  - intros [= <-]. by apply Hm.
  - done.
Qed.

Lemma raises_only_try_except {A} (Pb : exn → Prop) (body : M A) handler :
  raises_only Pb body →
  (∀ e, Pb e → match handler e with
               | Some h => raises_only P h
               | None => P e
               end) →
  raises_only P (try_except body handler).
Proof.
  intros Hb Hh E w e. unfold try_except.
  specialize (Hb E w). destruct (body E w) as [[a|e'|] w1]; cbn in *; try done.
  specialize (Hh e' (Hb _ eq_refl)). destruct (handler e') as [h|]; cbn.
  - apply Hh.
  - by intros [= <-].
Qed.

Lemma raises_only_try_finally {A} (body : M A) fin :
  raises_only P body → raises_only P fin →
  raises_only P (try_finally body fin).
Proof.
  intros Hb Hf E w e. unfold try_finally.
  specialize (Hb E w). destruct (body E w) as [[a|e'|] w1]; cbn in *; try done.
  all: specialize (Hf E w1); destruct (fin E w1) as [[[]|e''|] w2]; cbn in *.
  all: intros [= <-]; auto.
Qed.

Lemma raises_only_for_each {A} (l : list A) body :
  (∀ x, raises_only P (body x)) → raises_only P (for_each l body).
Proof.
  intros Hb. induction l as [|x l IH]; cbn.
  - apply raises_only_ret.
  - by apply raises_only_bind.
Qed.

Lemma raises_only_getattr name :
  (∀ o a, P (AttributeError o a)) → raises_only P (getattr name).
Proof.
  intros H E w e. unfold getattr. destruct (attrs w !! name); cbn; [done|].
  by intros [= <-].
Qed.

Lemma raises_only_queue_put x :
  (∀ o a, P (AttributeError o a)) → raises_only P (queue_put x).
Proof.
  intros H. unfold queue_put. apply raises_only_bind.
  - by apply raises_only_getattr.
  - intros []; try by apply raises_only_raise.
    apply raises_only_silent. by eexists.
Qed.

Lemma raises_only_range n :
  (∀ msg, P (TypeError msg)) → raises_only P (range n).
Proof.
  intros H. destruct n; cbn; try by apply raises_only_raise.
  all: apply raises_only_ret.
Qed.

Lemma raises_only_suspend : P CancelledError → raises_only P suspend.
Proof.
  intros H E w e. unfold suspend. destruct (cancel_delivered _); cbn; [|done].
  by intros [= <-].
Qed.

Lemma raises_only_asyncio_sleep d :
  P CancelledError → raises_only P (asyncio_sleep d).
Proof.
  intros H. unfold asyncio_sleep. apply raises_only_bind.
  - apply raises_only_silent. by eexists.
  - intros _. by apply raises_only_suspend.
Qed.

Lemma raises_only_await_shielded c body :
  P CancelledError → raises_only P body →
  raises_only P (await_shielded c body).
Proof.
  intros H Hb E w e. unfold await_shielded.
  destruct (cancel_delivered _); [destruct (shielded_job_done _ _)|]; cbn.
  - destruct (body E _) as [[[]|e'|] w']; cbn; by intros [= <-].
  - by intros [= <-].
  - apply Hb.
Qed.
End RaisesOnly.

(** ** Elementary facts *)

Lemma getattr_eq name v E w :
  attrs w !! name = Some v → getattr name E w = (Ret v, w).
Proof. intros H. unfold getattr. by rewrite H. Qed.

Lemma queue_put_eq x q E w :
  attrs w !! "request_queue" = Some (PyQueue q) →
  queue_put x E w =
    (Ret tt, record (EvPut x) (write "request_queue" (PyQueue (q ++ [x])) w)).
Proof.
  intros H. unfold queue_put, mbind, M_bind. by rewrite (getattr_eq _ _ _ _ H).
Qed.

(** The first step of a polling job is the call of [_get_updates]. *)
Lemma first_step_polling_job pt E w :
  first_step (CoPollingJob pt) E w = (Ret tt, record (EvFetch pt) (tick_fetch w)).
Proof. reflexivity. Qed.

Lemma new_events_app w w' evs :
  trace w' = trace w ++ evs → new_events w w' = evs.
Proof. intros H. unfold new_events. by rewrite H, drop_app_length. Qed.

Lemma attrs_apply_interference i w k :
  k ≠ "running" → k ≠ "finished_working" →
  attrs (apply_interference i w) !! k = attrs w !! k.
Proof.
  intros H1 H2. unfold apply_interference, write.
  destruct (stop_requested i), (foreground_finished i); cbn;
    by rewrite ?lookup_insert_ne.
Qed.

Lemma trace_apply_interference i w :
  trace (apply_interference i w) = trace w ++ [EvResume i].
Proof.
  unfold apply_interference, write.
  by destruct (stop_requested i), (foreground_finished i).
Qed.

Lemma fetches_apply_interference i w :
  fetches (apply_interference i w) = fetches w.
Proof.
  unfold apply_interference, write.
  by destruct (stop_requested i), (foreground_finished i).
Qed.

Lemma suspensions_apply_interference i w :
  suspensions (apply_interference i w) = S (suspensions w).
Proof.
  unfold apply_interference, write.
  by destruct (stop_requested i), (foreground_finished i).
Qed.

Lemma tasks_apply_interference i w : tasks (apply_interference i w) = tasks w.
Proof.
  unfold apply_interference, write.
  by destruct (stop_requested _), (foreground_finished _).
Qed.

Lemma self_class_apply_interference i w :
  self_class (apply_interference i w) = self_class w.
Proof.
  unfold apply_interference, write.
  by destruct (stop_requested i), (foreground_finished i).
Qed.

Lemma running_after_interference i w :
  stop_requested i = true ∨ attrs w !! "running" = Some (PyBool false) →
  attrs (apply_interference i w) !! "running" = Some (PyBool false).
Proof.
  intros H. unfold apply_interference, write.
  destruct (stop_requested i), (foreground_finished i); cbn.
  - rewrite lookup_insert_ne by done. by rewrite lookup_insert_eq.
  - by rewrite lookup_insert_eq.
  - rewrite lookup_insert_ne by done. by destruct H.
  - by destruct H.
Qed.

Lemma lookup_set_task_state t s c s0 w :
  tasks w !! t = Some (c, s0) → tasks (set_task_state t s w) !! t = Some (c, s).
Proof. intros H. cbn. by rewrite list_lookup_alter_eq, H. Qed.

(** ** _polling_job: a successful fetch *)

(** A [for] loop of [put]s appends the items in the order of the loop. *)
Lemma for_each_queue_put {A} (f : A → request) (l : list A) q E w :
  attrs w !! "request_queue" = Some (PyQueue q) →
  ∃ w', for_each l (λ x, queue_put (f x)) E w = (Ret tt, w') ∧
        attrs w' = <["request_queue" := PyQueue (q ++ map f l)]> (attrs w) ∧
        trace w' = trace w ++ map (λ x, EvPut (f x)) l ∧
        loop_calls w' = loop_calls w ∧ fetches w' = fetches w ∧
        suspensions w' = suspensions w ∧ tasks w' = tasks w.
Proof.
  revert q w. induction l as [|x l IH]; intros q w Hq.
  - exists w. cbn. rewrite !app_nil_r. by rewrite insert_id.
  - cbn [for_each]. unfold mbind, M_bind at 1.
    rewrite (queue_put_eq _ _ _ _ Hq).
    destruct (IH (q ++ [f x])
                (record (EvPut (f x)) (write "request_queue" (PyQueue (q ++ [f x])) w)))
      as (w' & Hrun & Ha & Ht & ?).
    { cbn. by rewrite lookup_insert_eq. }
    exists w'. split; [exact Hrun|]. cbn in *.
    rewrite Ha, Ht, insert_insert_eq, <- !app_assoc. done.
Qed.

(** C8.  When the fetch succeeds (it returns the list [l], and in time
    if there is a bound), [_polling_job] returns normally, the queue is
    the old queue followed by the pairs of [l] in the order of [l], and
    the job has recorded the fetch and then one [put] for each pair, in
    that order: none skipped, none repeated. *)
Theorem polling_job_enqueues_in_arrival_order pt E w q l late :
  attrs w !! "request_queue" = Some (PyQueue q) →
  get_updates E (fetches w) = Returns (Some l) late →
  (pt = None ∨ late = false) →
  ∃ w', _polling_job pt E w = (Ret tt, w') ∧
        attrs w' = <["request_queue" := PyQueue (q ++ map Some l)]> (attrs w) ∧
        trace w' = trace w ++ EvFetch pt :: map (λ u, EvPut (Some u)) l.
Proof.
  intros Hq Hf Hok.
  destruct (for_each_queue_put Some l q E (record (EvFetch pt) (tick_fetch w)) Hq)
    as (w' & Hrun & Ha & Ht & _).
  exists w'. split; [|split; [exact Ha|]].
  - unfold _polling_job, try_except, mbind, M_bind. cbn. rewrite Hf.
    assert (wait_for (Returns (Some l) late) pt E (record (EvFetch pt) (tick_fetch w))
            = (Ret (Some l), record (EvFetch pt) (tick_fetch w))) as ->.
    { by destruct Hok as [-> | ->]; [|destruct pt]. }
    by rewrite Hrun.
  - rewrite Ht. cbn. by rewrite <- app_assoc.
Qed.

Lemma polling_job_enqueues_in_arrival_order_witness :
  attrs (with_queue [Some ("C", "zero")] (polling_interface 2)) !! "request_queue"
    = Some (PyQueue [Some ("C", "zero")]) ∧
  get_updates delivering_env
    (fetches (with_queue [Some ("C", "zero")] (polling_interface 2)))
    = Returns (Some [("A", "one"); ("B", "two"); ("A", "three")]) false ∧
  ∃ w', PollingMessengerInterface._polling_job (Some 5) delivering_env
          (with_queue [Some ("C", "zero")] (polling_interface 2)) = (Ret tt, w') ∧
        attrs w' !! "request_queue" =
          Some (PyQueue [Some ("C", "zero"); Some ("A", "one");
                         Some ("B", "two"); Some ("A", "three")]).
Proof.
  assert (H1 : attrs (with_queue [Some ("C", "zero")] (polling_interface 2))
                 !! "request_queue" = Some (PyQueue [Some ("C", "zero")]))
    by (vm_compute; reflexivity).
  assert (H2 : get_updates delivering_env
                 (fetches (with_queue [Some ("C", "zero")] (polling_interface 2)))
               = Returns (Some [("A", "one"); ("B", "two"); ("A", "three")]) false)
    by reflexivity.
  destruct (polling_job_enqueues_in_arrival_order (Some 5) delivering_env _ _ _ _
              H1 H2 (or_intror eq_refl)) as (w' & Hrun & Ha & _).
  split; [exact H1|]. split; [exact H2|].
  exists w'. split; [exact Hrun|]. rewrite Ha. by rewrite lookup_insert_eq.
Defined.

(** ** The [finally] block of _polling_loop *)

Lemma polling_loop_unfold fuel pt d :
  _polling_loop fuel pt d
  = try_finally (polling_while fuel pt d) polling_loop_finally_block.
Proof. reflexivity. Qed.

(** The [finally] block, on an interface whose [number_of_workers] is
    an integer and whose queue is a queue, returns. *)
Lemma polling_loop_finally_block_eq n q E w :
  attrs w !! "number_of_workers" = Some (PyInt n) →
  attrs w !! "request_queue" = Some (PyQueue q) →
  ∃ w',
    polling_loop_finally_block E w = (Ret tt, w') ∧
    trace w' = trace w ++ [clear_running; EvLoopCall (loop_fn E (loop_calls w));
                           stop_reason (loop_fn E (loop_calls w))]
                       ++ replicate (Z.to_nat n) (EvPut None) ∧
    attrs w' = <["request_queue" := PyQueue (q ++ replicate (Z.to_nat n) None)]>
                 (<["running" := PyBool false]> (attrs w)) ∧
    fetches w' = fetches w ∧ suspensions w' = suspensions w ∧ tasks w' = tasks w.
Proof.
  intros Hn Hq.
  set (b := loop_fn E (loop_calls w)).
  set (w1 := record (stop_reason b)
               (record (EvLoopCall b)
                  (tick_loop (record clear_running
                                (write "running" (PyBool false) w))))).
  destruct (for_each_queue_put (λ _ : nat, None) (seq 0 (Z.to_nat n)) q E w1)
    as (w' & Hrun & Ha & Ht & _ & Hf & Hs & Hts).
  { cbn. by rewrite lookup_insert_ne. }
  assert (Hmap : ∀ (A : Type) (x : A) l, map (λ _ : nat, x) l = replicate (length l) x).
  { intros A x l. induction l; cbn; congruence. }
  rewrite Hmap, length_seq in Ha, Ht.
  exists w'. split; [|split; [|split; [|split; [|split]]]]; try done.
  - unfold polling_loop_finally_block, mbind, M_bind. cbn. fold b.
    assert ((if negb b
             then log INFO "polling_loop stopped working - the loop() condition was false"
             else log INFO "polling_loop stopped working - the stop signal was received.")
            = emit (stop_reason b)) as -> by (by destruct b).
    cbn. fold clear_running. fold w1.
    rewrite (getattr_eq "number_of_workers" (PyInt n)).
    2:{ cbn. by rewrite lookup_insert_ne. }
    cbn. exact Hrun.
  - rewrite Ht. cbn. by rewrite <- !app_assoc.
Qed.

(** ** _polling_job and _polling_loop: a fetch that times out *)

Lemma polling_job_absorbs_timeouts pt : raises_only not_timeout (_polling_job pt).
Proof.
  unfold _polling_job.
  apply raises_only_try_except with (Pb := λ _, True).
  - by intros E w e _.
  - intros [] _; try exact I.
    apply raises_only_silent. by eexists.
Qed.

Lemma polling_while_raises fuel pt d :
  raises_only not_timeout (polling_while fuel pt d).
Proof.
  induction fuel as [|fuel IH]; cbn [polling_while].
  { apply raises_only_unfinished. }
  apply raises_only_bind; [apply raises_only_silent; by eexists|].
  intros l. apply raises_only_bind.
  - destruct l; [|apply raises_only_ret].
    apply raises_only_bind; [by apply raises_only_getattr|].
    intros; apply raises_only_ret.
  - intros []; [|apply raises_only_ret].
    apply raises_only_bind.
    { apply raises_only_await_shielded; [done|apply polling_job_absorbs_timeouts]. }
    intros _. apply raises_only_bind; [by apply raises_only_asyncio_sleep|].
    intros _. apply IH.
Qed.

Lemma polling_loop_raises fuel pt d :
  raises_only not_timeout (_polling_loop fuel pt d).
Proof.
  unfold _polling_loop. apply raises_only_try_finally.
  { apply polling_while_raises. }
  apply raises_only_bind; [apply raises_only_silent; by eexists|]. intros _.
  apply raises_only_bind; [apply raises_only_silent; by eexists|]. intros l.
  apply raises_only_bind.
  { destruct (negb l); apply raises_only_silent; by eexists. }
  intros _. apply raises_only_bind; [by apply raises_only_getattr|]. intros n.
  apply raises_only_bind; [by apply raises_only_range|]. intros r.
  apply raises_only_for_each. intros _. by apply raises_only_queue_put.
Qed.

(** The job on a fetch that exceeds [poll_timeout]: what [wait_for]
    raises is caught by [except TimeoutError] where the two classes are
    one, and leaves the job where they are not. *)
Lemma polling_job_timeout t E w x :
  get_updates E (fetches w) = Returns x true →
  _polling_job (Some t) E w =
    if python_3_11 E
    then (Ret tt, record (EvLog DEBUG "polling_job failed - timed out")
                    (record (EvFetch (Some t)) (tick_fetch w)))
    else (Exc AsyncioTimeoutError, record (EvFetch (Some t)) (tick_fetch w)).
Proof.
  intros H. unfold _polling_job, try_except, mbind, M_bind. cbn. rewrite H. cbn.
  unfold raise_timeout, asyncio_timeout. by destruct (python_3_11 E).
Qed.

(** From Python 3.11 on: when a fetch exceeds [poll_timeout],
    [_polling_job] returns normally with the attributes, hence the
    queue, unchanged, having logged the timeout at debug level; a cycle
    of the loop in which this happens is followed by the sleep and the
    next cycle, on the same queue; and no execution of [_polling_loop]
    ends with the timeout. *)
Lemma fetch_timeout_is_absorbed fuel t d E w x :
  python_3_11 E = true →
  get_updates E (fetches w) = Returns x true →
  loop_fn E (loop_calls w) = true →
  attrs w !! "running" = Some (PyBool true) →
  cancel_delivered (resume E (suspensions w)) = false →
  cancel_delivered (resume E (S (suspensions w))) = false →
  (∃ w1, _polling_job (Some t) E w = (Ret tt, w1) ∧
         attrs w1 = attrs w ∧
         trace w1 = trace w ++ [EvFetch (Some t);
                                EvLog DEBUG "polling_job failed - timed out"]) ∧
  (∃ w2, polling_while (S fuel) (Some t) d E w = polling_while fuel (Some t) d E w2 ∧
         attrs w2 !! "request_queue" = attrs w !! "request_queue" ∧
         trace w2 = trace w ++
           [EvLoopCall true; EvResume (resume E (suspensions w));
            EvFetch (Some t); EvLog DEBUG "polling_job failed - timed out";
            EvSleep d; EvResume (resume E (S (suspensions w)))]) ∧
  (∀ fuel', (_polling_loop fuel' (Some t) d E w).1 ≠ Exc (asyncio_timeout E)).
Proof.
  intros Hv Hf Hl Hr Hc1 Hc2. split; [|split].
  - eexists. split.
    { rewrite (polling_job_timeout t E w x Hf), Hv. reflexivity. }
    cbn. by rewrite <- app_assoc.
  - set (w0 := record (EvLoopCall true) (tick_loop w)).
    set (wa := apply_interference (resume E (suspensions w)) w0).
    set (wb := record (EvSleep d)
                 (record (EvLog DEBUG "polling_job failed - timed out")
                    (record (EvFetch (Some t)) (tick_fetch wa)))).
    exists (apply_interference (resume E (S (suspensions w))) wb).
    split; [|split].
    + cbn [polling_while]. unfold mbind, M_bind, call_loop. rewrite Hl.
      fold w0. rewrite (getattr_eq "running" (PyBool true)) by done. cbn [truthy mret M_ret].
      unfold await_shielded. change (suspensions w0) with (suspensions w).
      rewrite Hc1. fold wa.
      rewrite (polling_job_timeout t E wa x)
        by (unfold wa; by rewrite fetches_apply_interference).
      rewrite Hv.
      unfold asyncio_sleep, emit, suspend, mbind, M_bind. fold wb.
      assert (suspensions wb = S (suspensions w)) as ->.
      { change (suspensions wb) with (suspensions wa).
        unfold wa. by rewrite suspensions_apply_interference. }
      by rewrite Hc2.
    + rewrite attrs_apply_interference by done.
      change (attrs wb) with (attrs wa).
      unfold wa. by rewrite attrs_apply_interference.
    + rewrite trace_apply_interference.
      change (trace wb) with (((trace wa ++ [EvFetch (Some t)]) ++
        [EvLog DEBUG "polling_job failed - timed out"]) ++ [EvSleep d]).
      unfold wa. rewrite trace_apply_interference.
      change (trace w0) with (trace w ++ [EvLoopCall true]).
      by rewrite <- !app_assoc.
  - intros fuel' H. unfold asyncio_timeout in H. rewrite Hv in H.
    destruct (_polling_loop fuel' (Some t) d E w) as [r w'] eqn:Hrun. cbn in H.
    subst r. by apply (polling_loop_raises fuel' (Some t) d E w TimeoutError);
      rewrite Hrun.
Qed.

(** Before Python 3.11: the timeout of the fetch leaves [_polling_job]
    unlogged, ends the [while] loop in that cycle and leaves
    [_polling_loop] after its [finally] block. *)
Lemma fetch_timeout_ends_the_loop fuel t d n q E w x :
  python_3_11 E = false →
  get_updates E (fetches w) = Returns x true →
  loop_fn E (loop_calls w) = true →
  attrs w !! "running" = Some (PyBool true) →
  attrs w !! "number_of_workers" = Some (PyInt n) →
  attrs w !! "request_queue" = Some (PyQueue q) →
  cancel_delivered (resume E (suspensions w)) = false →
  ∃ w', _polling_loop (S fuel) (Some t) d E w = (Exc AsyncioTimeoutError, w') ∧
        new_events w w' =
          [EvLoopCall true; EvResume (resume E (suspensions w)); EvFetch (Some t);
           clear_running; EvLoopCall (loop_fn E (S (loop_calls w)));
           stop_reason (loop_fn E (S (loop_calls w)))]
          ++ replicate (Z.to_nat n) (EvPut None) ∧
        fetches w' = S (fetches w) ∧
        attrs w' !! "running" = Some (PyBool false) ∧
        attrs w' !! "request_queue" =
          Some (PyQueue (q ++ replicate (Z.to_nat n) None)).
Proof.
  intros Hv Hf Hl Hr Hn Hq Hc.
  set (w0 := record (EvLoopCall true) (tick_loop w)).
  set (wa := apply_interference (resume E (suspensions w)) w0).
  set (wb := record (EvFetch (Some t)) (tick_fetch wa)).
  assert (Hwhile : polling_while (S fuel) (Some t) d E w = (Exc AsyncioTimeoutError, wb)).
  { cbn [polling_while]. unfold mbind, M_bind, call_loop. rewrite Hl. fold w0.
    rewrite (getattr_eq "running" (PyBool true)) by done. cbn [truthy mret M_ret].
    unfold await_shielded. change (suspensions w0) with (suspensions w).
    rewrite Hc. fold wa.
    rewrite (polling_job_timeout t E wa x)
      by (unfold wa; by rewrite fetches_apply_interference).
    by rewrite Hv. }
  assert (Hnb : attrs wb !! "number_of_workers" = Some (PyInt n)).
  { change (attrs wb) with (attrs wa). unfold wa.
    by rewrite attrs_apply_interference. }
  assert (Hqb : attrs wb !! "request_queue" = Some (PyQueue q)).
  { change (attrs wb) with (attrs wa). unfold wa.
    by rewrite attrs_apply_interference. }
  destruct (polling_loop_finally_block_eq n q E wb Hnb Hqb)
    as (w' & Hfin & Ht & Ha & Hfe & _).
  exists w'. split; [|split; [|split; [|split]]].
  - rewrite polling_loop_unfold. unfold try_finally. by rewrite Hwhile, Hfin.
  - apply new_events_app. rewrite Ht.
    change (loop_calls wb) with (loop_calls wa).
    assert (loop_calls wa = S (loop_calls w)) as ->.
    { unfold wa, apply_interference, write.
      by destruct (stop_requested _), (foreground_finished _). }
    change (trace wb) with (trace wa ++ [EvFetch (Some t)]).
    unfold wa. rewrite trace_apply_interference.
    change (trace w0) with (trace w ++ [EvLoopCall true]).
    by rewrite <- !app_assoc.
  - rewrite Hfe. change (fetches wb) with (S (fetches wa)). unfold wa.
    by rewrite fetches_apply_interference.
  - rewrite Ha. rewrite lookup_insert_ne by done. by rewrite lookup_insert_eq.
  - rewrite Ha. by rewrite lookup_insert_eq.
Qed.

(** C7, on the code.  [_polling_job] catches the builtin [TimeoutError];
    [asyncio.wait_for] raises [asyncio.TimeoutError].  Where the two are
    one class, from Python 3.11 on, a fetch that exceeds [poll_timeout]
    is absorbed as the claim says: the job logs it at debug level and
    returns with the queue unchanged, the loop sleeps and goes on to its
    next cycle, and the timeout never leaves [_polling_loop].  Before
    3.11 nothing catches it: the job raises it without a log record, the
    loop ends in that cycle, and [_polling_loop] raises it to its caller
    after the [finally] block has cleared [running] and enqueued the
    sentinels. *)
Theorem fetch_timeout_is_caught_only_from_python_3_11 fuel t d n q E w x :
  get_updates E (fetches w) = Returns x true →
  loop_fn E (loop_calls w) = true →
  attrs w !! "running" = Some (PyBool true) →
  attrs w !! "number_of_workers" = Some (PyInt n) →
  attrs w !! "request_queue" = Some (PyQueue q) →
  cancel_delivered (resume E (suspensions w)) = false →
  cancel_delivered (resume E (S (suspensions w))) = false →
  (python_3_11 E = true →
   (∃ w1, _polling_job (Some t) E w = (Ret tt, w1) ∧
          attrs w1 = attrs w ∧
          trace w1 = trace w ++ [EvFetch (Some t);
                                 EvLog DEBUG "polling_job failed - timed out"]) ∧
   (∃ w2, polling_while (S fuel) (Some t) d E w = polling_while fuel (Some t) d E w2 ∧
          attrs w2 !! "request_queue" = attrs w !! "request_queue" ∧
          trace w2 = trace w ++
            [EvLoopCall true; EvResume (resume E (suspensions w));
             EvFetch (Some t); EvLog DEBUG "polling_job failed - timed out";
             EvSleep d; EvResume (resume E (S (suspensions w)))]) ∧
   (∀ fuel', (_polling_loop fuel' (Some t) d E w).1 ≠ Exc (asyncio_timeout E))) ∧
  (python_3_11 E = false →
   _polling_job (Some t) E w =
     (Exc (asyncio_timeout E), record (EvFetch (Some t)) (tick_fetch w)) ∧
   ∃ w', _polling_loop (S fuel) (Some t) d E w = (Exc (asyncio_timeout E), w') ∧
         new_events w w' =
           [EvLoopCall true; EvResume (resume E (suspensions w)); EvFetch (Some t);
            clear_running; EvLoopCall (loop_fn E (S (loop_calls w)));
            stop_reason (loop_fn E (S (loop_calls w)))]
           ++ replicate (Z.to_nat n) (EvPut None) ∧
         fetches w' = S (fetches w) ∧
         attrs w' !! "running" = Some (PyBool false) ∧
         attrs w' !! "request_queue" =
           Some (PyQueue (q ++ replicate (Z.to_nat n) None))).
Proof.
  intros Hf Hl Hr Hn Hq Hc1 Hc2. split; intros Hv.
  - by apply (fetch_timeout_is_absorbed fuel t d E w x).
  - unfold asyncio_timeout. rewrite Hv. split.
    + by rewrite (polling_job_timeout t E w x Hf), Hv.
    + by apply (fetch_timeout_ends_the_loop fuel t d n q E w x).
Qed.

Lemma fetch_timeout_is_caught_only_from_python_3_11_witness :
  python_3_11 slow_env = false ∧
  get_updates slow_env (fetches (polling_interface 2)) = Returns None true ∧
  loop_fn slow_env (loop_calls (polling_interface 2)) = true ∧
  PollingMessengerInterface._polling_job (Some 5) slow_env (polling_interface 2)
    = (Exc AsyncioTimeoutError,
       record (EvFetch (Some 5)) (tick_fetch (polling_interface 2))) ∧
  (∃ w', PollingMessengerInterface._polling_loop 3 (Some 5) 0 slow_env (polling_interface 2)
           = (Exc AsyncioTimeoutError, w') ∧
         fetches w' = 1 ∧
         attrs w' !! "request_queue" = Some (PyQueue [None; None])) ∧
  python_3_11 (on_python_3_11 slow_env) = true ∧
  (∃ w1, PollingMessengerInterface._polling_job (Some 5) (on_python_3_11 slow_env)
           (polling_interface 2) = (Ret tt, w1) ∧
         attrs w1 = attrs (polling_interface 2)) ∧
  (∀ fuel, (PollingMessengerInterface._polling_loop fuel (Some 5) 0
              (on_python_3_11 slow_env) (polling_interface 2)).1 ≠ Exc TimeoutError).
Proof.
  assert (H1 : ∀ E, get_updates E = get_updates slow_env →
               get_updates E (fetches (polling_interface 2)) = Returns None true)
    by (by intros E ->).
  assert (H3 : attrs (polling_interface 2) !! "running" = Some (PyBool true))
    by (vm_compute; reflexivity).
  assert (H4 : attrs (polling_interface 2) !! "number_of_workers" = Some (PyInt 2))
    by (vm_compute; reflexivity).
  assert (H5 : attrs (polling_interface 2) !! "request_queue" = Some (PyQueue []))
    by (vm_compute; reflexivity).
  destruct (fetch_timeout_is_caught_only_from_python_3_11 2 5 0 2 [] slow_env
              (polling_interface 2) None (H1 _ eq_refl) eq_refl H3 H4 H5 eq_refl eq_refl)
    as [_ Hold].
  destruct (Hold eq_refl) as (Hjob & w' & Hloop & _ & Hfe & _ & Hqu).
  destruct (fetch_timeout_is_caught_only_from_python_3_11 2 5 0 2 [] (on_python_3_11 slow_env)
              (polling_interface 2) None (H1 _ eq_refl) eq_refl H3 H4 H5 eq_refl eq_refl)
    as [Hnew _].
  destruct (Hnew eq_refl) as ((w1 & Hjob1 & Ha1 & _) & _ & Hnever).
  split; [reflexivity|]. split; [reflexivity|]. split; [reflexivity|].
  split; [exact Hjob|]. split.
  { exists w'. split; [exact Hloop|]. split; [exact Hfe|exact Hqu]. }
  split; [reflexivity|]. split; [|exact Hnever].
  exists w1. split; [exact Hjob1|exact Ha1].
Defined.

(** ** _polling_loop: what happens when the loop is left *)

Lemma polling_write_keeps n a k v :
  polling_write k v → polling_attrs n a → polling_attrs n (<[k := v]> a).
Proof.
  intros [Hk Hq] [Hn [q Ha]]. split.
  - by rewrite lookup_insert_ne.
  - destruct (decide (k = "request_queue")) as [->|Hne].
    + destruct (Hq eq_refl) as [q' ->]. exists q'. by rewrite lookup_insert_eq.
    + exists q. by rewrite lookup_insert_ne.
Qed.

Lemma polling_while_frame fuel pt d n E w :
  let w' := (polling_while fuel pt d E w).2 in
  trace_grows loop_body_event w w' ∧
  (polling_attrs n (attrs w) → polling_attrs n (attrs w')).
Proof.
  pose proof (closed_under_and _ _ _ _ _ _
    (trace_grows_closed loop_body_event)
    (keeps_attrs_closed (polling_attrs n) polling_write (polling_write_keeps n)))
    as HR.
  apply (maintains_polling_while HR); repeat split; intros; try done.
  by eexists.
Qed.

Lemma polling_loop_finally n q E w :
  attrs w !! "number_of_workers" = Some (PyInt n) →
  attrs w !! "request_queue" = Some (PyQueue q) →
  ∃ b msg w',
    (setattr "running" (PyBool false) ;;
     l ← call_loop;
     (if negb (l : bool)
      then log INFO "polling_loop stopped working - the loop() condition was false"
      else log INFO "polling_loop stopped working - the stop signal was received.") ;;
     n ← getattr "number_of_workers";
     r ← range n;
     for_each r (fun _ => queue_put None)) E w = (Ret tt, w') ∧
    trace w' = trace w ++ [clear_running; EvLoopCall b; EvLog INFO msg]
                       ++ replicate (Z.to_nat n) (EvPut None) ∧
    attrs w' !! "running" = Some (PyBool false) ∧
    attrs w' !! "request_queue" =
      Some (PyQueue (q ++ replicate (Z.to_nat n) None)).
Proof.
  intros Hn Hq.
  set (b := loop_fn E (loop_calls w)).
  set (msg := if negb b
              then "polling_loop stopped working - the loop() condition was false"
              else "polling_loop stopped working - the stop signal was received.").
  set (w1 := record (EvLog INFO msg)
               (record (EvLoopCall b)
                  (tick_loop (record clear_running
                                (write "running" (PyBool false) w))))).
  destruct (for_each_queue_put (λ _ : nat, None) (seq 0 (Z.to_nat n)) q E w1)
    as (w' & Hrun & Ha & Ht & _).
  { cbn. by rewrite lookup_insert_ne. }
  assert (Hmap : ∀ (A : Type) (x : A) l, map (λ _ : nat, x) l = replicate (length l) x).
  { intros A x l. induction l; cbn; congruence. }
  rewrite Hmap, length_seq in Ha, Ht.
  exists b, msg, w'. split; [|split; [|split]].
  - unfold mbind, M_bind. cbn. fold b.
    assert ((if negb b
             then log INFO "polling_loop stopped working - the loop() condition was false"
             else log INFO "polling_loop stopped working - the stop signal was received.")
            = log INFO msg) as -> by (unfold msg; by destruct b).
    cbn. fold clear_running. fold w1.
    rewrite (getattr_eq "number_of_workers" (PyInt n)).
    2:{ cbn. by rewrite lookup_insert_ne. }
    cbn. exact Hrun.
  - rewrite Ht. cbn. by rewrite <- !app_assoc.
  - rewrite Ha. cbn. rewrite lookup_insert_ne by done. by rewrite lookup_insert_eq.
  - rewrite Ha. by rewrite lookup_insert_eq.
Qed.

(** The shape of every finished execution of [_polling_loop]. *)
Lemma polling_loop_exit_shape fuel pt d E w n q r w' :
  attrs w !! "number_of_workers" = Some (PyInt n) →
  attrs w !! "request_queue" = Some (PyQueue q) →
  _polling_loop fuel pt d E w = (r, w') →
  r ≠ Unfinished →
  ∃ during b msg q',
    trace w' = trace w ++ during
                 ++ [clear_running; EvLoopCall b; EvLog INFO msg]
                 ++ replicate (Z.to_nat n) (EvPut None) ∧
    Forall loop_body_event during ∧
    attrs w' !! "running" = Some (PyBool false) ∧
    attrs w' !! "request_queue" =
      Some (PyQueue (q' ++ replicate (Z.to_nat n) None)).
Proof.
  intros Hn Hq Hrun Hr. unfold _polling_loop, try_finally in Hrun.
  destruct (polling_while_frame fuel pt d n E w) as [(during & Ht & Hd) Hkeep].
  destruct (polling_while fuel pt d E w) as [r1 w1]; cbn in *.
  destruct Hkeep as [Hn1 [q1 Hq1]]; [by split; eauto|].
  destruct (polling_loop_finally n q1 E w1 Hn1 Hq1)
    as (b & msg & w2 & Hfin & Ht2 & Hrun2 & Hq2).
  rewrite Hfin in Hrun.
  assert (w' = w2) as -> by (destruct r1; congruence).
  exists during, b, msg, q1. rewrite Ht2, Ht, <- !app_assoc. done.
Qed.

Lemma sentinels_app l1 l2 : sentinels (l1 ++ l2) = sentinels l1 + sentinels l2.
Proof. unfold sentinels. by rewrite List.filter_app, length_app. Qed.

Lemma sentinels_loop_body l : Forall loop_body_event l → sentinels l = 0.
Proof.
  unfold sentinels. induction 1 as [|e l He _ IH]; [done|].
  cbn. by destruct e as [| |[]| | | | | | | | | | | | | | |].
Qed.

Lemma sentinels_replicate k : sentinels (replicate k (EvPut None)) = k.
Proof. unfold sentinels. induction k; cbn; congruence. Qed.

(** In [before ++ middle ++ after], if [a] occurs in [middle] only and
    [b] in [after] only, every [a] precedes every [b]. *)
Lemma precedes_in_order (a b : event) before middle after :
  Forall (λ e, e ≠ a ∧ e ≠ b) before →
  Forall (λ e, e ≠ b) middle →
  Forall (λ e, e ≠ a) after →
  precedes a b (before ++ middle ++ after).
Proof.
  intros H1 H2 H3 i j Hi Hj.
  apply lookup_app_Some in Hi as [Hi|[Hi1 Hi]].
  { by destruct (Forall_lookup_1 _ _ _ _ H1 Hi). }
  apply lookup_app_Some in Hi as [Hi|[_ Hi]].
  2:{ by destruct (Forall_lookup_1 _ _ _ _ H3 Hi). }
  apply lookup_lt_Some in Hi.
  apply lookup_app_Some in Hj as [Hj|[Hj1 Hj]].
  { by destruct (Forall_lookup_1 _ _ _ _ H1 Hj). }
  apply lookup_app_Some in Hj as [Hj|[Hj2 _]].
  { by destruct (Forall_lookup_1 _ _ _ _ H2 Hj). }
  lia.
Qed.

(** C4, as amended.  Whenever [_polling_loop] ends, by a false [loop()],
    a cleared [running] flag, a cancellation or an exception of the
    fetch, it has cleared [running] first and enqueued the sentinels
    afterwards, exactly [number_of_workers] of them (none when that
    number is negative). *)
Theorem polling_loop_exit_clears_running_then_puts_sentinels
    fuel pt d E w n q r w' :
  attrs w !! "number_of_workers" = Some (PyInt n) →
  attrs w !! "request_queue" = Some (PyQueue q) →
  _polling_loop fuel pt d E w = (r, w') →
  r ≠ Unfinished →
  sentinels (new_events w w') = Z.to_nat n ∧
  (∃ i, new_events w w' !! i = Some clear_running) ∧
  precedes clear_running (EvPut None) (new_events w w') ∧
  attrs w' !! "running" = Some (PyBool false) ∧
  ∃ q', attrs w' !! "request_queue" =
          Some (PyQueue (q' ++ replicate (Z.to_nat n) None)).
Proof.
  intros Hn Hq Hrun Hr.
  destruct (polling_loop_exit_shape _ _ _ _ _ _ _ _ _ Hn Hq Hrun Hr)
    as (during & b & msg & q' & Ht & Hd & Hrunning & Hq').
  rewrite (new_events_app _ _ _ Ht).
  split; [|split; [|split; [|split]]]; [| | |done|by exists q'].
  - rewrite !sentinels_app, (sentinels_loop_body _ Hd), sentinels_replicate.
    done.
  - exists (length during). by rewrite lookup_app_r, Nat.sub_diag.
  - apply precedes_in_order.
    + eapply Forall_impl; [exact Hd|]. by intros [| |[]| | | | | | | | | | | | | | |].
    + by repeat constructor.
    + by apply Forall_replicate.
Qed.

Lemma polling_loop_exit_witness :
  attrs (polling_interface 2) !! "number_of_workers" = Some (PyInt 2) ∧
  attrs (polling_interface 2) !! "request_queue" = Some (PyQueue []) ∧
  sentinels (new_events (polling_interface 2)
               (_polling_loop 1 None 0 idle_env (polling_interface 2)).2) = Z.to_nat 2 ∧
  precedes clear_running (EvPut None)
    (new_events (polling_interface 2)
       (_polling_loop 1 None 0 idle_env (polling_interface 2)).2).
Proof.
  assert (H1 : attrs (polling_interface 2) !! "number_of_workers" = Some (PyInt 2))
    by (vm_compute; reflexivity).
  assert (H2 : attrs (polling_interface 2) !! "request_queue" = Some (PyQueue []))
    by (vm_compute; reflexivity).
  assert (H3 : _polling_loop 1 None 0 idle_env (polling_interface 2)
               = (Ret tt, (_polling_loop 1 None 0 idle_env (polling_interface 2)).2))
    by (vm_compute; reflexivity).
  destruct (polling_loop_exit_clears_running_then_puts_sentinels
              1 None 0 idle_env (polling_interface 2) 2 [] (Ret tt) _ H1 H2 H3)
    as (Hs & _ & Hp & _); [discriminate|].
  auto.
Defined.

(** C4 as the claim states it, sentinels first and the flag afterwards,
    fails on a run of the loop that ends at once. *)
Lemma polling_loop_exit_sentinels_first_counterexample :
  (_polling_loop 1 None 0 idle_env (polling_interface 2)).1 = Ret tt ∧
  ¬ precedes (EvPut None) clear_running
      (new_events (polling_interface 2)
         (_polling_loop 1 None 0 idle_env (polling_interface 2)).2).
Proof.
  split; [vm_compute; reflexivity|].
  intros H.
  assert (Hev : new_events (polling_interface 2)
                  (_polling_loop 1 None 0 idle_env (polling_interface 2)).2
                = [EvLoopCall false; clear_running; EvLoopCall false;
                   EvLog INFO "polling_loop stopped working - the loop() condition was false";
                   EvPut None; EvPut None]) by (vm_compute; reflexivity).
  rewrite Hev in H.
  specialize (H 4 1 eq_refl eq_refl). lia.
Qed.

(** ** _polling_loop: termination *)

Lemma for_each_queue_put_total {A} (f : A → request) (l : list A) E w :
  (for_each l (λ x, queue_put (f x)) E w).1 ≠ Unfinished ∧
  loop_calls (for_each l (λ x, queue_put (f x)) E w).2 = loop_calls w.
Proof.
  revert w. induction l as [|x l IH]; intros w; [done|].
  cbn [for_each]. unfold mbind, M_bind.
  destruct (attrs w !! "request_queue") as [v|] eqn:Hq.
  - destruct v;
      try (unfold queue_put, mbind, M_bind; by rewrite (getattr_eq _ _ _ _ Hq)).
    rewrite (queue_put_eq _ _ _ _ Hq).
    match goal with |- context [for_each l ?g E ?w1] =>
      destruct (IH w1) as [H1 H2] end.
    split; [exact H1|]. by rewrite H2.
  - unfold queue_put, mbind, M_bind, getattr. by rewrite Hq.
Qed.

Lemma polling_job_total pt E w :
  (_polling_job pt E w).1 ≠ Unfinished ∧
  loop_calls (_polling_job pt E w).2 = loop_calls w.
Proof.
  unfold _polling_job, try_except, mbind, M_bind, call_get_updates.
  destruct (get_updates E (fetches w)) as [[l|] late|e].
  - destruct pt as [t|], late; cbn -[for_each]; try done.
    all: try (by unfold asyncio_timeout; destruct (python_3_11 E)).
    all: match goal with |- context [for_each ?l0 ?f ?E0 ?w1] =>
           pose proof (for_each_queue_put_total Some l E w1) as [H1 H2];
           destruct (for_each l f E w1) as [[[]|e0|] w']
         end; cbn in *; try done.
    all: by destruct e0.
  - destruct pt as [t|], late; cbn; try done.
    by unfold asyncio_timeout; destruct (python_3_11 E).
  - cbn. by destruct e.
Qed.

Lemma suspend_total E w :
  (suspend E w).1 ≠ Unfinished ∧ loop_calls (suspend E w).2 = loop_calls w.
Proof.
  unfold suspend, apply_interference, write.
  by destruct (cancel_delivered _), (stop_requested _), (foreground_finished _).
Qed.

(** If the loop predicate is false at its [k]-th call from now, [k + 1]
    rounds of fuel are enough for the [while] loop to end. *)
Lemma polling_while_terminates pt d E k : ∀ w fuel,
  loop_fn E (loop_calls w + k) = false → k < fuel →
  (polling_while fuel pt d E w).1 ≠ Unfinished.
Proof.
  induction k as [|k IH]; intros w [|fuel] Hl Hk; try lia.
  - rewrite Nat.add_0_r in Hl. cbn [polling_while].
    unfold mbind, M_bind, call_loop. by rewrite Hl.
  - cbn [polling_while].
    unfold asyncio_sleep, call_loop, getattr, await_shielded.
    unfold mbind, M_bind, emit.
    destruct (loop_fn E (loop_calls w)); [|done].
    cbn [attrs record with_trace tick_loop].
    destruct (attrs w !! "running") as [running|]; [|done].
    cbn [mret M_ret]. destruct (truthy running); [|done].
    match goal with |- context [apply_interference ?i ?w0] =>
      set (w1 := apply_interference i w0);
      assert (H1 : loop_calls w1 = S (loop_calls w))
        by (unfold w1, apply_interference, write;
            by destruct (stop_requested _), (foreground_finished _))
    end.
    destruct (polling_job_total pt E w1) as [Hj1 Hj2].
    destruct (cancel_delivered _).
    { destruct (shielded_job_done _ _); [|done].
      by destruct (_polling_job pt E w1) as [[[]|e|] w2]. }
    destruct (_polling_job pt E w1) as [[[]|e|] w2]; try done. cbn [snd] in Hj2.
    destruct (suspend_total E (record (EvSleep d) w2)) as [Hs1 Hs2].
    destruct (suspend E (record (EvSleep d) w2)) as [[[]|e|] w3]; try done.
    cbn [snd] in Hs2. apply IH; [|lia].
    rewrite Hs2. change (loop_calls (record (EvSleep d) w2)) with (loop_calls w2).
    rewrite Hj2, H1. by rewrite <- Hl, Nat.add_succ_comm.
Qed.

(** Then [_polling_loop] ends as well: its [finally] block always does. *)
Lemma polling_loop_terminates pt d E k w fuel :
  loop_fn E (loop_calls w + k) = false → k < fuel →
  (_polling_loop fuel pt d E w).1 ≠ Unfinished.
Proof.
  intros Hl Hk. pose proof (polling_while_terminates pt d E k w fuel Hl Hk) as Hw.
  unfold _polling_loop, try_finally.
  destruct (polling_while fuel pt d E w) as [r1 w1]. cbn in Hw.
  assert (Hfin : ∀ E w, ((setattr "running" (PyBool false) ;;
     l ← call_loop;
     (if negb (l : bool)
      then log INFO "polling_loop stopped working - the loop() condition was false"
      else log INFO "polling_loop stopped working - the stop signal was received.") ;;
     n ← getattr "number_of_workers";
     r ← range n;
     for_each r (fun _ => queue_put None)) E w).1 ≠ Unfinished).
  { intros E0 w0. unfold mbind, M_bind, call_loop. cbn [setattr].
    destruct (negb _); cbn [log emit].
    all: unfold getattr;
      match goal with |- context [attrs ?w !! "number_of_workers"] =>
        destruct (attrs w !! "number_of_workers") as [n|]; [|done] end.
    all: destruct n; cbn -[for_each]; try done.
    all: match goal with |- context [for_each ?l ?g ?E1 ?w] =>
           pose proof (for_each_queue_put_total (λ _ : nat, None) l E1 w) as [H _];
           by destruct (for_each l g E1 w) as [[[]|?|] ?] end. }
  specialize (Hfin E w1).
  destruct r1 as [[]|e|]; try done.
  all: match goal with |- context [match ?x with _ => _ end] =>
         destruct x as [[[]|?|] ?] end; done.
Qed.

(** ** _worker and _worker_job *)

Lemma worker_frame fuel wt E w :
  let w' := (PollingMessengerInterface._worker fuel wt E w).2 in
  trace_grows worker_event w w' ∧ same_attrs w w'.
Proof.
  pose proof (closed_under_and _ _ _ _ _ _
                (trace_grows_closed worker_event) same_attrs_closed) as HR.
  apply (maintains_worker HR); cbn; done.
Qed.

Lemma runner_invocations_grows w w' :
  trace_grows not_run w w' →
  runner_invocations (trace w') = runner_invocations (trace w).
Proof.
  intros (evs & -> & H). unfold runner_invocations.
  rewrite List.filter_app, length_app.
  assert (List.filter is_run evs = []) as ->.
  { induction H as [|e l He _ IH]; [done|]. cbn. by destruct e. }
  cbn. lia.
Qed.

(** Every execution of [_worker_job]: the locks are as it found them,
    and it has run the pipeline either not at all or once, between
    taking and releasing the lock of the conversation. *)
Lemma worker_job_cases wt E w :
  let w' := (_worker_job wt E w).2 in
  held w' = held w ∧
  ((∃ evs, trace w' = trace w ++ evs ∧ Forall not_run evs) ∨
   (∃ c m rest,
      (c ∉ held w) ∧
      trace w' = trace w ++
        [EvGet (Some (c, m)); EvAcquire c; EvCoroutine (CoProcessRequest c m);
         EvRunPipeline c m] ++ rest ++ [EvRelease c] ∧
      (rest = [] ∨ ∃ resp, rest = [EvRespond c resp]))).
Proof.
  unfold _worker_job, queue_get, async_with_context_lock, to_thread,
    call_async, wait_for_coroutine, _process_request, call_run_pipeline,
    _respond, acquire, release, try_finally, store_queue, mutate, emit,
    getattr, mbind, M_bind.
  destruct (attrs w !! "request_queue") as [v|] eqn:Hq; cbn -[lookup insert].
  2:{ split; [done|]. left. exists []. by rewrite app_nil_r. }
  destruct v as [| | | | | | |[|[[c m]|] q]| |]; cbn -[lookup insert];
    try (split; [done|]; left; exists []; by rewrite app_nil_r).
  2:{ split; [done|]. left. eexists. split; [reflexivity|]. by repeat constructor. }
  rewrite lookup_insert_ne by done.
  destruct (attrs w !! "pipeline") as [p|] eqn:Hp; cbn -[lookup insert].
  2:{ split; [done|]. left. eexists. split; [reflexivity|]. by repeat constructor. }
  destruct p; cbn -[lookup insert];
    try (split; [done|]; left; eexists; split; [reflexivity|]; by repeat constructor).
  destruct (bool_decide (c ∈ held w)) eqn:Hc; cbn -[lookup insert].
  { split; [done|]. left. eexists. split; [reflexivity|]. by repeat constructor. }
  apply bool_decide_eq_false in Hc.
  assert (Hheld : ({[c]} ∪ held w) ∖ {[c]} = held w).
  { apply set_eq. intros x. rewrite elem_of_difference, elem_of_union, !elem_of_singleton.
    split; [intros [[->|?] ?]; done|]. intros Hx. split; [by right|]. by intros ->. }
  destruct (run_pipeline E (runs w) c m) as [resp late|e]; cbn -[lookup insert].
  - destruct wt as [t|]; [destruct late|]; cbn -[lookup insert].
    all: try (destruct (respond E (S (runs w)) c resp) as [[] [|]|e2];
              cbn -[lookup insert]).
    all: split; [exact Hheld|]; right; exists c, m.
    all: first
      [ exists [EvRespond c resp]; split; [done|];
        split; [by rewrite <- !app_assoc|right; by exists resp]
      | exists []; split; [done|]; split; [by rewrite <- !app_assoc|by left] ].
  - split; [exact Hheld|]. right. exists c, m, []. split; [done|].
    split; [by rewrite <- !app_assoc|by left].
Qed.

Lemma runner_invocations_not_run evs :
  Forall not_run evs → runner_invocations evs = 0.
Proof.
  unfold runner_invocations. induction 1 as [|e l He _ IH]; [done|].
  cbn. by destruct e.
Qed.

(** What [_worker_job] does with a sentinel, were it awaited. *)
Lemma worker_job_on_sentinel wt q E w :
  attrs w !! "request_queue" = Some (PyQueue (None :: q)) →
  _worker_job wt E w = (Ret true, record (EvGet None) (with_queue q w)).
Proof.
  intros H. unfold _worker_job, queue_get, mbind, M_bind.
  by rewrite (getattr_eq _ _ _ _ H).
Qed.

(** The world in which [_worker_job] leaves a request whose run has
    returned in time, and how it ends. *)
Lemma worker_job_serves_item wt c m q p resp late E w :
  attrs w !! "request_queue" = Some (PyQueue (Some (c, m) :: q)) →
  attrs w !! "pipeline" = Some (PyPipeline p) →
  c ∉ held w →
  run_pipeline E (runs w) c m = Returns resp late →
  (wt = None ∨ late = false) →
  ∃ w', _worker_job wt E w
          = (worker_job_end E wt (respond E (S (runs w)) c resp), w') ∧
        attrs w' = <["request_queue" := PyQueue q]> (attrs w) ∧
        held w' = held w ∧
        trace w' = trace w ++
          [EvGet (Some (c, m)); EvAcquire c; EvCoroutine (CoProcessRequest c m);
           EvRunPipeline c m; EvRespond c resp; EvRelease c].
Proof.
  intros Hq Hp Hc Hrun Hok.
  pose proof (worker_job_cases wt E w) as [Hheld _]. revert Hheld.
  assert (wait_for (Returns resp late) wt = mret resp) as Hw.
  { by destruct Hok as [-> | ->]; [|destruct wt]. }
  unfold _worker_job, queue_get, async_with_context_lock, to_thread,
    call_async, wait_for_coroutine, _process_request, call_run_pipeline,
    _respond, acquire, release, try_finally, store_queue, mutate, emit,
    getattr, mbind, M_bind.
  rewrite Hq. cbn -[lookup insert]. rewrite lookup_insert_ne by done.
  rewrite Hp. cbn -[lookup insert].
  rewrite bool_decide_eq_false_2 by done. cbn -[lookup insert].
  rewrite Hrun, Hw. cbn -[lookup insert].
  unfold worker_job_end, raise_timeout.
  destruct (respond E (S (runs w)) c resp) as [[] [|]|e], wt as [t|];
    cbn -[lookup insert]; intros Hheld.
  all: eexists; split; [reflexivity|]; split; [done|]; split; [exact Hheld|].
  all: cbn; by rewrite <- !app_assoc.
Qed.

(** X1.  What [_worker_job] does with a real item, were it awaited: it
    takes the item out of the queue, takes the lock of the conversation,
    runs the pipeline once and, the run having returned within
    [worker_timeout], calls [_respond] with the last response of that
    run, and releases the lock.  It returns [False] when [_respond]
    returns within the bound as well; an exception of [_respond], or
    the timeout when the bound runs out during it, leaves the job
    instead.  Either way only the queue has changed among the
    attributes, and the locks are as they were. *)
Theorem worker_job_on_item wt c m q p resp late E w :
  attrs w !! "request_queue" = Some (PyQueue (Some (c, m) :: q)) →
  attrs w !! "pipeline" = Some (PyPipeline p) →
  c ∉ held w →
  run_pipeline E (runs w) c m = Returns resp late →
  (wt = None ∨ late = false) →
  ∃ w', _worker_job wt E w
          = (worker_job_end E wt (respond E (S (runs w)) c resp), w') ∧
        (∀ late', respond E (S (runs w)) c resp = Returns tt late' →
                  wt = None ∨ late' = false →
                  _worker_job wt E w = (Ret false, w')) ∧
        attrs w' = <["request_queue" := PyQueue q]> (attrs w) ∧
        held w' = held w ∧
        runner_invocations (new_events w w') = 1 ∧
        new_events w w' =
          [EvGet (Some (c, m)); EvAcquire c; EvCoroutine (CoProcessRequest c m);
           EvRunPipeline c m; EvRespond c resp; EvRelease c].
Proof.
  intros Hq Hp Hc Hrun Hok.
  destruct (worker_job_serves_item wt c m q p resp late E w Hq Hp Hc Hrun Hok)
    as (w' & Hjob & Ha & Hh & Ht).
  exists w'. rewrite (new_events_app _ _ _ Ht). repeat split; try done.
  intros late' Hsent Hok'. rewrite Hjob, Hsent.
  by destruct Hok' as [-> | ->]; [|destruct wt].
Qed.

Lemma worker_job_on_item_witness :
  attrs (serving_interface [Some ("A", "hi"); None]) !! "request_queue"
    = Some (PyQueue [Some ("A", "hi"); None]) ∧
  run_pipeline idle_env (runs (serving_interface [Some ("A", "hi"); None])) "A" "hi"
    = Returns "ok" false ∧
  (∃ w', _worker_job (Some 5) idle_env (serving_interface [Some ("A", "hi"); None])
           = (Ret false, w') ∧
         attrs w' !! "request_queue" = Some (PyQueue [None]) ∧
         EvRespond "A" "ok" ∈ new_events (serving_interface [Some ("A", "hi"); None]) w') ∧
  (∃ w', _worker_job (Some 5) failing_respond_env
           (serving_interface [Some ("A", "hi"); None])
           = (Exc (OtherError "user unreachable"), w') ∧
         attrs w' !! "request_queue" = Some (PyQueue [None]) ∧
         held w' = ∅).
Proof.
  assert (H1 : attrs (serving_interface [Some ("A", "hi"); None]) !! "request_queue"
               = Some (PyQueue [Some ("A", "hi"); None])) by (vm_compute; reflexivity).
  assert (H2 : attrs (serving_interface [Some ("A", "hi"); None]) !! "pipeline"
               = Some (PyPipeline "pipeline")) by (vm_compute; reflexivity).
  split; [exact H1|]. split; [reflexivity|]. split.
  - destruct (worker_job_on_item (Some 5) "A" "hi" [None] "pipeline" "ok" false idle_env
                (serving_interface [Some ("A", "hi"); None]) H1 H2
                (not_elem_of_empty "A") eq_refl (or_intror eq_refl))
      as (w' & Hjob & _ & Ha & _ & _ & Hev).
    exists w'. split; [exact Hjob|]. split.
    + rewrite Ha. by rewrite lookup_insert_eq.
    + rewrite Hev. by apply (list_elem_of_lookup_2 _ 4).
  - destruct (worker_job_on_item (Some 5) "A" "hi" [None] "pipeline" "ok" false
                failing_respond_env
                (serving_interface [Some ("A", "hi"); None]) H1 H2
                (not_elem_of_empty "A") eq_refl (or_intror eq_refl))
      as (w' & Hjob & _ & Ha & Hh & _ & _).
    exists w'. split; [exact Hjob|]. split; [|exact Hh].
    rewrite Ha. by rewrite lookup_insert_eq.
Defined.

(** The lock of the conversation is taken around the run: a job that
    finds it held waits. *)
Lemma worker_job_waits_for_lock wt c m q p E w :
  attrs w !! "request_queue" = Some (PyQueue (Some (c, m) :: q)) →
  attrs w !! "pipeline" = Some (PyPipeline p) →
  c ∈ held w →
  (_worker_job wt E w).1 = Unfinished.
Proof.
  intros Hq Hp Hc.
  unfold _worker_job, queue_get, async_with_context_lock, acquire, store_queue,
    mutate, emit, getattr, mbind, M_bind.
  rewrite Hq. cbn -[lookup insert]. rewrite lookup_insert_ne by done.
  rewrite Hp. cbn -[lookup insert]. by rewrite bool_decide_eq_true_2.
Qed.

(** A run that exceeds [worker_timeout]: the lock is released, nothing
    is sent, and the timeout of [wait_for] leaves the job. *)
Lemma worker_job_on_slow_run t c m q p resp E w :
  attrs w !! "request_queue" = Some (PyQueue (Some (c, m) :: q)) →
  attrs w !! "pipeline" = Some (PyPipeline p) →
  c ∉ held w →
  run_pipeline E (runs w) c m = Returns resp true →
  ∃ w', _worker_job (Some t) E w = (Exc (asyncio_timeout E), w') ∧
        trace w' = trace w ++
          [EvGet (Some (c, m)); EvAcquire c; EvCoroutine (CoProcessRequest c m);
           EvRunPipeline c m; EvRelease c].
Proof.
  intros Hq Hp Hc Hrun. eexists. split.
  - unfold _worker_job, queue_get, async_with_context_lock, to_thread,
      call_async, wait_for_coroutine, _process_request, call_run_pipeline,
      _respond, acquire, release, try_finally, store_queue, mutate, emit,
      getattr, mbind, M_bind.
    rewrite Hq. cbn -[lookup insert]. rewrite lookup_insert_ne by done.
    rewrite Hp. cbn -[lookup insert].
    rewrite bool_decide_eq_false_2 by done. cbn -[lookup insert].
    rewrite Hrun. reflexivity.
  - cbn. by rewrite <- !app_assoc.
Qed.

(** X2.  A run that fails, by an exception of the pipeline or by
    exceeding [worker_timeout]: the exception leaves the job, the lock
    has been released, nothing was sent to the user, and the request is
    no longer in the queue. *)
Theorem worker_job_drops_failed_request wt c m q p e E w :
  attrs w !! "request_queue" = Some (PyQueue (Some (c, m) :: q)) →
  attrs w !! "pipeline" = Some (PyPipeline p) →
  c ∉ held w →
  (run_pipeline E (runs w) c m = Raises e ∨
   ∃ t resp, wt = Some t ∧ run_pipeline E (runs w) c m = Returns resp true ∧
             e = asyncio_timeout E) →
  ∃ w', _worker_job wt E w = (Exc e, w') ∧
        attrs w' = <["request_queue" := PyQueue q]> (attrs w) ∧
        held w' = held w ∧
        new_events w w' =
          [EvGet (Some (c, m)); EvAcquire c; EvCoroutine (CoProcessRequest c m);
           EvRunPipeline c m; EvRelease c].
Proof.
  intros Hq Hp Hc Hfail.
  pose proof (worker_job_cases wt E w) as [Hheld _].
  revert Hheld.
  unfold _worker_job, queue_get, async_with_context_lock, to_thread,
    call_async, wait_for_coroutine, _process_request, call_run_pipeline,
    _respond, acquire, release, try_finally, store_queue, mutate, emit,
    getattr, mbind, M_bind.
  rewrite Hq. cbn -[lookup insert]. rewrite lookup_insert_ne by done.
  rewrite Hp. cbn -[lookup insert].
  rewrite bool_decide_eq_false_2 by done. cbn -[lookup insert].
  destruct Hfail as [-> | (t & resp & -> & -> & ->)]; cbn -[lookup insert].
  all: intros Hheld; eexists; split; [reflexivity|].
  all: split; [done|]; split; [exact Hheld|].
  all: apply new_events_app; cbn; by rewrite <- !app_assoc.
Qed.

Lemma worker_job_drops_failed_request_witness :
  attrs (serving_interface [Some ("A", "hi"); None]) !! "request_queue"
    = Some (PyQueue [Some ("A", "hi"); None]) ∧
  run_pipeline failing_run_env (runs (serving_interface [Some ("A", "hi"); None])) "A" "hi"
    = Raises (ValueError "bad request") ∧
  ∃ w', _worker_job (Some 5) failing_run_env (serving_interface [Some ("A", "hi"); None])
          = (Exc (ValueError "bad request"), w') ∧
        attrs w' !! "request_queue" = Some (PyQueue [None]) ∧
        held w' = ∅.
Proof.
  assert (H1 : attrs (serving_interface [Some ("A", "hi"); None]) !! "request_queue"
               = Some (PyQueue [Some ("A", "hi"); None])) by (vm_compute; reflexivity).
  assert (H2 : attrs (serving_interface [Some ("A", "hi"); None]) !! "pipeline"
               = Some (PyPipeline "pipeline")) by (vm_compute; reflexivity).
  split; [exact H1|]. split; [reflexivity|].
  destruct (worker_job_drops_failed_request (Some 5) "A" "hi" [None] "pipeline"
              (ValueError "bad request") failing_run_env
              (serving_interface [Some ("A", "hi"); None]) H1 H2
              (not_elem_of_empty "A") (or_introl eq_refl))
    as (w' & Hrun & Ha & Hh & _).
  exists w'. split; [exact Hrun|]. split; [|exact Hh].
  rewrite Ha. by rewrite lookup_insert_eq.
Defined.

(** X3.  An execution of [_worker_job] that ends, by a return or by an
    exception, has invoked the runner at most once, for the
    conversation whose lock it had taken and not yet released, and
    leaves the locks as it found them: the lock taken by [async with]
    is released on every way out of the block. *)
Theorem worker_job_runs_pipeline_under_lock wt E w r w' :
  _worker_job wt E w = (r, w') →
  r ≠ Unfinished →
  held w' = held w ∧
  (runner_invocations (new_events w w') = 0 ∨
   ∃ c m rest,
     (c ∉ held w) ∧
     new_events w w' =
       [EvGet (Some (c, m)); EvAcquire c; EvCoroutine (CoProcessRequest c m);
        EvRunPipeline c m] ++ rest ++ [EvRelease c] ∧
     (rest = [] ∨ ∃ resp, rest = [EvRespond c resp])).
Proof.
  intros Hjob _.
  destruct (worker_job_cases wt E w)
    as [Hh [(evs & Ht & Hev)|(c & m & rest & Hc & Ht & Hrest)]].
  all: rewrite Hjob in Hh, Ht; cbn [snd] in Hh, Ht.
  all: split; [exact Hh|].
  - left. rewrite (new_events_app _ _ _ Ht). by apply runner_invocations_not_run.
  - right. exists c, m, rest. split; [exact Hc|]. split; [|exact Hrest].
    by apply new_events_app.
Qed.

Lemma worker_job_runs_pipeline_under_lock_witness :
  (∃ w', _worker_job (Some 5) failing_run_env
           (serving_interface [Some ("A", "hi"); None])
           = (Exc (ValueError "bad request"), w') ∧
         held w' = held (serving_interface [Some ("A", "hi"); None]) ∧
         new_events (serving_interface [Some ("A", "hi"); None]) w' =
           [EvGet (Some ("A", "hi")); EvAcquire "A";
            EvCoroutine (CoProcessRequest "A" "hi");
            EvRunPipeline "A" "hi"; EvRelease "A"]).
Proof.
  assert (Hjob : _worker_job (Some 5) failing_run_env
                   (serving_interface [Some ("A", "hi"); None])
                 = (Exc (ValueError "bad request"),
                    (_worker_job (Some 5) failing_run_env
                       (serving_interface [Some ("A", "hi"); None])).2))
    by (vm_compute; reflexivity).
  destruct (worker_job_runs_pipeline_under_lock (Some 5) failing_run_env
              (serving_interface [Some ("A", "hi"); None]) _ _ Hjob)
    as [Hh _]; [discriminate|].
  eexists. split; [exact Hjob|]. split; [exact Hh|].
  vm_compute; reflexivity.
Defined.

Lemma for_each_queue_put_frame {A} (f : A → request) (l : list A) E w :
  fetches (for_each l (λ x, queue_put (f x)) E w).2 = fetches w ∧
  runs (for_each l (λ x, queue_put (f x)) E w).2 = runs w ∧
  held (for_each l (λ x, queue_put (f x)) E w).2 = held w.
Proof.
  revert w. induction l as [|x l IH]; intros w; [done|].
  cbn [for_each]. unfold mbind, M_bind.
  destruct (attrs w !! "request_queue") as [v|] eqn:Hq.
  - destruct v;
      try (unfold queue_put, mbind, M_bind; by rewrite (getattr_eq _ _ _ _ Hq)).
    rewrite (queue_put_eq _ _ _ _ Hq).
    match goal with |- context [for_each l ?g E ?w1] =>
      destruct (IH w1) as (H1 & H2 & H3) end.
    by rewrite H1, H2, H3.
  - unfold queue_put, mbind, M_bind, getattr. by rewrite Hq.
Qed.

(** X4.  The queue is first in, first out across the two halves of the
    interface: after a polling job has appended what it fetched, a
    worker job serves the oldest request, one that was waiting before
    the fetch if there is one and else the first update fetched, and
    leaves the others queued in their order.  This does not depend on
    how [_respond] ends, which only decides how the worker job ends:
    with [False] when the response is sent within [worker_timeout]. *)
Theorem worker_job_serves_oldest_request pt wt q l c m rest p resp late late' E w :
  attrs w !! "request_queue" = Some (PyQueue q) →
  attrs w !! "pipeline" = Some (PyPipeline p) →
  get_updates E (fetches w) = Returns (Some l) late →
  (pt = None ∨ late = false) →
  q ++ map Some l = Some (c, m) :: rest →
  c ∉ held w →
  run_pipeline E (runs w) c m = Returns resp late' →
  (wt = None ∨ late' = false) →
  ∃ w1 w2,
    _polling_job pt E w = (Ret tt, w1) ∧
    _worker_job wt E w1
      = (worker_job_end E wt (respond E (S (runs w)) c resp), w2) ∧
    (∀ late2, respond E (S (runs w)) c resp = Returns tt late2 →
              wt = None ∨ late2 = false →
              _worker_job wt E w1 = (Ret false, w2)) ∧
    attrs w2 !! "request_queue" = Some (PyQueue rest) ∧
    new_events w w2 =
      EvFetch pt :: map (λ u, EvPut (Some u)) l ++
      [EvGet (Some (c, m)); EvAcquire c; EvCoroutine (CoProcessRequest c m);
       EvRunPipeline c m; EvRespond c resp; EvRelease c].
Proof.
  intros Hq Hp Hf Hok Hhead Hc Hrun Hok'.
  set (w0 := record (EvFetch pt) (tick_fetch w)).
  destruct (for_each_queue_put Some l q E w0 Hq) as (w1 & Hput & Ha & Ht & _).
  destruct (for_each_queue_put_frame Some l E w0) as (_ & Hruns & Hheld).
  rewrite Hput in Hruns, Hheld. cbn [snd] in Hruns, Hheld.
  change (runs w0) with (runs w) in Hruns.
  assert (Hjob : _polling_job pt E w = (Ret tt, w1)).
  { unfold _polling_job, try_except, mbind, M_bind. cbn. rewrite Hf.
    assert (wait_for (Returns (Some l) late) pt E (record (EvFetch pt) (tick_fetch w))
            = (Ret (Some l), w0)) as ->.
    { by destruct Hok as [-> | ->]; [|destruct pt]. }
    by rewrite Hput. }
  destruct (worker_job_serves_item wt c m rest p resp late' E w1)
    as (w2 & Hserve & Ha2 & _ & Ht2); try done.
  - rewrite Ha, lookup_insert_eq. do 2 f_equal. exact Hhead.
  - rewrite Ha, lookup_insert_ne by done. exact Hp.
  - by rewrite Hheld.
  - by rewrite Hruns.
  - rewrite Hruns in Hserve.
    exists w1, w2. split; [exact Hjob|]. split; [exact Hserve|]. split; [|split].
    + intros late2 Hsent Hok2. rewrite Hserve, Hsent.
      by destruct Hok2 as [-> | ->]; [|destruct wt].
    + by rewrite Ha2, lookup_insert_eq.
    + apply new_events_app. rewrite Ht2, Ht. cbn. by rewrite <- !app_assoc.
Qed.

Lemma worker_job_serves_oldest_request_witness :
  get_updates delivering_env (fetches (serving_interface []))
    = Returns (Some [("A", "one"); ("B", "two"); ("A", "three")]) false ∧
  ∃ w1 w2,
    _polling_job (Some 5) delivering_env (serving_interface []) = (Ret tt, w1) ∧
    _worker_job (Some 5) delivering_env w1 = (Ret false, w2) ∧
    attrs w2 !! "request_queue" = Some (PyQueue [Some ("B", "two"); Some ("A", "three")]) ∧
    EvRunPipeline "A" "one" ∈ new_events (serving_interface []) w2.
Proof.
  split; [reflexivity|].
  destruct (worker_job_serves_oldest_request (Some 5) (Some 5) []
              [("A", "one"); ("B", "two"); ("A", "three")] "A" "one"
              [Some ("B", "two"); Some ("A", "three")] "pipeline" "ok" false false
              delivering_env (serving_interface []))
    as (w1 & w2 & H1 & H2 & _ & H3 & H4);
    try (vm_compute; reflexivity); try (by right).
  - apply not_elem_of_empty.
  - exists w1, w2. split; [exact H1|]. split; [exact H2|]. split; [exact H3|].
    rewrite H4. by apply (list_elem_of_lookup_2 _ 7).
Defined.

(** One round of fuel is enough for the worker: it never comes to a
    second iteration. *)
Lemma worker_returns_at_once fuel wt E w :
  (_worker (S fuel) wt E w).1 ≠ Unfinished.
Proof.
  cbn [_worker]. unfold queue_empty, call_async, log, emit, getattr.
  unfold try_except, mbind, M_bind.
  destruct (attrs w !! "running") as [running|]; [|done].
  destruct (truthy running); [done|].
  destruct (attrs w !! "request_queue") as [[]|]; try done.
  cbn. by destruct (bool_decide _).
Qed.

(** C2, on the code.  [_worker] calls [_worker_job] without awaiting
    it and tests the coroutine object, which is true: whatever the state
    of the interface, the worker leaves the attributes, hence the queue,
    as they were, and records nothing but the creation of the coroutine
    and its farewell log line.  With a real item queued it returns at
    once and the item stays in the queue. *)
Theorem worker_never_dequeues fuel wt E w :
  (let w' := (_worker fuel wt E w).2 in
   attrs w' = attrs w ∧ trace_grows worker_event w w') ∧
  (let w0 := with_queue [Some ("A", "hi")] (polling_interface 1) in
   _worker (S fuel) wt E w0 =
     (Ret tt,
      record (EvLog INFO "Worker finished working - all remaining requests have been processed.")
        (record (EvCoroutine (CoWorkerJob wt)) w0))).
Proof.
  split; [|vm_compute; reflexivity].
  destruct (worker_frame fuel wt E w) as [H1 H2]. split; [exact H2|exact H1].
Qed.

(** C1, on the code.  No execution of a polling interface ever invokes
    the pipeline runner: not a foreground run of a new interface,
    whatever the number of workers and whatever the channel delivers,
    and not a worker on any state of the interface.  With two deliveries
    for one conversation queued and two workers run, the runner is
    invoked zero times and both deliveries are still queued. *)
Theorem polling_interface_never_runs_pipeline fuel n p pr pt wt d E :
  runner_invocations
    (trace (run_in_foreground fuel p pr pt wt d E (polling_interface n)).2) = 0 ∧
  (∀ w, runner_invocations (trace (_worker fuel wt E w).2)
        = runner_invocations (trace w)) ∧
  (let w0 := with_queue [Some ("A", "one"); Some ("A", "two")] (polling_interface 2) in
   let w1 := (_worker (S fuel) wt E w0).2 in
   let w2 := (_worker (S fuel) wt E w1).2 in
   runner_invocations (trace w2) = 0 ∧
   attrs w2 !! "request_queue" =
     Some (PyQueue [Some ("A", "one"); Some ("A", "two")])).
Proof.
  pose proof (trace_grows_closed not_run) as HR.
  split; [|split].
  - rewrite (runner_invocations_grows (polling_interface n)); [reflexivity|].
    by apply (maintains_run_in_foreground HR).
  - intros w. apply runner_invocations_grows.
    by apply (maintains_worker HR).
  - split; vm_compute; reflexivity.
Qed.

(** ** shutdown *)

(** C10.  Before any background task was started the [task] attribute
    is [None] (it is so right after [__init__], and only
    [run_in_foreground] assigns it); [shutdown] then fails with an
    attribute error at [self.task.cancel()], after having cleared
    [running], and neither cancels nor awaits anything. *)
Theorem shutdown_before_start_raises fuel pr E w :
  attrs w !! "task" = Some PyNone →
  ∃ w', shutdown fuel pr E w = (Exc (AttributeError "NoneType" "cancel"), w') ∧
        attrs w' = <["running" := PyBool false]> (attrs w) ∧
        trace w' = trace w ++
          [EvLog INFO "messenger_interface.shutdown() called - shutting down interface";
           clear_running].
Proof.
  intros Ht. eexists. split; [|split].
  - unfold shutdown, mbind, M_bind. cbn.
    rewrite (getattr_eq "task" PyNone); [reflexivity|].
    cbn. by rewrite lookup_insert_ne.
  - done.
  - cbn. by rewrite <- app_assoc.
Qed.

Lemma shutdown_before_start_raises_witness :
  attrs (polling_interface 2) !! "task" = Some PyNone ∧
  ∃ w', shutdown 1 (PyRunner "run") idle_env (polling_interface 2)
          = (Exc (AttributeError "NoneType" "cancel"), w') ∧
        attrs w' = <["running" := PyBool false]> (attrs (polling_interface 2)) ∧
        trace w' = trace (polling_interface 2) ++
          [EvLog INFO "messenger_interface.shutdown() called - shutting down interface";
           clear_running].
Proof.
  split; [reflexivity|].
  apply (shutdown_before_start_raises 1 (PyRunner "run") idle_env
           (polling_interface 2)).
  reflexivity.
Defined.

(** C9.  [CallbackMessengerInterface.__init__] assigns [_pipeline_runner]
    only: none of the five lifecycle attributes of the base class exists
    on the new object, and [shutdown] ends in an attribute error on
    [self.task], with no task cancelled or awaited. *)
Theorem callback_interface_lacks_lifecycle_state fuel pr E :
  attrs callback_interface = {["_pipeline_runner" := PyNone]} ∧
  attrs callback_interface !! "task" = None ∧
  attrs callback_interface !! "pipeline" = None ∧
  attrs callback_interface !! "running" = None ∧
  attrs callback_interface !! "finished_working" = None ∧
  attrs callback_interface !! "running_in_foreground" = None ∧
  ∃ w', shutdown fuel pr E callback_interface
          = (Exc (AttributeError "CallbackMessengerInterface" "task"), w') ∧
        new_events callback_interface w' =
          [EvLog INFO "messenger_interface.shutdown() called - shutting down interface";
           clear_running].
Proof.
  repeat split; try reflexivity.
  eexists. split; reflexivity.
Qed.

(** [run_in_foreground] on a callback interface does not get as far as
    a task: the call [self.connect(pipeline_runner, loop=..., ...)] is
    refused, since the [connect] of this class takes the runner only.
    [task] and [finished_working] are still missing afterwards. *)
Lemma callback_run_in_foreground_fails fuel p pr pt wt d E :
  (run_in_foreground fuel p pr pt wt d E callback_interface).1
    = Exc (TypeError "connect() got an unexpected keyword argument 'loop'") ∧
  attrs (run_in_foreground fuel p pr pt wt d E callback_interface).2 !! "task" = None ∧
  attrs (run_in_foreground fuel p pr pt wt d E callback_interface).2
    !! "finished_working" = None.
Proof. repeat split; vm_compute; reflexivity. Qed.

(** Awaiting a task that is already done gives its outcome at once. *)
Lemma await_task_done interp t c s E w :
  tasks w !! t = Some (c, s) → task_done s = true →
  await_task interp (PyTask t) E w = (task_outcome s, w).
Proof. intros H Hd. cbn. rewrite H, Hd. by destruct s. Qed.

(** Awaiting a task that is not done: the event loop runs it to its end
    state [s'], and the awaiting coroutine is resumed. *)
Lemma await_task_driven interp t c s s' E w w1 :
  tasks w !! t = Some (c, s) → task_done s = false →
  drive_task interp t E w = (Ret tt, w1) →
  tasks w1 !! t = Some (c, s') →
  await_task interp (PyTask t) E w =
    (if cancel_delivered (resume E (suspensions w1)) then Exc CancelledError
     else task_outcome s',
     apply_interference (resume E (suspensions w1)) w1).
Proof.
  intros H Hd Hdrive Hs'. cbn. rewrite H, Hd.
  unfold mbind, M_bind. rewrite Hdrive. unfold suspend.
  destruct (cancel_delivered _); [done|].
  rewrite tasks_apply_interference, Hs'. by destruct s'.
Qed.

Lemma await_task_stuck interp t c s E w w1 :
  tasks w !! t = Some (c, s) → task_done s = false →
  drive_task interp t E w = (Unfinished, w1) →
  await_task interp (PyTask t) E w = (Unfinished, w1).
Proof.
  intros H Hd Hdrive. cbn. rewrite H, Hd.
  unfold mbind, M_bind. by rewrite Hdrive.
Qed.

Lemma shutdown_unfold fuel pr E w t :
  attrs w !! "task" = Some (PyTask t) →
  shutdown fuel pr E w =
    match await_task (dispatch_task_body fuel pr) (PyTask t) E (shutdown_cancelled t E w) with
    | (Ret _, w4) => (Ret tt, record (stopped_message w4) w4)
    | (Exc CancelledError, w4) =>
        match attrs w4 !! "finished_working" with
        | Some fw =>
            if truthy fw then (Ret tt, record (stopped_message w4) w4)
            else (Exc CancelledError, w4)
        | None => (Exc (AttributeError (class_name (self_class w4)) "finished_working"), w4)
        end
    | (Exc e, w4) => (Exc e, w4)
    | (Unfinished, w4) => (Unfinished, w4)
    end.
Proof.
  intros Ht. unfold shutdown.
  unfold mbind at 1, M_bind at 1. cbn [log emit].
  unfold mbind at 1, M_bind at 1. cbn [setattr].
  unfold mbind at 1, M_bind at 1.
  rewrite (getattr_eq "task" (PyTask t)) by (cbn; by rewrite lookup_insert_ne).
  unfold mbind at 1, M_bind at 1.
  assert (Hc : ∀ w0, task_cancel (PyTask t) E w0 = (Ret tt, (task_cancel (PyTask t) E w0).2)).
  { intros w0. cbn. by destruct (tasks w0 !! t) as [[c []]|]. }
  rewrite Hc. fold clear_running.
  change (task_cancel (PyTask t) E _).2 with (shutdown_cancelled t E w).
  assert (Ha : attrs (shutdown_cancelled t E w) !! "task" = Some (PyTask t)).
  { unfold shutdown_cancelled. cbn.
    destruct (tasks w !! t) as [[c []]|]; cbn; by rewrite lookup_insert_ne. }
  generalize dependent (shutdown_cancelled t E w). intros w3 Ha.
  unfold mbind at 1, M_bind at 1. unfold try_except.
  unfold mbind at 1, M_bind at 1. rewrite (getattr_eq _ _ _ _ Ha).
  destruct (await_task (dispatch_task_body fuel pr) (PyTask t) E w3) as [[[]|e|] w4]; try done.
  destruct e; try done.
  unfold mbind at 1, M_bind at 1. unfold getattr.
  destruct (attrs w4 !! "finished_working") as [fw|]; [|done].
  by destruct (truthy fw).
Qed.

Lemma shutdown_cancelled_tasks t E w :
  tasks (shutdown_cancelled t E w) !! t =
    match tasks w !! t with
    | Some (c, Scheduled _) => Some (c, Scheduled true)
    | Some (c, Suspended _) => Some (c, Suspended true)
    | o => o
    end.
Proof.
  unfold shutdown_cancelled. cbn.
  destruct (tasks w !! t) as [[c []]|] eqn:H; cbn; try done.
  all: by rewrite list_lookup_alter_eq, H.
Qed.

Lemma shutdown_cancelled_attrs t E w k :
  k ≠ "running" → attrs (shutdown_cancelled t E w) !! k = attrs w !! k.
Proof.
  intros Hk. unfold shutdown_cancelled. cbn.
  destruct (tasks w !! t) as [[c []]|]; cbn; by rewrite lookup_insert_ne.
Qed.

Lemma shutdown_cancelled_trace t E w :
  trace (shutdown_cancelled t E w) = trace w ++
    [EvLog INFO "messenger_interface.shutdown() called - shutting down interface";
     clear_running; EvCancel t].
Proof.
  unfold shutdown_cancelled. cbn.
  destruct (tasks w !! t) as [[c []]|]; cbn; by rewrite <- !app_assoc.
Qed.

Lemma await_task_trace fuel pr x E w :
  ∃ evs, trace (await_task (dispatch_task_body fuel pr) x E w).2 = trace w ++ evs.
Proof.
  pose proof (trace_grows_closed any_event) as HR.
  destruct (maintains_await_task HR (dispatch_task_body fuel pr) x) with (E := E) (w := w)
    as (evs & H & _).
  - by repeat split.
  - intros c. by apply (maintains_dispatch_task_body HR).
  - by exists evs.
Qed.

Lemma shutdown_handler_result w4 (r : result unit) w' :
  match attrs w4 !! "finished_working" with
  | Some fw =>
      if truthy fw then (Ret tt, record (stopped_message w4) w4)
      else (Exc CancelledError, w4)
  | None => (Exc (AttributeError (class_name (self_class w4)) "finished_working"), w4)
  end = (r, w') →
  tasks w' = tasks w4 ∧ attrs w' = attrs w4 ∧
  ∀ fw, attrs w4 !! "finished_working" = Some (PyBool fw) →
        r = if fw then Ret tt else Exc CancelledError.
Proof.
  destruct (attrs w4 !! "finished_working") as [fw4|]; [destruct (truthy fw4) eqn:Hty|];
    intros [= <- <-]; repeat split; try done.
  all: by intros fw [= ->]; cbn in Hty; subst.
Qed.

Lemma shutdown_cancelled_frame t E w :
  suspensions (shutdown_cancelled t E w) = suspensions w ∧
  self_class (shutdown_cancelled t E w) = self_class w ∧
  attrs (shutdown_cancelled t E w) !! "running" = Some (PyBool false).
Proof.
  unfold shutdown_cancelled. cbn.
  destruct (tasks w !! t) as [[c []]|]; cbn; by rewrite lookup_insert_eq.
Qed.

(** The [await self.task] of [shutdown], by the state in which the task
    was when [shutdown] was called. *)
Lemma shutdown_await fuel pr E w t c s :
  tasks w !! t = Some (c, s) →
  await_task (dispatch_task_body fuel pr) (PyTask t) E (shutdown_cancelled t E w) =
    if task_done s then (task_outcome s, shutdown_cancelled t E w)
    else if task_done (task_after_shutdown E w s)
    then (if cancel_delivered (resume E (suspensions w)) then Exc CancelledError
          else task_outcome (task_after_shutdown E w s),
          apply_interference (resume E (suspensions w))
            (set_task_state t (task_after_shutdown E w s) (shutdown_cancelled t E w)))
    else (Unfinished, shutdown_cancelled t E w).
Proof.
  intros Hs.
  pose proof (shutdown_cancelled_tasks t E w) as Hts. rewrite Hs in Hts.
  destruct (shutdown_cancelled_frame t E w) as (Hsu & _ & _).
  set (w3 := shutdown_cancelled t E w) in *.
  destruct s as [b|b| | |e]; cbn [task_done task_after_shutdown].
  - rewrite (await_task_driven _ t c (Scheduled true) Cancelled E w3
               (set_task_state t Cancelled w3)); try done.
    + change (suspensions (set_task_state t Cancelled w3)) with (suspensions w3).
      by rewrite Hsu.
    + unfold drive_task. by rewrite Hts.
    + by apply (lookup_set_task_state _ _ _ _ _ Hts).
  - destruct (task_done (settle E (suspensions w))) eqn:Hd.
    + rewrite Hd.
      rewrite (await_task_driven _ t c (Suspended true) (settle E (suspensions w)) E w3
                 (set_task_state t (settle E (suspensions w)) w3)); try done.
      * change (suspensions (set_task_state t _ w3)) with (suspensions w3).
        by rewrite Hsu.
      * unfold drive_task. rewrite Hts. cbv zeta. by rewrite Hsu, Hd.
      * by apply (lookup_set_task_state _ _ _ _ _ Hts).
    + cbn [task_done].
      rewrite (await_task_stuck _ t c (Suspended true) E w3 w3); try done.
      unfold drive_task. rewrite Hts. cbv zeta. by rewrite Hsu, Hd.
  - by rewrite (await_task_done _ _ _ _ _ _ Hts eq_refl).
  - by rewrite (await_task_done _ _ _ _ _ _ Hts eq_refl).
  - by rewrite (await_task_done _ _ _ _ _ _ Hts eq_refl).
Qed.

(** How [shutdown] ends, by the outcome [ra] of its [await]. *)
Lemma shutdown_end (ra : result unit) w4 r w' :
  match ra with
  | Ret _ => (Ret tt, record (stopped_message w4) w4)
  | Exc CancelledError =>
      match attrs w4 !! "finished_working" with
      | Some fw =>
          if truthy fw then (Ret tt, record (stopped_message w4) w4)
          else (Exc CancelledError, w4)
      | None => (Exc (AttributeError (class_name (self_class w4)) "finished_working"), w4)
      end
  | Exc e => (Exc e, w4)
  | Unfinished => (Unfinished, w4)
  end = (r, w') →
  tasks w' = tasks w4 ∧ attrs w' = attrs w4 ∧
  trace w' = trace w4 ++ match r with Ret _ => [stopped_message w4] | _ => [] end ∧
  (r = Unfinished ↔ ra = Unfinished).
Proof.
  destruct ra as [[]|e|].
  - intros [= <- <-]. by repeat split.
  - destruct e; try (intros [= <- <-]; cbn; rewrite app_nil_r; by repeat split).
    destruct (attrs w4 !! "finished_working") as [fw|]; [destruct (truthy fw)|];
      intros [= <- <-]; cbn; rewrite ?app_nil_r; by repeat split.
  - intros [= <- <-]. cbn. rewrite app_nil_r. by repeat split.
Qed.

(** [shutdown] cancels the task and awaits it. *)
Lemma shutdown_cancels_and_awaits fuel pr E w t c s r w' :
  attrs w !! "task" = Some (PyTask t) →
  tasks w !! t = Some (c, s) →
  shutdown fuel pr E w = (r, w') →
  tasks w' !! t = Some (c, task_after_shutdown E w s) ∧
  attrs w' !! "running" = Some (PyBool false) ∧
  (r = Unfinished ↔ task_done (task_after_shutdown E w s) = false) ∧
  (task_done s = false → r ≠ Unfinished →
   new_events w w' =
     [EvLog INFO "messenger_interface.shutdown() called - shutting down interface";
      clear_running; EvCancel t; EvResume (resume E (suspensions w))]
     ++ match r with Ret _ => [stopped_message w] | _ => [] end).
Proof.
  intros Ht Hs Hrun. rewrite (shutdown_unfold _ _ _ _ _ Ht) in Hrun.
  rewrite (shutdown_await fuel pr E w t c s Hs) in Hrun.
  pose proof (shutdown_cancelled_tasks t E w) as Hts. rewrite Hs in Hts.
  pose proof (shutdown_cancelled_trace t E w) as Htr.
  destruct (shutdown_cancelled_frame t E w) as (_ & Hk & Hr).
  set (w3 := shutdown_cancelled t E w) in *.
  assert (∃ s3, tasks w3 !! t = Some (c, s3)) as [s3 Hts3] by (destruct s; eauto).
  destruct (task_done s) eqn:Hd.
  - (* the task was done: cancelling it changes nothing *)
    destruct (shutdown_end _ _ _ _ Hrun) as (Htk & Ha & _ & Hu).
    rewrite Htk, Ha.
    assert (task_after_shutdown E w s = s) as -> by (by destruct s).
    split; [by destruct s|]. split; [exact Hr|]. split; [|done].
    rewrite Hd, Hu. by destruct s.
  - destruct (task_done (task_after_shutdown E w s)) eqn:Hd'.
    + set (s' := task_after_shutdown E w s) in *.
      set (w4 := apply_interference (resume E (suspensions w)) (set_task_state t s' w3)) in *.
      destruct (shutdown_end _ _ _ _ Hrun) as (Htk & Ha & Htr' & Hu).
      rewrite Htk, Ha. split; [|split; [|split]].
      * unfold w4. rewrite tasks_apply_interference.
        apply (lookup_set_task_state _ _ _ _ _ Hts3).
      * unfold w4. apply running_after_interference. by right.
      * rewrite Hu. split; [|done].
        by destruct (cancel_delivered _), s'.
      * intros _ _. apply new_events_app. rewrite Htr'.
        unfold w4. rewrite trace_apply_interference.
        change (trace (set_task_state t s' w3)) with (trace w3). rewrite Htr.
        unfold stopped_message.
        rewrite self_class_apply_interference.
        change (self_class (set_task_state t s' w3)) with (self_class w3). rewrite Hk.
        by rewrite <- !app_assoc.
    + injection Hrun as <- <-.
      assert (Hs' : task_after_shutdown E w s = Suspended true).
      { destruct s; cbn in *; try done.
        destruct (task_done (settle E (suspensions w))) eqn:Hx; [congruence|done]. }
      rewrite Hs'. split; [|split; [exact Hr|split; [by split|]]].
      * rewrite Hts. by destruct s.
      * intros _ H. by destruct H.
Qed.

(** What [shutdown] records first, and what its handler does with the
    cancellation of the awaited task. *)
Lemma shutdown_handles_cancellation fuel pr E w t r w' :
  attrs w !! "task" = Some (PyTask t) →
  shutdown fuel pr E w = (r, w') →
  (∃ rest, new_events w w' =
     EvLog INFO "messenger_interface.shutdown() called - shutting down interface"
     :: clear_running :: EvCancel t :: rest) ∧
  (∀ c fw, tasks w' !! t = Some (c, Cancelled) →
           attrs w' !! "finished_working" = Some (PyBool fw) →
           r = if fw then Ret tt else Exc CancelledError) ∧
  (∀ c s, tasks w !! t = Some (c, s) → s = Finished ∨ s = Cancelled →
          attrs w !! "finished_working" = Some (PyBool true) → r = Ret tt).
Proof.
  intros Ht Hrun. rewrite (shutdown_unfold _ _ _ _ _ Ht) in Hrun.
  pose proof (shutdown_cancelled_tasks t E w) as Hts.
  pose proof (shutdown_cancelled_trace t E w) as Htr.
  pose proof (shutdown_cancelled_attrs t E w "finished_working" ltac:(done)) as Hfw.
  destruct (await_task_trace fuel pr (PyTask t) E (shutdown_cancelled t E w))
    as (evs & Hevs).
  set (w3 := shutdown_cancelled t E w) in *.
  split; [|split].
  - (* the first events *)
    assert (∃ rest, trace w' = trace w3 ++ rest) as [rest Hrest].
    { destruct (await_task _ _ E w3) as [[[]|e|] w4]; cbn in Hevs.
      - injection Hrun as <- <-. exists (evs ++ [stopped_message w4]).
        cbn. by rewrite Hevs, <- app_assoc.
      - destruct e; try (injection Hrun as <- <-; by exists evs).
        destruct (attrs w4 !! "finished_working") as [fw|];
          [destruct (truthy fw)|]; injection Hrun as <- <-.
        + exists (evs ++ [stopped_message w4]). cbn. by rewrite Hevs, <- app_assoc.
        + by exists evs.
        + by exists evs.
      - injection Hrun as <- <-. by exists evs. }
    exists rest. apply new_events_app. rewrite Hrest, Htr, <- !app_assoc. done.
  - (* a task that ended cancelled *)
    intros c fw Hc Hf.
    assert (Hcancelled : ∀ w4,
      (match attrs w4 !! "finished_working" with
       | Some fw =>
           if truthy fw then (Ret tt, record (stopped_message w4) w4)
           else (Exc CancelledError, w4)
       | None => (Exc (AttributeError (class_name (self_class w4)) "finished_working"), w4)
       end = (r, w')) → r = if fw then Ret tt else Exc CancelledError).
    { intros w4 H4. destruct (shutdown_handler_result _ _ _ H4) as (_ & Ha & Hr).
      apply Hr. by rewrite <- Ha. }
    assert (Hother : ∀ w4 s4,
      tasks w4 !! t = Some s4 → s4.2 ≠ Cancelled → tasks w' = tasks w4 → False).
    { intros w4 s4 H4 Hne Htw. rewrite Htw, H4 in Hc. injection Hc as ->. by apply Hne. }
    destruct (tasks w3 !! t) as [[c3 s3]|] eqn:H3.
    2:{ cbn in Hrun. rewrite H3 in Hrun. injection Hrun as <- <-. congruence. }
    destruct (task_done s3) eqn:Hd.
    + rewrite (await_task_done _ _ _ _ _ _ H3 Hd) in Hrun.
      destruct s3; try done.
      * exfalso. apply (Hother w3 _ H3); [done|]. by injection Hrun as <- <-.
      * by apply (Hcancelled w3).
      * exfalso. apply (Hother w3 _ H3); [done|]. cbn in Hrun.
        destruct e; try by injection Hrun as <- <-.
        by destruct (shutdown_handler_result _ _ _ Hrun) as (? & _).
    + assert (s3 = Scheduled true ∨ s3 = Suspended true) as [-> | ->].
      { destruct (tasks w !! t) as [[? []]|]; simplify_eq; auto. }
      * (* cancelled before its first step *)
        rewrite (await_task_driven _ t c3 (Scheduled true) Cancelled E w3
                   (set_task_state t Cancelled w3)) in Hrun; try done.
        2:{ unfold drive_task. by rewrite H3. }
        2:{ by apply (lookup_set_task_state _ _ _ _ _ H3). }
        apply (Hcancelled (apply_interference
                 (resume E (suspensions (set_task_state t Cancelled w3)))
                 (set_task_state t Cancelled w3))).
        by destruct (cancel_delivered _).
      * (* cancelled while it was running *)
        destruct (task_done (settle E (suspensions w3))) eqn:Hs.
        -- rewrite (await_task_driven _ t c3 (Suspended true)
                      (settle E (suspensions w3)) E w3
                      (set_task_state t (settle E (suspensions w3)) w3)) in Hrun;
             try done.
           2:{ unfold drive_task. rewrite H3. cbv zeta. by rewrite Hs. }
           2:{ by apply (lookup_set_task_state _ _ _ _ _ H3). }
           set (w1 := set_task_state t (settle E (suspensions w3)) w3) in *.
           assert (Hend : tasks (apply_interference (resume E (suspensions w1)) w1) !! t
                          = Some (c3, settle E (suspensions w3))).
           { rewrite tasks_apply_interference. by apply (lookup_set_task_state _ _ _ _ _ H3). }
           destruct (settle E (suspensions w3)) eqn:Hst; try done.
           ++ exfalso. apply (Hother _ _ Hend); [done|].
              destruct (cancel_delivered _); unfold task_outcome in Hrun;
                cbv beta iota zeta in Hrun;
                [by destruct (shutdown_handler_result _ _ _ Hrun) as (? & _)|].
              by injection Hrun as <- <-.
           ++ apply (Hcancelled (apply_interference (resume E (suspensions w1)) w1)).
              by destruct (cancel_delivered _).
           ++ exfalso. apply (Hother _ _ Hend); [done|].
              destruct (cancel_delivered _); unfold task_outcome in Hrun;
                cbv beta iota zeta in Hrun;
                [by destruct (shutdown_handler_result _ _ _ Hrun) as (? & _)|].
              destruct e; try by injection Hrun as <- <-.
              by destruct (shutdown_handler_result _ _ _ Hrun) as (? & _).
        -- rewrite (await_task_stuck _ t c3 (Suspended true) E w3 w3) in Hrun; try done.
           2:{ unfold drive_task. rewrite H3. cbv zeta. by rewrite Hs. }
           injection Hrun as <- <-. congruence.
  - (* after natural completion *)
    intros c s Hs Hnat Hfin.
    rewrite Hs in Hts.
    destruct Hnat as [-> | ->].
    + rewrite (await_task_done _ _ _ _ _ _ Hts eq_refl) in Hrun.
      by injection Hrun as <- <-.
    + rewrite (await_task_done _ _ _ _ _ _ Hts eq_refl) in Hrun.
      unfold task_outcome in Hrun. cbv beta iota zeta in Hrun.
      rewrite Hfw, Hfin in Hrun. by injection Hrun as <- <-.
Qed.

(** C3.  [shutdown] clears [running] and cancels the task before it
    awaits it: a task whose first step has not run is cancelled without
    running, a task under way is awaited until it has ended, and a task
    that is done is left as it is.  [shutdown] does not end before the
    task has.  When the awaited task has ended cancelled, [shutdown]
    returns normally if [finished_working] is true when the
    cancellation reaches it, and raises [CancelledError] if it is
    false.  Called once the task has completed and [finished_working]
    is set, it does not raise. *)
Theorem shutdown_swallows_cancellation_iff_finished fuel pr E w t r w' :
  attrs w !! "task" = Some (PyTask t) →
  shutdown fuel pr E w = (r, w') →
  (∃ rest, new_events w w' =
     EvLog INFO "messenger_interface.shutdown() called - shutting down interface"
     :: clear_running :: EvCancel t :: rest) ∧
  (∀ c fw, tasks w' !! t = Some (c, Cancelled) →
           attrs w' !! "finished_working" = Some (PyBool fw) →
           r = if fw then Ret tt else Exc CancelledError) ∧
  (∀ c s, tasks w !! t = Some (c, s) → s = Finished ∨ s = Cancelled →
          attrs w !! "finished_working" = Some (PyBool true) → r = Ret tt) ∧
  (∀ c s, tasks w !! t = Some (c, s) →
          tasks w' !! t = Some (c, task_after_shutdown E w s) ∧
          attrs w' !! "running" = Some (PyBool false) ∧
          (r = Unfinished ↔ task_done (task_after_shutdown E w s) = false) ∧
          (task_done s = false → r ≠ Unfinished →
           new_events w w' =
             [EvLog INFO "messenger_interface.shutdown() called - shutting down interface";
              clear_running; EvCancel t; EvResume (resume E (suspensions w))]
             ++ match r with Ret _ => [stopped_message w] | _ => [] end)).
Proof.
  intros Ht Hrun.
  destruct (shutdown_handles_cancellation fuel pr E w t r w' Ht Hrun) as (H1 & H2 & H3).
  split; [exact H1|]. split; [exact H2|]. split; [exact H3|].
  intros c s Hs. by apply (shutdown_cancels_and_awaits fuel pr E w t c s r w').
Qed.

Lemma shutdown_swallows_cancellation_iff_finished_witness :
  (tasks started_interface !! 0 = Some (CoConnect None None 0, Scheduled false) ∧
   ∃ w', shutdown 1 (PyRunner "run") idle_env started_interface
           = (Exc CancelledError, w') ∧
         tasks w' !! 0 = Some (CoConnect None None 0, Cancelled) ∧
         attrs w' !! "running" = Some (PyBool false) ∧
         attrs w' !! "finished_working" = Some (PyBool false)) ∧
  (∃ w', shutdown 1 (PyRunner "run") finishing_env started_interface = (Ret tt, w') ∧
         tasks w' !! 0 = Some (CoConnect None None 0, Cancelled) ∧
         attrs w' !! "finished_working" = Some (PyBool true)) ∧
  (tasks finished_interface !! 0 = Some (CoConnect None None 0, Finished) ∧
   attrs finished_interface !! "finished_working" = Some (PyBool true) ∧
   (shutdown 1 (PyRunner "run") idle_env finished_interface).1 = Ret tt) ∧
  (tasks cancelled_interface !! 0 = Some (CoConnect None None 0, Cancelled) ∧
   attrs cancelled_interface !! "finished_working" = Some (PyBool true) ∧
   (shutdown 1 (PyRunner "run") idle_env cancelled_interface).1 = Ret tt) ∧
  (tasks interrupted_interface !! 0 = Some (CoConnect None None 0, Cancelled) ∧
   attrs interrupted_interface !! "finished_working" = Some (PyBool false) ∧
   (shutdown 1 (PyRunner "run") idle_env interrupted_interface).1 = Exc CancelledError) ∧
  (tasks running_interface !! 0 = Some (CoConnect None None 0, Suspended false) ∧
   settle cancelled_connect_env (suspensions running_interface) = Cancelled ∧
   ∃ w', shutdown 1 (PyRunner "run") cancelled_connect_env running_interface
           = (Exc CancelledError, w') ∧
         tasks w' !! 0 = Some (CoConnect None None 0, Cancelled)).
Proof.
  assert (Hpair : ∀ E w, shutdown 1 (PyRunner "run") E w
            = ((shutdown 1 (PyRunner "run") E w).1, (shutdown 1 (PyRunner "run") E w).2))
    by (intros; apply surjective_pairing).
  assert (Hstart : tasks started_interface !! 0 = Some (CoConnect None None 0, Scheduled false))
    by (vm_compute; reflexivity).
  assert (Hrunning : tasks running_interface !! 0 = Some (CoConnect None None 0, Suspended false))
    by (vm_compute; reflexivity).
  split; [|split; [|split; [|split; [|split]]]].
  - split; [exact Hstart|].
    destruct (shutdown_swallows_cancellation_iff_finished 1 (PyRunner "run") idle_env
                started_interface 0 _ _ ltac:(vm_compute; reflexivity) (Hpair _ _))
      as (_ & Hswallow & _ & Hcancel).
    destruct (Hcancel _ _ Hstart) as (Htask & Hrun & _ & _).
    assert (Hfw : attrs (shutdown 1 (PyRunner "run") idle_env started_interface).2
                    !! "finished_working" = Some (PyBool false))
      by (vm_compute; reflexivity).
    eexists. split; [|split; [exact Htask|split; [exact Hrun|exact Hfw]]].
    assert (Hr : (shutdown 1 (PyRunner "run") idle_env started_interface).1
                 = Exc CancelledError) by exact (Hswallow _ false Htask Hfw).
    rewrite <- Hr. apply Hpair.
  - destruct (shutdown_swallows_cancellation_iff_finished 1 (PyRunner "run") finishing_env
                started_interface 0 _ _ ltac:(vm_compute; reflexivity) (Hpair _ _))
      as (_ & Hswallow & _ & Hcancel).
    destruct (Hcancel _ _ Hstart) as (Htask & _ & _ & _).
    assert (Hfw : attrs (shutdown 1 (PyRunner "run") finishing_env started_interface).2
                    !! "finished_working" = Some (PyBool true))
      by (vm_compute; reflexivity).
    eexists. split; [|split; [exact Htask|exact Hfw]].
    assert (Hr : (shutdown 1 (PyRunner "run") finishing_env started_interface).1
                 = Ret tt) by exact (Hswallow _ true Htask Hfw).
    rewrite <- Hr. apply Hpair.
  - assert (Htask : tasks finished_interface !! 0 = Some (CoConnect None None 0, Finished))
      by (vm_compute; reflexivity).
    assert (Hfw : attrs finished_interface !! "finished_working" = Some (PyBool true))
      by (vm_compute; reflexivity).
    split; [exact Htask|]. split; [exact Hfw|].
    destruct (shutdown_swallows_cancellation_iff_finished 1 (PyRunner "run") idle_env
                finished_interface 0 _ _ ltac:(vm_compute; reflexivity) (Hpair _ _))
      as (_ & _ & Hdone & _).
    exact (Hdone _ _ Htask (or_introl eq_refl) Hfw).
  - assert (Htask : tasks cancelled_interface !! 0 = Some (CoConnect None None 0, Cancelled))
      by (vm_compute; reflexivity).
    assert (Hfw : attrs cancelled_interface !! "finished_working" = Some (PyBool true))
      by (vm_compute; reflexivity).
    split; [exact Htask|]. split; [exact Hfw|].
    destruct (shutdown_swallows_cancellation_iff_finished 1 (PyRunner "run") idle_env
                cancelled_interface 0 _ _ ltac:(vm_compute; reflexivity) (Hpair _ _))
      as (_ & _ & Hdone & _).
    exact (Hdone _ _ Htask (or_intror eq_refl) Hfw).
  - assert (Htask : tasks interrupted_interface !! 0 = Some (CoConnect None None 0, Cancelled))
      by (vm_compute; reflexivity).
    assert (Hfw : attrs interrupted_interface !! "finished_working" = Some (PyBool false))
      by (vm_compute; reflexivity).
    split; [exact Htask|]. split; [exact Hfw|].
    destruct (shutdown_swallows_cancellation_iff_finished 1 (PyRunner "run") idle_env
                interrupted_interface 0 _ _ ltac:(vm_compute; reflexivity) (Hpair _ _))
      as (_ & Hswallow & _ & Hcancel).
    destruct (Hcancel _ _ Htask) as (Htask' & _ & _ & _).
    apply (Hswallow _ false Htask'). vm_compute; reflexivity.
  - split; [exact Hrunning|]. split; [reflexivity|].
    destruct (shutdown_swallows_cancellation_iff_finished 1 (PyRunner "run")
                cancelled_connect_env
                running_interface 0 _ _ ltac:(vm_compute; reflexivity) (Hpair _ _))
      as (_ & Hswallow & _ & Hcancel).
    destruct (Hcancel _ _ Hrunning) as (Htask & _ & _ & _).
    eexists. split; [|exact Htask].
    assert (Hr : (shutdown 1 (PyRunner "run") cancelled_connect_env running_interface).1
                 = Exc CancelledError).
    { apply (Hswallow _ false Htask). vm_compute; reflexivity. }
    rewrite <- Hr. apply Hpair.
Defined.

(** ** connect of the polling class *)

(** X5.  With one worker or more, [connect] fails in the first round of
    its [for] loop:  [asyncio.shield] has wrapped the worker in a task
    and returned a future, which [asyncio.create_task] refuses with
    [TypeError].  The task of that one worker exists but is not appended
    to [_worker_tasks], no attribute has changed, and the polling loop
    is never entered. *)
Theorem polling_connect_rejects_shielded_worker fuel pr pt wt d n E w :
  attrs w !! "number_of_workers" = Some (PyInt n) → (0 < n)%Z →
  ∃ msg w',
    connect fuel pr pt wt d E w = (Exc (TypeError msg), w') ∧
    attrs w' = attrs w ∧
    tasks w' = tasks w ++ [(CoWorker wt, Scheduled false)] ∧
    new_events w w' =
      [EvCoroutine (CoWorker wt); EvSpawn (length (tasks w)) (CoWorker wt)].
Proof.
  intros Hn Hpos. eexists _, _. split; [|split; [|split]].
  - unfold connect. unfold mbind at 1, M_bind at 1.
    rewrite (getattr_eq _ _ _ _ Hn). unfold mbind at 1, M_bind at 1.
    cbn [range mret M_ret].
    destruct (Z.to_nat n) as [|k] eqn:Hk; [lia|].
    cbn [seq for_each]. reflexivity.
  - done.
  - done.
  - apply new_events_app. cbn. by rewrite <- app_assoc.
Qed.

Lemma polling_connect_rejects_shielded_worker_witness :
  attrs (polling_interface 2) !! "number_of_workers" = Some (PyInt 2) ∧
  ∃ msg w',
    connect 1 (PyRunner "run") None None 0 idle_env (polling_interface 2)
      = (Exc (TypeError msg), w') ∧
    attrs w' !! "_worker_tasks" = Some (PyTaskList []) ∧
    tasks w' = [(CoWorker None, Scheduled false)].
Proof.
  assert (H : attrs (polling_interface 2) !! "number_of_workers" = Some (PyInt 2))
    by (vm_compute; reflexivity).
  split; [exact H|].
  destruct (polling_connect_rejects_shielded_worker 1 (PyRunner "run") None None 0 2
              idle_env (polling_interface 2) H eq_refl)
    as (msg & w' & Hrun & Ha & Ht & _).
  exists msg, w'. split; [exact Hrun|]. split; [by rewrite Ha|exact Ht].
Defined.

(** Whatever the number of workers, [connect] leaves [_worker_tasks]
    empty. *)
Lemma polling_connect_leaves_worker_tasks_empty fuel pr pt wt d E w :
  worker_tasks_empty (attrs w) →
  worker_tasks_empty (attrs (connect fuel pr pt wt d E w).2).
Proof.
  intros Hw. unfold connect. unfold mbind at 1, M_bind at 1. unfold getattr at 1.
  destruct (attrs w !! "number_of_workers") as [n|]; [|done].
  unfold mbind at 1, M_bind at 1.
  assert (Hloop : ∀ w0, worker_tasks_empty (attrs w0) →
            worker_tasks_empty (attrs (_polling_loop fuel pt d E w0).2)).
  { intros w0. 
    pose proof (keeps_attrs_closed worker_tasks_empty not_worker_tasks) as HR.
    apply (maintains_polling_loop (HR ltac:(
             intros a k v Hk Ha; unfold worker_tasks_empty;
             by rewrite lookup_insert_ne))); by repeat split. }
  assert (Hrounds : ∀ r, worker_tasks_empty
            (attrs ((for_each r (fun _ : nat =>
                       co ← call_async (CoWorker wt);
                       shielded ← asyncio_shield co;
                       task ← asyncio_create_task shielded;
                       append_worker_task task) ;;
                     _polling_loop fuel pt d) E w).2)).
  { intros [|x r].
    - cbn [for_each]. unfold mbind, M_bind. cbn [mret M_ret]. by apply Hloop.
    - done. }
  destruct n; cbn [range]; try done; apply Hrounds.
Qed.

(** So [cleanup] raises after [connect] as it does before. *)
Lemma polling_cleanup_raises_after_connect fuel pr pt wt d n E :
  (PollingMessengerInterface.cleanup fuel E
     (connect fuel pr pt wt d E (polling_interface n)).2).1
    = Exc (ValueError "Set of Tasks/Futures is empty.").
Proof.
  pose proof (polling_connect_leaves_worker_tasks_empty fuel pr pt wt d E
                (polling_interface n) eq_refl) as H.
  unfold PollingMessengerInterface.cleanup, MessengerInterface.cleanup.
  unfold mbind, M_bind. cbn [mret M_ret].
  by rewrite (getattr_eq _ _ _ _ H).
Qed.

(** ** cleanup *)

(** C6, on the code.  On a polling interface whose list of worker tasks
    is empty, as it is from [__init__] until [connect] has appended a
    task, [cleanup] raises [ValueError]. *)
Theorem polling_cleanup_raises_before_connect fuel n E :
  PollingMessengerInterface.cleanup fuel E (polling_interface n) =
    (Exc (ValueError "Set of Tasks/Futures is empty."), polling_interface n) ∧
  dispatch_cleanup fuel E (polling_interface n) =
    (Exc (ValueError "Set of Tasks/Futures is empty."), polling_interface n).
Proof. split; vm_compute; reflexivity. Qed.

(** The [cleanup] of the other two classes is the placeholder: it
    returns and changes nothing, however often it is called. *)
Lemma placeholder_cleanup_is_safe fuel E w :
  self_class w ≠ PollingMessengerInterfaceT →
  dispatch_cleanup fuel E w = (Ret tt, w).
Proof. intros H. unfold dispatch_cleanup. by destruct (self_class w). Qed.

(** [cleanup] of a polling interface with worker tasks that are all
    done returns. *)
Lemma polling_cleanup_with_done_workers fuel E w t l :
  attrs w !! "_worker_tasks" = Some (PyTaskList (t :: l)) →
  Forall (λ t, ∃ c s, tasks w !! t = Some (c, s) ∧ task_done s = true) (t :: l) →
  cancel_delivered (resume E (suspensions w)) = false →
  PollingMessengerInterface.cleanup fuel E w = (Ret tt, apply_interference (resume E (suspensions w)) w).
Proof.
  intros Ha Hd Hc. unfold cleanup, MessengerInterface.cleanup, mbind, M_bind.
  cbn [mret M_ret]. rewrite (getattr_eq _ _ _ _ Ha).
  unfold asyncio_wait, mbind, M_bind.
  assert (for_each (t :: l) (drive_task (task_body fuel)) E w = (Ret tt, w)) as ->.
  { clear Ha. induction Hd as [|x l' (c & s & Hx & Hs) _ IH]; [done|].
    cbn [for_each]. unfold mbind, M_bind.
    assert (drive_task (task_body fuel) x E w = (Ret tt, w)) as ->.
    { unfold drive_task. rewrite Hx. by destruct s. }
    exact IH. }
  unfold suspend. by rewrite Hc.
Qed.

(** A polling interface without workers, run in the foreground: the
    connect task completes (normally in the first run, cancelled in the
    second), [cleanup] is called, raises [ValueError] on the empty list
    of worker tasks, and [finished_working] stays false. *)
Lemma polling_foreground_run_never_finishes fuel p pr pt wt d :
  (run_in_foreground (S fuel) p pr pt wt d idle_env (polling_interface 0)).1
    = Exc (ValueError "Set of Tasks/Futures is empty.") ∧
  tasks (run_in_foreground (S fuel) p pr pt wt d idle_env (polling_interface 0)).2
    = [(CoConnect pt wt d, Finished)] ∧
  last (trace (run_in_foreground (S fuel) p pr pt wt d idle_env (polling_interface 0)).2)
    = Some (EvCall "cleanup") ∧
  attrs (run_in_foreground (S fuel) p pr pt wt d idle_env (polling_interface 0)).2
    !! "finished_working" = Some (PyBool false) ∧
  (run_in_foreground (S fuel) p pr pt wt d cancelling_env (polling_interface 0)).1
    = Exc (ValueError "Set of Tasks/Futures is empty.") ∧
  tasks (run_in_foreground (S fuel) p pr pt wt d cancelling_env (polling_interface 0)).2
    = [(CoConnect pt wt d, Cancelled)] ∧
  last (trace (run_in_foreground (S fuel) p pr pt wt d cancelling_env (polling_interface 0)).2)
    = Some (EvCall "cleanup") ∧
  attrs (run_in_foreground (S fuel) p pr pt wt d cancelling_env (polling_interface 0)).2
    !! "finished_working" = Some (PyBool false).
Proof. repeat split; vm_compute; reflexivity. Qed.

(** ** run_in_foreground *)

Lemma dispatch_cleanup_trace fuel E w :
  ∃ evs, trace (dispatch_cleanup fuel E w).2 = trace w ++ evs.
Proof.
  pose proof (trace_grows_closed any_event) as HR.
  destruct (maintains_dispatch_cleanup HR) with (fuel := fuel) (E := E) (w := w)
    as (evs & H & _); try done.
  by exists evs.
Qed.

(** Whenever [run_in_foreground] has created the connect task and does
    not hang, it has called [cleanup], whatever the way the task ended. *)
Lemma run_in_foreground_always_calls_cleanup fuel p pr pt wt d E w r w' :
  self_class w ≠ CallbackMessengerInterfaceT →
  run_in_foreground fuel p pr pt wt d E w = (r, w') →
  r ≠ Unfinished →
  EvCall "cleanup" ∈ new_events w w'.
Proof.
  intros Hk Hrun Hr.
  assert (∃ pre post, trace w' = trace w ++ pre ++ EvCall "cleanup" :: post)
    as (pre & post & Ht).
  2:{ rewrite (new_events_app _ _ _ Ht). set_solver. }
  unfold run_in_foreground, install_sigint_handler in Hrun.
  unfold mbind at 1, M_bind at 1 in Hrun. cbn [setattr] in Hrun.
  unfold mbind at 1, M_bind at 1 in Hrun. cbn [setattr] in Hrun.
  unfold mbind at 1, M_bind at 1 in Hrun. cbn [emit] in Hrun.
  unfold mbind at 1, M_bind at 1 in Hrun.
  set (w3 := record EvSignal _) in Hrun.
  assert (Hc : call_connect pt wt d E w3
               = (Ret (PyCoroutine (CoConnect pt wt d)),
                  record (EvCoroutine (CoConnect pt wt d)) w3)).
  { unfold call_connect. change (self_class w3) with (self_class w).
    by destruct (self_class w). }
  rewrite Hc in Hrun. cbn [asyncio_create_task] in Hrun.
  unfold mbind at 1, M_bind at 1 in Hrun.
  unfold mbind at 1, M_bind at 1 in Hrun. cbn [spawn mret M_ret] in Hrun.
  unfold mbind at 1, M_bind at 1 in Hrun. cbn [setattr] in Hrun.
  unfold mbind at 1, M_bind at 1 in Hrun.
  set (w6 := record (EvSetAttr "task" _) _) in Hrun.
  assert (Ht6 : ∃ evs, trace w6 = trace w ++ evs).
  { eexists. unfold w6, w3. cbn. by rewrite <- !app_assoc. }
  clearbody w6. clear w3 Hc.
  unfold try_finally in Hrun.
  set (body := try_except _ _) in Hrun.
  assert (Hb : ∃ evs, trace (body E w6).2 = trace w6 ++ evs).
  { pose proof (trace_grows_closed any_event) as HR.
    assert (maintains (trace_grows any_event) body) as Hm.
    { unfold body. maintain_with HR
        ltac:(first [ apply (maintains_dispatch_task_body HR); done ]).
      all: try done. all: by repeat split. }
    destruct (Hm E w6) as (evs & H & _). by exists evs. }
  destruct (body E w6) as [rb wb]. cbn in Hb.
  destruct Ht6 as [e6 Ht6], Hb as [eb Hb].
  unfold call_cleanup in Hrun.
  destruct (dispatch_cleanup_trace fuel E (record (EvCall "cleanup") wb)) as [ec Hcl].
  change ((emit (EvCall "cleanup") ;; dispatch_cleanup fuel) E wb)
    with (dispatch_cleanup fuel E (record (EvCall "cleanup") wb)) in Hrun.
  destruct (dispatch_cleanup fuel E (record (EvCall "cleanup") wb)) as [rc wd].
  cbn [snd] in Hcl.
  assert (Hwd : trace wd = trace w ++ (e6 ++ eb) ++ EvCall "cleanup" :: ec).
  { rewrite Hcl. cbn. rewrite Hb, Ht6. by rewrite <- !app_assoc. }
  destruct rb as [[]|eb'|], rc as [[]|ec'|]; cbn in Hrun;
    injection Hrun as <- <-; try done.
  all: try by exists (e6 ++ eb), ec.
  exists (e6 ++ eb), (ec ++ [EvSetAttr "finished_working" (PyBool true)]).
  cbn. rewrite Hwd. by rewrite <- !app_assoc.
Qed.

(** [finished_working] is assigned only after [cleanup] has returned:
    a foreground run that returns has set it. *)
Lemma run_in_foreground_returns_finished fuel p pr pt wt d E w w' :
  run_in_foreground fuel p pr pt wt d E w = (Ret tt, w') →
  attrs w' !! "finished_working" = Some (PyBool true).
Proof.
  unfold run_in_foreground. intros H.
  repeat (unfold mbind at 1, M_bind at 1 in H;
          match type of H with
          | match ?m E ?w0 with _ => _ end = _ =>
              destruct (m E w0) as [[?|?|] ?]; try discriminate
          end).
  cbn in H. injection H as <-. cbn. by rewrite lookup_insert_eq.
Qed.

Lemma run_in_foreground_unfold fuel p pr pt wt d E w :
  self_class w ≠ CallbackMessengerInterfaceT →
  run_in_foreground fuel p pr pt wt d E w =
    (try_finally
       (try_except
          (t ← getattr "task"; await_task (dispatch_task_body fuel pr) t)
          (fun e => match e with
                    | CancelledError => Some (asyncio_sleep 0)
                    | _ => None
                    end))
       (call_cleanup fuel) ;;
     setattr "finished_working" (PyBool true)) E (foreground_started p pt wt d w).
Proof.
  intros Hk. unfold run_in_foreground, install_sigint_handler.
  unfold mbind at 1, M_bind at 1. cbn [setattr].
  unfold mbind at 1, M_bind at 1. cbn [setattr].
  unfold mbind at 1, M_bind at 1. cbn [emit].
  unfold mbind at 1, M_bind at 1.
  unfold call_connect. cbn [self_class record with_trace with_attrs].
  destruct (self_class w); try done.
Qed.

(** The foreground run of a class deriving directly from
    [MessengerInterface], whose [cleanup] is the placeholder: what it
    records and how it ends, by the way its [await self.task] ends. *)
Lemma direct_subclass_foreground_run fuel p pr pt wt d E w :
  self_class w = MessengerInterfaceT →
  let t := length (tasks w) in
  let i0 := resume E (suspensions w) in
  let i1 := resume E (S (suspensions w)) in
  let started :=
    [EvSetAttr "running_in_foreground" (PyBool true); EvSetAttr "pipeline" p; EvSignal;
     EvCoroutine (CoConnect pt wt d); EvSpawn t (CoConnect pt wt d);
     EvSetAttr "task" (PyTask t); EvCall "connect"; EvResume i0] in
  ∃ w', run_in_foreground fuel p pr pt wt d E w =
          (match (if cancel_delivered i0 then Exc CancelledError
                  else task_outcome (connect_end_state E)) with
           | Ret _ => Ret tt
           | Exc CancelledError => if cancel_delivered i1 then Exc CancelledError else Ret tt
           | Exc e => Exc e
           | Unfinished => Unfinished
           end, w') ∧
        tasks w' !! t = Some (CoConnect pt wt d, connect_end_state E) ∧
        new_events w w' =
          match (if cancel_delivered i0 then Exc CancelledError
                 else task_outcome (connect_end_state E)) with
          | Ret _ => started ++ [EvCall "cleanup"; set_finished]
          | Exc CancelledError =>
              started ++ [EvSleep 0; EvResume i1; EvCall "cleanup"]
              ++ (if cancel_delivered i1 then [] else [set_finished])
          | _ => started ++ [EvCall "cleanup"]
          end.
Proof.
  intros Hk t i0 i1 started.
  rewrite run_in_foreground_unfold by (by rewrite Hk).
  set (w6 := foreground_started p pt wt d w).
  assert (Ht : attrs w6 !! "task" = Some (PyTask t)).
  { unfold w6, foreground_started. cbn. by rewrite lookup_insert_eq. }
  assert (Hts : tasks w6 !! t = Some (CoConnect pt wt d, Scheduled false)).
  { unfold w6, foreground_started, t. cbn.
    by rewrite lookup_app_r, Nat.sub_diag. }
  assert (Htr6 : trace w6 = trace w ++
            [EvSetAttr "running_in_foreground" (PyBool true); EvSetAttr "pipeline" p;
             EvSignal; EvCoroutine (CoConnect pt wt d); EvSpawn t (CoConnect pt wt d);
             EvSetAttr "task" (PyTask t)]).
  { unfold w6, foreground_started. cbn. by rewrite <- !app_assoc. }
  set (s' := connect_end_state E).
  set (w7 := set_task_state t s' (record (EvCall "connect") w6)).
  assert (Hdrive : drive_task (dispatch_task_body fuel pr) t E w6 = (Ret tt, w7)).
  { unfold drive_task. rewrite Hts. unfold dispatch_task_body.
    change (self_class w6) with (self_class w). rewrite Hk.
    unfold MessengerInterface.subclass_connect, w7, s', connect_end_state.
    destruct (user_connect E) as [[] late|e]; [done|]. by destruct e. }
  assert (Hts7 : tasks w7 !! t = Some (CoConnect pt wt d, s')).
  { unfold w7. by apply (lookup_set_task_state t s' _ (Scheduled false)). }
  pose proof (await_task_driven (dispatch_task_body fuel pr) t _ _ s' E w6 w7
                Hts eq_refl Hdrive Hts7) as Hawait.
  change (suspensions w7) with (suspensions w) in Hawait. fold i0 in Hawait.
  set (w8 := apply_interference i0 w7) in *.
  assert (Hs8 : suspensions w8 = S (suspensions w)).
  { unfold w8. by rewrite suspensions_apply_interference. }
  assert (Hk8 : self_class w8 = MessengerInterfaceT).
  { unfold w8. rewrite self_class_apply_interference.
    change (self_class w7) with (self_class w). exact Hk. }
  assert (Hts8 : tasks w8 !! t = Some (CoConnect pt wt d, s')).
  { unfold w8. by rewrite tasks_apply_interference. }
  assert (Htr8 : trace w8 = trace w ++ started).
  { unfold w8. rewrite trace_apply_interference.
    change (trace w7) with (trace w6 ++ [EvCall "connect"]). rewrite Htr6.
    unfold started. by rewrite <- !app_assoc. }
  clearbody w8. clear Hdrive Hts7 w7.
  unfold mbind at 1, M_bind at 1. unfold try_finally, try_except.
  unfold mbind at 1, M_bind at 1. rewrite (getattr_eq _ _ _ _ Ht), Hawait.
  assert (Hclean : ∀ w9, self_class w9 = MessengerInterfaceT →
            call_cleanup fuel E w9 = (Ret tt, record (EvCall "cleanup") w9)).
  { intros w9 H9. unfold call_cleanup, dispatch_cleanup, MessengerInterface.cleanup.
    unfold emit, mbind, M_bind. cbn [self_class record with_trace].
    by rewrite H9. }
  destruct (if cancel_delivered i0 then Exc CancelledError else task_outcome s')
    as [[]|e|] eqn:Hout.
  - rewrite (Hclean w8 Hk8). eexists. split; [reflexivity|]. split.
    + exact Hts8.
    + apply new_events_app. cbn. rewrite Htr8. by rewrite <- !app_assoc.
  - destruct e.
    2-8: rewrite (Hclean w8 Hk8); eexists; (split; [reflexivity|]);
         (split; [exact Hts8|]); apply new_events_app; cbn; rewrite Htr8;
         by rewrite <- !app_assoc.
    unfold asyncio_sleep, emit, suspend. unfold mbind at 1, M_bind at 1.
    change (suspensions (record (EvSleep 0) w8)) with (suspensions w8).
    rewrite Hs8. fold i1.
    set (w9 := apply_interference i1 (record (EvSleep 0) w8)).
    assert (Hk9 : self_class w9 = MessengerInterfaceT).
    { unfold w9. by rewrite self_class_apply_interference. }
    assert (Hts9 : tasks w9 !! t = Some (CoConnect pt wt d, s')).
    { unfold w9. by rewrite tasks_apply_interference. }
    assert (Htr9 : trace w9 = trace w ++ started ++ [EvSleep 0; EvResume i1]).
    { unfold w9. rewrite trace_apply_interference.
      change (trace (record (EvSleep 0) w8)) with (trace w8 ++ [EvSleep 0]).
      rewrite Htr8. by rewrite <- !app_assoc. }
    clearbody w9.
    destruct (cancel_delivered i1); rewrite (Hclean w9 Hk9).
    + eexists. split; [reflexivity|]. split; [exact Hts9|].
      apply new_events_app. cbn. rewrite Htr9, ?app_nil_r. by rewrite <- !app_assoc.
    + eexists. split; [reflexivity|]. split; [exact Hts9|].
      apply new_events_app. cbn. rewrite Htr9. by rewrite <- !app_assoc.
  - by destruct (cancel_delivered i0), s'.
Qed.

(** C5, as amended.  Once the connect task has been created,
    [run_in_foreground] calls [cleanup] on every way out of the [await],
    and it has set [finished_working] to true whenever it returns.  For
    a class with the placeholder [cleanup] it returns, when the connect
    task completes normally and when it is cancelled, and also when the
    foreground coroutine is itself cancelled while it awaits the task:
    the handler catches that cancellation like the other.  One thing
    keeps it from returning: a cancellation delivered during the
    [asyncio.sleep(0)] of the handler.  That one leaves
    [run_in_foreground] once [cleanup] has been called, and
    [finished_working] is not assigned. *)
Theorem run_in_foreground_cleans_up_then_finishes fuel p pr pt wt d E w r w' :
  self_class w ≠ CallbackMessengerInterfaceT →
  run_in_foreground fuel p pr pt wt d E w = (r, w') →
  r ≠ Unfinished →
  EvCall "cleanup" ∈ new_events w w' ∧
  (r = Ret tt → attrs w' !! "finished_working" = Some (PyBool true)) ∧
  (self_class w = MessengerInterfaceT →
   (user_connect E = Raises CancelledError ∨
    ∃ late, user_connect E = Returns tt late) →
   (cancel_delivered (resume E (S (suspensions w))) = false ∨
    ((∃ late, user_connect E = Returns tt late) ∧
     cancel_delivered (resume E (suspensions w)) = false)) →
   r = Ret tt) ∧
  (self_class w = MessengerInterfaceT →
   (user_connect E = Raises CancelledError ∨
    cancel_delivered (resume E (suspensions w)) = true) →
   cancel_delivered (resume E (S (suspensions w))) = true →
   r = Exc CancelledError ∧
   new_events w w' =
     [EvSetAttr "running_in_foreground" (PyBool true); EvSetAttr "pipeline" p; EvSignal;
      EvCoroutine (CoConnect pt wt d); EvSpawn (length (tasks w)) (CoConnect pt wt d);
      EvSetAttr "task" (PyTask (length (tasks w))); EvCall "connect";
      EvResume (resume E (suspensions w)); EvSleep 0;
      EvResume (resume E (S (suspensions w))); EvCall "cleanup"]).
Proof.
  intros Hk Hrun Hr. split; [|split; [|split]].
  - by apply (run_in_foreground_always_calls_cleanup _ _ _ _ _ _ _ _ _ _ Hk Hrun).
  - intros ->. by apply (run_in_foreground_returns_finished _ _ _ _ _ _ _ _ _ Hrun).
  - intros Hb Hu Hc.
    destruct (direct_subclass_foreground_run fuel p pr pt wt d E w Hb)
      as (w1 & H & _).
    rewrite Hrun in H. injection H as -> _.
    unfold connect_end_state.
    destruct Hc as [-> | [[late ->] ->]]; [|done].
    destruct (cancel_delivered _); [done|].
    by destruct Hu as [-> | [late ->]].
  - intros Hb Hu Hc.
    destruct (direct_subclass_foreground_run fuel p pr pt wt d E w Hb)
      as (w1 & H & _ & Ht).
    rewrite Hrun in H. injection H as -> <-.
    rewrite Ht, Hc. unfold connect_end_state.
    destruct Hu as [-> | ->]; [destruct (cancel_delivered _)|]; done.
Qed.

Lemma run_in_foreground_cleans_up_then_finishes_witness :
  self_class base_interface ≠ CallbackMessengerInterfaceT ∧
  user_connect cancelled_connect_env = Raises CancelledError ∧
  (run_in_foreground 1 (PyPipeline "pipeline") (PyRunner "run") None None 0
     cancelled_connect_env base_interface).1 = Ret tt ∧
  EvCall "cleanup" ∈
    new_events base_interface
      (run_in_foreground 1 (PyPipeline "pipeline") (PyRunner "run") None None 0
         cancelled_connect_env base_interface).2 ∧
  attrs (run_in_foreground 1 (PyPipeline "pipeline") (PyRunner "run") None None 0
           cancelled_connect_env base_interface).2 !! "finished_working"
    = Some (PyBool true) ∧
  cancel_delivered (resume recancelling_env (S (suspensions base_interface))) = true ∧
  (run_in_foreground 1 (PyPipeline "pipeline") (PyRunner "run") None None 0
     recancelling_env base_interface).1 = Exc CancelledError.
Proof.
  assert (H1 : self_class base_interface ≠ CallbackMessengerInterfaceT) by discriminate.
  assert (Hpair : ∀ E, run_in_foreground 1 (PyPipeline "pipeline") (PyRunner "run")
                         None None 0 E base_interface
            = ((run_in_foreground 1 (PyPipeline "pipeline") (PyRunner "run")
                  None None 0 E base_interface).1,
               (run_in_foreground 1 (PyPipeline "pipeline") (PyRunner "run")
                  None None 0 E base_interface).2))
    by (intros; apply surjective_pairing).
  destruct (run_in_foreground_cleans_up_then_finishes _ _ _ _ _ _ _ _ _ _ H1
              (Hpair cancelled_connect_env))
    as (Hc & Hf & Hret & _); [vm_compute; discriminate|].
  assert (Hr : (run_in_foreground 1 (PyPipeline "pipeline") (PyRunner "run") None None 0
                  cancelled_connect_env base_interface).1 = Ret tt).
  { apply Hret; [reflexivity|by left|by left]. }
  destruct (run_in_foreground_cleans_up_then_finishes _ _ _ _ _ _ _ _ _ _ H1
              (Hpair recancelling_env))
    as (_ & _ & _ & Hexc); [vm_compute; discriminate|].
  destruct Hexc as [Hr' _]; [reflexivity|by left|reflexivity|].
  split; [exact H1|]. split; [reflexivity|]. split; [exact Hr|].
  split; [exact Hc|]. split; [by apply Hf|]. split; [reflexivity|exact Hr'].
Defined.

(** C5 as the claim states it fails when the foreground coroutine is
    cancelled while it yields after the cancellation of the connect
    task: the task is cancelled, [cleanup] is called, and
    [finished_working] is still false. *)
Lemma run_in_foreground_finished_working_counterexample :
  tasks (run_in_foreground 1 (PyPipeline "pipeline") (PyRunner "run") None None 0
           recancelling_env base_interface).2
    = [(CoConnect None None 0, Cancelled)] ∧
  last (trace (run_in_foreground 1 (PyPipeline "pipeline") (PyRunner "run") None None 0
                 recancelling_env base_interface).2)
    = Some (EvCall "cleanup") ∧
  attrs (run_in_foreground 1 (PyPipeline "pipeline") (PyRunner "run") None None 0
           recancelling_env base_interface).2 !! "finished_working"
    ≠ Some (PyBool true).
Proof.
  split; [vm_compute; reflexivity|]. split; [vm_compute; reflexivity|].
  assert (attrs (run_in_foreground 1 (PyPipeline "pipeline") (PyRunner "run") None None 0
                   recancelling_env base_interface).2 !! "finished_working"
          = Some (PyBool false)) as -> by (vm_compute; reflexivity).
  discriminate.
Qed.

(** ** _polling_loop: how it ends, and what it leaves in the queue *)

(** X6.  The [finally] block of [_polling_loop] neither swallows nor
    replaces the outcome of the loop: on an interface whose
    [number_of_workers] is an integer and whose queue is a queue,
    [_polling_loop] ends as its [while] loop does, normally, cancelled,
    or with the exception of a fetch. *)
Theorem polling_loop_finally_keeps_outcome fuel pt d n q E w :
  attrs w !! "number_of_workers" = Some (PyInt n) →
  attrs w !! "request_queue" = Some (PyQueue q) →
  (_polling_loop fuel pt d E w).1 = (polling_while fuel pt d E w).1.
Proof.
  intros Hn Hq. rewrite polling_loop_unfold. unfold try_finally.
  destruct (polling_while_frame fuel pt d n E w) as [_ Hkeep].
  destruct (polling_while fuel pt d E w) as [r1 w1]; cbn in *.
  destruct Hkeep as [Hn1 [q1 Hq1]]; [by split; eauto|].
  destruct (polling_loop_finally_block_eq n q1 E w1 Hn1 Hq1) as (w2 & -> & _).
  by destruct r1.
Qed.

Lemma polling_loop_finally_keeps_outcome_witness :
  attrs (polling_interface 2) !! "number_of_workers" = Some (PyInt 2) ∧
  attrs (polling_interface 2) !! "request_queue" = Some (PyQueue []) ∧
  (_polling_loop 3 None 0 cancelling_env (polling_interface 2)).1 = Exc CancelledError.
Proof.
  assert (H1 : attrs (polling_interface 2) !! "number_of_workers" = Some (PyInt 2))
    by (vm_compute; reflexivity).
  assert (H2 : attrs (polling_interface 2) !! "request_queue" = Some (PyQueue []))
    by (vm_compute; reflexivity).
  split; [exact H1|]. split; [exact H2|].
  rewrite (polling_loop_finally_keeps_outcome 3 None 0 2 [] cancelling_env
             (polling_interface 2) H1 H2).
  vm_compute; reflexivity.
Defined.

(** X7.  An exception of [_get_updates] other than a timeout is caught
    nowhere: it ends the polling loop in its first cycle and leaves
    [_polling_loop], whose [finally] block has cleared [running] and
    enqueued the sentinels; nothing is logged about the failure. *)
Theorem polling_loop_propagates_fetch_failure fuel pt d n q e E w :
  attrs w !! "number_of_workers" = Some (PyInt n) →
  attrs w !! "request_queue" = Some (PyQueue q) →
  attrs w !! "running" = Some (PyBool true) →
  loop_fn E (loop_calls w) = true →
  cancel_delivered (resume E (suspensions w)) = false →
  get_updates E (fetches w) = Raises e →
  e ≠ TimeoutError →
  ∃ w', _polling_loop (S fuel) pt d E w = (Exc e, w') ∧
        new_events w w' =
          [EvLoopCall true; EvResume (resume E (suspensions w)); EvFetch pt;
           clear_running; EvLoopCall (loop_fn E (S (loop_calls w)));
           stop_reason (loop_fn E (S (loop_calls w)))]
          ++ replicate (Z.to_nat n) (EvPut None) ∧
        attrs w' !! "running" = Some (PyBool false) ∧
        attrs w' !! "request_queue" =
          Some (PyQueue (q ++ replicate (Z.to_nat n) None)).
Proof.
  intros Hn Hq Hr Hl Hc Hf He.
  set (w0 := record (EvLoopCall true) (tick_loop w)).
  set (wa := apply_interference (resume E (suspensions w)) w0).
  set (wb := record (EvFetch pt) (tick_fetch wa)).
  assert (Hwhile : polling_while (S fuel) pt d E w = (Exc e, wb)).
  { cbn [polling_while]. unfold mbind, M_bind, call_loop. rewrite Hl. fold w0.
    rewrite (getattr_eq "running" (PyBool true)) by done. cbn [truthy mret M_ret].
    unfold await_shielded. change (suspensions w0) with (suspensions w).
    rewrite Hc. fold wa.
    unfold _polling_job, try_except, mbind, M_bind, call_get_updates.
    unfold wa at 1. rewrite fetches_apply_interference.
    change (fetches w0) with (fetches w). rewrite Hf. fold wb.
    cbn. by destruct e. }
  assert (Hnb : attrs wb !! "number_of_workers" = Some (PyInt n)).
  { change (attrs wb) with (attrs wa). unfold wa.
    by rewrite attrs_apply_interference. }
  assert (Hqb : attrs wb !! "request_queue" = Some (PyQueue q)).
  { change (attrs wb) with (attrs wa). unfold wa.
    by rewrite attrs_apply_interference. }
  destruct (polling_loop_finally_block_eq n q E wb Hnb Hqb)
    as (w' & Hfin & Ht & Ha & _).
  exists w'. split; [|split; [|split]].
  - rewrite polling_loop_unfold. unfold try_finally. by rewrite Hwhile, Hfin.
  - apply new_events_app. rewrite Ht.
    change (loop_calls wb) with (loop_calls wa).
    assert (loop_calls wa = S (loop_calls w)) as ->.
    { unfold wa, apply_interference, write.
      by destruct (stop_requested _), (foreground_finished _). }
    change (trace wb) with (trace wa ++ [EvFetch pt]).
    unfold wa. rewrite trace_apply_interference.
    change (trace w0) with (trace w ++ [EvLoopCall true]).
    by rewrite <- !app_assoc.
  - rewrite Ha. rewrite lookup_insert_ne by done. by rewrite lookup_insert_eq.
  - rewrite Ha. by rewrite lookup_insert_eq.
Qed.

Lemma polling_loop_propagates_fetch_failure_witness :
  get_updates failing_fetch_env (fetches (polling_interface 2))
    = Raises (OtherError "connection lost") ∧
  ∃ w', _polling_loop 4 (Some 5) 1 failing_fetch_env (polling_interface 2)
          = (Exc (OtherError "connection lost"), w') ∧
        attrs w' !! "running" = Some (PyBool false) ∧
        attrs w' !! "request_queue" = Some (PyQueue [None; None]).
Proof.
  split; [reflexivity|].
  destruct (polling_loop_propagates_fetch_failure 3 (Some 5) 1 2 []
              (OtherError "connection lost") failing_fetch_env (polling_interface 2))
    as (w' & Hrun & _ & Hr & Hq); try (vm_compute; reflexivity); try done.
  exists w'. split; [exact Hrun|]. split; [exact Hr|exact Hq].
Defined.

Lemma polling_job_fetches_once pt E w :
  fetches (_polling_job pt E w).2 = S (fetches w).
Proof.
  unfold _polling_job, try_except, mbind, M_bind, call_get_updates.
  destruct (get_updates E (fetches w)) as [[l|] late|e].
  - destruct pt as [t|], late; cbn -[for_each]; try done.
    all: try (by unfold asyncio_timeout; destruct (python_3_11 E)).
    all: match goal with |- context [for_each ?l0 ?f ?E0 ?w1] =>
           pose proof (for_each_queue_put_frame Some l E w1) as [H1 _];
           destruct (for_each l f E w1) as [[[]|e0|] w']
         end; cbn in *; try done.
    all: by destruct e0.
  - destruct pt as [t|], late; cbn; try done.
    by unfold asyncio_timeout; destruct (python_3_11 E).
  - cbn. by destruct e.
Qed.

Lemma finally_block_fetches E w :
  fetches (polling_loop_finally_block E w).2 = fetches w.
Proof.
  unfold polling_loop_finally_block, mbind, M_bind, call_loop. cbn [setattr].
  destruct (negb _); cbn [log emit].
  all: unfold getattr;
    match goal with |- context [attrs ?w !! "number_of_workers"] =>
      destruct (attrs w !! "number_of_workers") as [n|]; [|done] end.
  all: destruct n; cbn -[for_each]; try done.
  all: match goal with |- context [for_each ?l ?g ?E1 ?w] =>
         pose proof (for_each_queue_put_frame (λ _ : nat, None) l E1 w) as [H _];
         by destruct (for_each l g E1 w) as [[[]|?|] ?] end.
Qed.

(** If the loop predicate is false at its [k]-th call from now, the
    [while] loop fetches at most [k] times, however much fuel it has. *)
Lemma polling_while_fetch_bound pt d E k : ∀ w fuel,
  loop_fn E (loop_calls w + k) = false →
  fetches (polling_while fuel pt d E w).2 ≤ fetches w + k.
Proof.
  induction k as [|k IH]; intros w [|fuel] Hl; cbn [polling_while unfinished snd]; try lia.
  - rewrite Nat.add_0_r in Hl.
    unfold mbind, M_bind, call_loop. rewrite Hl. cbn. lia.
  - unfold asyncio_sleep, call_loop, getattr, await_shielded.
    unfold mbind, M_bind, emit.
    destruct (loop_fn E (loop_calls w)); [|cbn; lia].
    cbn [attrs record with_trace tick_loop].
    destruct (attrs w !! "running") as [running|]; [|cbn; lia].
    cbn [mret M_ret]. destruct (truthy running); [|cbn; lia].
    match goal with |- context [apply_interference ?i ?w0] =>
      set (w1 := apply_interference i w0);
      assert (H1 : loop_calls w1 = S (loop_calls w) ∧ fetches w1 = fetches w)
        by (unfold w1, apply_interference, write;
            by destruct (stop_requested _), (foreground_finished _))
    end.
    destruct H1 as [H1 H1']. clearbody w1.
    destruct (polling_job_total pt E w1) as [_ Hj2].
    pose proof (polling_job_fetches_once pt E w1) as Hj3.
    destruct (cancel_delivered _).
    { destruct (shielded_job_done _ _).
      - destruct (_polling_job pt E w1) as [[[]|e|] w2]; cbn [snd] in *; lia.
      - rewrite first_step_polling_job. cbn. lia. }
    destruct (_polling_job pt E w1) as [[[]|e|] w2]; cbn [snd] in *; try lia.
    destruct (suspend_total E (record (EvSleep d) w2)) as [_ Hs2].
    assert (Hs3 : fetches (suspend E (record (EvSleep d) w2)).2 = fetches w2).
    { unfold suspend. destruct (cancel_delivered _); cbn [snd];
        by rewrite fetches_apply_interference. }
    destruct (suspend E (record (EvSleep d) w2)) as [[[]|e|] w3]; cbn [snd] in *; try lia.
    specialize (IH w3 fuel).
    change (loop_calls (record (EvSleep d) w2)) with (loop_calls w2) in Hs2.
    rewrite Hs2, Hj2, H1 in IH.
    rewrite <- Nat.add_succ_comm in Hl. specialize (IH Hl). lia.
Qed.

(** X8.  Once [loop()] has returned false the polling loop is over: if
    the predicate is false at its [k]-th call from now, [_polling_loop]
    ends (whatever the channel delivers, and whether or not it is
    stopped or cancelled earlier) and has called [_get_updates] at most
    [k] times. *)
Theorem polling_loop_stops_when_predicate_false pt d E k w fuel :
  loop_fn E (loop_calls w + k) = false → k < fuel →
  (_polling_loop fuel pt d E w).1 ≠ Unfinished ∧
  fetches (_polling_loop fuel pt d E w).2 ≤ fetches w + k.
Proof.
  intros Hl Hk. split; [by apply (polling_loop_terminates pt d E k)|].
  pose proof (polling_while_fetch_bound pt d E k w fuel Hl) as Hb.
  rewrite polling_loop_unfold. unfold try_finally.
  destruct (polling_while fuel pt d E w) as [r1 w1]. cbn [snd] in Hb.
  pose proof (finally_block_fetches E w1) as Hf.
  destruct r1 as [[]|e|]; cbn [snd]; try lia.
  all: destruct (polling_loop_finally_block E w1) as [[[]|?|] w2]; cbn [snd] in *; lia.
Qed.

Lemma polling_loop_stops_when_predicate_false_witness :
  loop_fn delivering_env (loop_calls (polling_interface 2) + 1) = false ∧
  (_polling_loop 2 None 0 delivering_env (polling_interface 2)).1 ≠ Unfinished ∧
  fetches (_polling_loop 2 None 0 delivering_env (polling_interface 2)).2 ≤ 1.
Proof.
  split; [reflexivity|].
  apply (polling_loop_stops_when_predicate_false None 0 delivering_env 1
           (polling_interface 2) 2); [reflexivity|lia].
Defined.

(** X9.  A polling loop that is started on a stopped interface, or whose
    predicate is false at once, fetches nothing and does not yield: it
    goes straight to its [finally] block.  The reason it logs is the
    value of a second call of [loop()], not the cause of the exit. *)
Theorem polling_loop_on_stopped_interface fuel pt d n q E w :
  attrs w !! "number_of_workers" = Some (PyInt n) →
  attrs w !! "request_queue" = Some (PyQueue q) →
  (loop_fn E (loop_calls w) = false ∨ attrs w !! "running" = Some (PyBool false)) →
  ∃ w', _polling_loop (S fuel) pt d E w = (Ret tt, w') ∧
        new_events w w' =
          [EvLoopCall (loop_fn E (loop_calls w)); clear_running;
           EvLoopCall (loop_fn E (S (loop_calls w)));
           stop_reason (loop_fn E (S (loop_calls w)))]
          ++ replicate (Z.to_nat n) (EvPut None) ∧
        fetches w' = fetches w ∧ suspensions w' = suspensions w ∧
        attrs w' !! "request_queue" =
          Some (PyQueue (q ++ replicate (Z.to_nat n) None)).
Proof.
  intros Hn Hq Hstop.
  set (b := loop_fn E (loop_calls w)).
  set (w0 := record (EvLoopCall b) (tick_loop w)).
  assert (Hwhile : polling_while (S fuel) pt d E w = (Ret tt, w0)).
  { cbn [polling_while]. unfold mbind, M_bind, call_loop. fold b. fold w0.
    destruct Hstop as [Hl | Hr].
    - unfold b in *. by rewrite Hl.
    - destruct b; [|done].
      by rewrite (getattr_eq "running" (PyBool false)). }
  destruct (polling_loop_finally_block_eq n q E w0 Hn Hq)
    as (w' & Hfin & Ht & Ha & Hf & Hs & _).
  exists w'. split; [|split; [|split; [|split]]]; try done.
  - rewrite polling_loop_unfold. unfold try_finally. by rewrite Hwhile, Hfin.
  - apply new_events_app. rewrite Ht. cbn. by rewrite <- !app_assoc.
  - rewrite Ha. by rewrite lookup_insert_eq.
Qed.

Lemma polling_loop_on_stopped_interface_witness :
  attrs (write "running" (PyBool false) (polling_interface 1)) !! "running"
    = Some (PyBool false) ∧
  ∃ w', _polling_loop 1 None 0 failing_fetch_env
          (write "running" (PyBool false) (polling_interface 1)) = (Ret tt, w') ∧
        fetches w' = 0 ∧
        attrs w' !! "request_queue" = Some (PyQueue [None]).
Proof.
  assert (H : attrs (write "running" (PyBool false) (polling_interface 1)) !! "running"
              = Some (PyBool false)) by (vm_compute; reflexivity).
  split; [exact H|].
  destruct (polling_loop_on_stopped_interface 0 None 0 1 [] failing_fetch_env
              (write "running" (PyBool false) (polling_interface 1)))
    as (w' & Hrun & _ & Hf & _ & Hq); try (vm_compute; reflexivity).
  - by right.
  - exists w'. split; [exact Hrun|]. split; [exact Hf|exact Hq].
Defined.

(** A polling job appends to the queue what its call of [_get_updates]
    delivers, and nothing else. *)
Lemma polling_job_appends pt q E w :
  attrs w !! "request_queue" = Some (PyQueue q) →
  attrs (_polling_job pt E w).2 !! "request_queue"
    = Some (PyQueue (q ++ map Some (delivered E pt (fetches w)))).
Proof.
  intros Hq. unfold delivered.
  unfold _polling_job, try_except, mbind, M_bind, call_get_updates.
  destruct (get_updates E (fetches w)) as [[l|] late|e].
  - assert (Hput : attrs (for_each l (λ update, queue_put (Some update)) E
                            (record (EvFetch pt) (tick_fetch w))).2 !! "request_queue"
                   = Some (PyQueue (q ++ map Some l))).
    { destruct (for_each_queue_put Some l q E (record (EvFetch pt) (tick_fetch w)) Hq)
        as (w' & -> & Ha & _).
      cbn [snd]. by rewrite Ha, lookup_insert_eq. }
    destruct pt as [t|], late; cbn -[for_each].
    1:{ rewrite app_nil_r. by unfold asyncio_timeout; destruct (python_3_11 E). }
    all: destruct (for_each l _ E _) as [[[]|e0|] w']; cbn [snd] in *; try done.
    all: by destruct e0.
  - cbn. rewrite app_nil_r.
    destruct pt as [t|], late; cbn; try done.
    by unfold asyncio_timeout; destruct (python_3_11 E).
  - cbn. rewrite app_nil_r. by destruct e.
Qed.

Lemma delivered_by_S E pt n k :
  delivered_by E pt n (S k) = delivered E pt n ++ delivered_by E pt (S n) k.
Proof. reflexivity. Qed.

(** The [while] loop appends what the jobs that it has awaited to their
    end were delivered, in the order of the calls of [_get_updates]; a
    last job may have been left on its own by a cancellation, after its
    call of [_get_updates]. *)
Lemma polling_while_appends fuel pt d E : ∀ w q,
  attrs w !! "request_queue" = Some (PyQueue q) →
  ∃ k, attrs (polling_while fuel pt d E w).2 !! "request_queue"
         = Some (PyQueue (q ++ map Some (delivered_by E pt (fetches w) k))) ∧
       (fetches (polling_while fuel pt d E w).2 = fetches w + k ∨
        fetches (polling_while fuel pt d E w).2 = fetches w + S k).
Proof.
  induction fuel as [|fuel IH]; intros w q Hq.
  { exists 0. cbn. rewrite app_nil_r. split; [done|left; lia]. }
  assert (Hsame : ∀ w0, attrs w0 = attrs w → fetches w0 = fetches w →
            ∃ k, attrs w0 !! "request_queue"
                   = Some (PyQueue (q ++ map Some (delivered_by E pt (fetches w) k))) ∧
                 (fetches w0 = fetches w + k ∨ fetches w0 = fetches w + S k)).
  { intros w0 Ha Hf. exists 0. cbn. rewrite app_nil_r, Ha, Hf. split; [done|left; lia]. }
  cbn [polling_while].
  unfold asyncio_sleep, call_loop, getattr, await_shielded.
  unfold mbind, M_bind, emit.
  destruct (loop_fn E (loop_calls w)); [|by apply Hsame].
  cbn [attrs record with_trace tick_loop].
  destruct (attrs w !! "running") as [running|]; [|by apply Hsame].
  cbn [mret M_ret]. destruct (truthy running); [|by apply Hsame].
  match goal with |- context [apply_interference ?i ?w0] =>
    set (w1 := apply_interference i w0);
    assert (H1 : attrs w1 !! "request_queue" = Some (PyQueue q))
      by (unfold w1; by rewrite attrs_apply_interference);
    assert (F1 : fetches w1 = fetches w)
      by (unfold w1; by rewrite fetches_apply_interference)
  end.
  clearbody w1.
  pose proof (polling_job_appends pt q E w1 H1) as Hj.
  pose proof (polling_job_fetches_once pt E w1) as Fj.
  rewrite F1 in Hj, Fj.
  assert (Hone : ∀ w2, attrs w2 = attrs (_polling_job pt E w1).2 →
            fetches w2 = fetches (_polling_job pt E w1).2 →
            ∃ k, attrs w2 !! "request_queue"
                   = Some (PyQueue (q ++ map Some (delivered_by E pt (fetches w) k))) ∧
                 (fetches w2 = fetches w + k ∨ fetches w2 = fetches w + S k)).
  { intros w2 Ha Hf. exists 1. rewrite Ha, Hf, Hj, Fj.
    rewrite delivered_by_S. cbn. rewrite app_nil_r. split; [done|left; lia]. }
  destruct (cancel_delivered _).
  { destruct (shielded_job_done _ _).
    - destruct (_polling_job pt E w1) as [[[]|e|] w2]; cbn [snd] in *; by apply Hone.
    - rewrite first_step_polling_job. cbn [snd].
      exists 0. cbn. rewrite app_nil_r. split; [done|right; lia]. }
  destruct (_polling_job pt E w1) as [[[]|e|] w2]; cbn [snd] in *;
    try by apply Hone.
  assert (Hs : attrs (suspend E (record (EvSleep d) w2)).2 !! "request_queue"
               = Some (PyQueue (q ++ map Some (delivered E pt (fetches w)))) ∧
               fetches (suspend E (record (EvSleep d) w2)).2 = S (fetches w)).
  { unfold suspend. destruct (cancel_delivered _); cbn [snd];
      by rewrite attrs_apply_interference, fetches_apply_interference. }
  destruct Hs as [Hs Fs].
  assert (Hstop : ∀ w3, attrs w3 !! "request_queue"
                          = Some (PyQueue (q ++ map Some (delivered E pt (fetches w)))) →
            fetches w3 = S (fetches w) →
            ∃ k, attrs w3 !! "request_queue"
                   = Some (PyQueue (q ++ map Some (delivered_by E pt (fetches w) k))) ∧
                 (fetches w3 = fetches w + k ∨ fetches w3 = fetches w + S k)).
  { intros w3 Ha Hf. exists 1. rewrite Ha, Hf, delivered_by_S. cbn.
    rewrite app_nil_r. split; [done|left; lia]. }
  destruct (suspend E (record (EvSleep d) w2)) as [[[]|e|] w3]; cbn [snd] in *;
    try by apply Hstop.
  destruct (IH w3 _ Hs) as (k & H2 & F2). exists (S k).
  rewrite delivered_by_S, map_app, app_assoc, H2, Fs. rewrite Fs in F2.
  split; [done|]. destruct F2 as [-> | ->]; [left|right]; lia.
Qed.

(** X10.  The polling side never takes a request out of the queue and
    never reorders it: whenever [_polling_loop] ends, the queue is the
    queue it found, followed by what the calls of [_get_updates] made
    by the jobs that it awaited to their end have delivered, in the
    order of the calls, followed by the sentinels, which come last.
    These are all the calls of [_get_updates] it has made, but for the
    call of a last job left on its own by a cancellation. *)
Theorem polling_loop_only_appends fuel pt d n q E w :
  attrs w !! "number_of_workers" = Some (PyInt n) →
  attrs w !! "request_queue" = Some (PyQueue q) →
  (_polling_loop fuel pt d E w).1 ≠ Unfinished →
  ∃ k,
    attrs (_polling_loop fuel pt d E w).2 !! "request_queue"
      = Some (PyQueue (q ++ map Some (delivered_by E pt (fetches w) k)
                         ++ replicate (Z.to_nat n) None)) ∧
    (fetches (_polling_loop fuel pt d E w).2 = fetches w + k ∨
     fetches (_polling_loop fuel pt d E w).2 = fetches w + S k).
Proof.
  intros Hn Hq. rewrite polling_loop_unfold. unfold try_finally.
  destruct (polling_while_frame fuel pt d n E w) as [_ Hkeep].
  destruct (polling_while_appends fuel pt d E w q Hq) as (k & Hf & Hk).
  destruct (polling_while fuel pt d E w) as [r1 w1]; cbn [snd] in *.
  destruct Hkeep as [Hn1 _]; [by split; eauto|].
  destruct (polling_loop_finally_block_eq n _ E w1 Hn1 Hf)
    as (w2 & -> & _ & Ha & Hfe & _).
  intros Hr. exists k.
  destruct r1 as [[]|e|]; try done; cbn [snd].
  all: rewrite Ha, lookup_insert_eq, Hfe; by rewrite <- app_assoc.
Qed.

Lemma polling_loop_only_appends_witness :
  attrs (with_queue [Some ("C", "zero")] (polling_interface 2)) !! "request_queue"
    = Some (PyQueue [Some ("C", "zero")]) ∧
  delivered_by delivering_env None
    (fetches (with_queue [Some ("C", "zero")] (polling_interface 2))) 1
    = [("A", "one"); ("B", "two"); ("A", "three")] ∧
  (∃ k,
    attrs (_polling_loop 2 None 0 delivering_env
             (with_queue [Some ("C", "zero")] (polling_interface 2))).2 !! "request_queue"
      = Some (PyQueue ([Some ("C", "zero")] ++
                       map Some (delivered_by delivering_env None
                         (fetches (with_queue [Some ("C", "zero")] (polling_interface 2))) k)
                       ++ replicate (Z.to_nat 2) None)) ∧
    (fetches (_polling_loop 2 None 0 delivering_env
                (with_queue [Some ("C", "zero")] (polling_interface 2))).2
       = fetches (with_queue [Some ("C", "zero")] (polling_interface 2)) + k ∨
     fetches (_polling_loop 2 None 0 delivering_env
                (with_queue [Some ("C", "zero")] (polling_interface 2))).2
       = fetches (with_queue [Some ("C", "zero")] (polling_interface 2)) + S k)) ∧
  attrs (_polling_loop 2 None 0 delivering_env
           (with_queue [Some ("C", "zero")] (polling_interface 2))).2 !! "request_queue"
    = Some (PyQueue [Some ("C", "zero"); Some ("A", "one"); Some ("B", "two");
                     Some ("A", "three"); None; None]).
Proof.
  assert (H : attrs (with_queue [Some ("C", "zero")] (polling_interface 2)) !! "request_queue"
              = Some (PyQueue [Some ("C", "zero")])) by (vm_compute; reflexivity).
  split; [exact H|]. split; [reflexivity|]. split; [|vm_compute; reflexivity].
  apply (polling_loop_only_appends 2 None 0 2 [Some ("C", "zero")] delivering_env
           (with_queue [Some ("C", "zero")] (polling_interface 2))).
  - vm_compute; reflexivity.
  - exact H.
  - vm_compute. discriminate.
Defined.

(** X11.  A cancellation that reaches the polling loop while it awaits
    the shielded polling job ends the loop:  [_polling_loop] raises
    [CancelledError] after its [finally] block.  The job, whose first
    step was queued when [shield] created its task, has called
    [_get_updates] by then.  If it has come to its end as well, what
    it was delivered is in the queue, before the sentinels; if not, it
    is left to run on its own and the queue holds the sentinels behind
    what was there. *)
Theorem polling_loop_cancelled_at_fetch fuel pt d n q E w :
  attrs w !! "number_of_workers" = Some (PyInt n) →
  attrs w !! "request_queue" = Some (PyQueue q) →
  attrs w !! "running" = Some (PyBool true) →
  loop_fn E (loop_calls w) = true →
  cancel_delivered (resume E (suspensions w)) = true →
  ∃ w', _polling_loop (S fuel) pt d E w = (Exc CancelledError, w') ∧
        fetches w' = S (fetches w) ∧
        (∃ during,
           new_events w w' =
             [EvLoopCall true; EvResume (resume E (suspensions w)); EvFetch pt]
             ++ during ++
             [clear_running; EvLoopCall (loop_fn E (S (loop_calls w)));
              stop_reason (loop_fn E (S (loop_calls w)))]
             ++ replicate (Z.to_nat n) (EvPut None) ∧
           (shielded_job_done E (suspensions w) = false →
            during = [EvDetach (CoPollingJob pt)])) ∧
        attrs w' !! "request_queue" =
          Some (PyQueue (q ++ map Some (if shielded_job_done E (suspensions w)
                                        then delivered E pt (fetches w) else [])
                           ++ replicate (Z.to_nat n) None)).
Proof.
  intros Hn Hq Hr Hl Hc.
  set (w0 := record (EvLoopCall true) (tick_loop w)).
  set (wa := apply_interference (resume E (suspensions w)) w0).
  assert (Hna : attrs wa !! "number_of_workers" = Some (PyInt n)).
  { unfold wa. by rewrite attrs_apply_interference. }
  assert (Hqa : attrs wa !! "request_queue" = Some (PyQueue q)).
  { unfold wa. by rewrite attrs_apply_interference. }
  assert (Hfa : fetches wa = fetches w).
  { unfold wa. by rewrite fetches_apply_interference. }
  assert (Hla : loop_calls wa = S (loop_calls w)).
  { unfold wa, apply_interference, write.
    by destruct (stop_requested _), (foreground_finished _). }
  assert (Hta : trace wa = trace w ++ [EvLoopCall true; EvResume (resume E (suspensions w))]).
  { unfold wa. rewrite trace_apply_interference.
    change (trace w0) with (trace w ++ [EvLoopCall true]). by rewrite <- app_assoc. }
  assert (Hwhile : polling_while (S fuel) pt d E w =
            if shielded_job_done E (suspensions w)
            then match _polling_job pt E wa with
                 | (Unfinished, w2) => (Unfinished, w2)
                 | (_, w2) => (Exc CancelledError, w2)
                 end
            else (Exc CancelledError,
                  record (EvDetach (CoPollingJob pt)) (record (EvFetch pt) (tick_fetch wa)))).
  { cbn [polling_while]. unfold mbind, M_bind, call_loop. rewrite Hl. fold w0.
    rewrite (getattr_eq "running" (PyBool true)) by done. cbn [truthy mret M_ret].
    unfold await_shielded. change (suspensions w0) with (suspensions w).
    rewrite Hc. fold wa. rewrite first_step_polling_job.
    destruct (shielded_job_done E (suspensions w)); [|done].
    by destruct (_polling_job pt E wa) as [[[]|e|] w2]. }
  clearbody wa.
  destruct (shielded_job_done E (suspensions w)).
  - pose proof (polling_job_appends pt q E wa Hqa) as Hj.
    pose proof (polling_job_fetches_once pt E wa) as Fj.
    destruct (polling_job_total pt E wa) as [Tj Lj].
    assert (Hframe : ∃ evs, trace (_polling_job pt E wa).2
                              = trace wa ++ EvFetch pt :: evs ∧
                            attrs (_polling_job pt E wa).2 !! "number_of_workers"
                              = Some (PyInt n)).
    { clear Hwhile Tj.
      pose proof (closed_under_and _ _ _ _ _ _
        (trace_grows_closed loop_body_event)
        (keeps_attrs_closed (polling_attrs n) polling_write (polling_write_keeps n)))
        as HR.
      unfold _polling_job, try_except, mbind, M_bind, call_get_updates in *.
      set (wf := record (EvFetch pt) (tick_fetch wa)) in *.
      assert (Hrest : ∀ (m : M unit), maintains
                (λ w w', trace_grows loop_body_event w w' ∧
                         keeps_attrs (polling_attrs n) w w') m →
                ∃ evs, trace (m E wf).2 = trace wa ++ EvFetch pt :: evs ∧
                       attrs (m E wf).2 !! "number_of_workers" = Some (PyInt n)).
      { intros m Hm. destruct (Hm E wf) as [(evs & Ht & _) Hk].
        destruct Hk as [Hk _]; [split; [exact Hna|by exists q]|].
        exists evs. split; [|exact Hk]. rewrite Ht. cbn. by rewrite <- app_assoc. }
      destruct (Hrest (try_except
                  (received_updates ← wait_for (get_updates E (fetches wa)) pt;
                   match received_updates with
                   | Some l => for_each l (λ update, queue_put (Some update))
                   | None => mret tt
                   end)
                  (λ e, match e with
                        | TimeoutError => Some (log DEBUG "polling_job failed - timed out")
                        | _ => None
                        end))) as (evs & Ht & Hk).
      { maintain HR; repeat split; intros; try done. by eexists. }
      exists evs. split; [exact Ht|exact Hk]. }
    destruct Hframe as (evs & Htj & Hnj).
    destruct (_polling_job pt E wa) as [rj wj]; cbn [fst snd] in *.
    assert (Hwhile' : polling_while (S fuel) pt d E w = (Exc CancelledError, wj)).
    { rewrite Hwhile. by destruct rj as [[]|e|]. }
    rewrite Hfa in Hj, Fj.
    destruct (polling_loop_finally_block_eq n _ E wj Hnj Hj)
      as (w' & Hfin & Ht & Ha & Hfe & _).
    exists w'. split; [|split; [|split]].
    + rewrite polling_loop_unfold. unfold try_finally. by rewrite Hwhile', Hfin.
    + by rewrite Hfe.
    + exists evs. split; [|done]. apply new_events_app.
      rewrite Ht, Lj, Hla, Htj, Hta. by rewrite <- !app_assoc.
    + rewrite Ha, lookup_insert_eq. by rewrite <- app_assoc.
  - set (wb := record (EvDetach (CoPollingJob pt)) (record (EvFetch pt) (tick_fetch wa))) in *.
    destruct (polling_loop_finally_block_eq n q E wb Hna Hqa)
      as (w' & Hfin & Ht & Ha & Hfe & _).
    exists w'. split; [|split; [|split]].
    + rewrite polling_loop_unfold. unfold try_finally. by rewrite Hwhile, Hfin.
    + rewrite Hfe. change (fetches wb) with (S (fetches wa)). by rewrite Hfa.
    + exists [EvDetach (CoPollingJob pt)]. split; [|done]. apply new_events_app.
      rewrite Ht. change (loop_calls wb) with (loop_calls wa). rewrite Hla.
      change (trace wb) with ((trace wa ++ [EvFetch pt]) ++ [EvDetach (CoPollingJob pt)]).
      rewrite Hta. by rewrite <- !app_assoc.
    + rewrite Ha, lookup_insert_eq. cbn. done.
Qed.

Lemma polling_loop_cancelled_at_fetch_witness :
  cancel_delivered (resume cancelling_env (suspensions (polling_interface 2))) = true ∧
  shielded_job_done cancelling_env (suspensions (polling_interface 2)) = false ∧
  (∃ w', _polling_loop 1 None 0 cancelling_env (polling_interface 2)
           = (Exc CancelledError, w') ∧
         fetches w' = 1 ∧
         attrs w' !! "request_queue" = Some (PyQueue [None; None])) ∧
  shielded_job_done prompt_env (suspensions (polling_interface 2)) = true ∧
  (∃ w', _polling_loop 1 None 0 prompt_env (polling_interface 2)
           = (Exc CancelledError, w') ∧
         fetches w' = 1 ∧
         attrs w' !! "request_queue" =
           Some (PyQueue [Some ("A", "one"); Some ("B", "two"); Some ("A", "three");
                          None; None])).
Proof.
  split; [reflexivity|]. split; [reflexivity|]. split; [|split; [reflexivity|]].
  - destruct (polling_loop_cancelled_at_fetch 0 None 0 2 [] cancelling_env
                (polling_interface 2))
      as (w' & Hrun & Hf & _ & Hq); try (vm_compute; reflexivity).
    exists w'. split; [exact Hrun|]. split; [exact Hf|exact Hq].
  - destruct (polling_loop_cancelled_at_fetch 0 None 0 2 [] prompt_env
                (polling_interface 2))
      as (w' & Hrun & Hf & _ & Hq); try (vm_compute; reflexivity).
    exists w'. split; [exact Hrun|]. split; [exact Hf|exact Hq].
Defined.

(** One full cycle of the loop with a fetch that succeeds. *)
Lemma polling_while_cycle fuel pt d q l late E w :
  attrs w !! "request_queue" = Some (PyQueue q) →
  attrs w !! "running" = Some (PyBool true) →
  loop_fn E (loop_calls w) = true →
  get_updates E (fetches w) = Returns (Some l) late →
  (pt = None ∨ late = false) →
  cancel_delivered (resume E (suspensions w)) = false →
  cancel_delivered (resume E (S (suspensions w))) = false →
  ∃ wj,
    polling_while (S fuel) pt d E w =
      polling_while fuel pt d E
        (apply_interference (resume E (S (suspensions w))) (record (EvSleep d) wj)) ∧
    attrs wj = <["request_queue" := PyQueue (q ++ map Some l)]>
                 (attrs (apply_interference (resume E (suspensions w)) w)) ∧
    fetches wj = S (fetches w).
Proof.
  intros Hq Hr Hl Hf Hok Hc1 Hc2.
  set (w0 := record (EvLoopCall true) (tick_loop w)).
  set (wa := apply_interference (resume E (suspensions w)) w0).
  set (wf := record (EvFetch pt) (tick_fetch wa)).
  assert (Hqa : attrs wf !! "request_queue" = Some (PyQueue q)).
  { change (attrs wf) with (attrs wa). unfold wa.
    by rewrite attrs_apply_interference. }
  destruct (for_each_queue_put Some l q E wf Hqa)
    as (wj & Hput & Haj & Htj & Hlj & Hfj & Hsj & _).
  assert (Hjob : _polling_job pt E wa = (Ret tt, wj)).
  { unfold _polling_job, try_except, mbind, M_bind, call_get_updates.
    unfold wa at 1. rewrite fetches_apply_interference.
    change (fetches w0) with (fetches w). rewrite Hf. fold wf.
    assert (wait_for (Returns (Some l) late) pt E wf = (Ret (Some l), wf)) as ->.
    { by destruct Hok as [-> | ->]; [|destruct pt]. }
    by rewrite Hput. }
  exists wj. split; [|split].
  - cbn [polling_while]. unfold mbind, M_bind, call_loop. rewrite Hl. fold w0.
    rewrite (getattr_eq "running" (PyBool true)) by done. cbn [truthy mret M_ret].
    unfold await_shielded. change (suspensions w0) with (suspensions w).
    rewrite Hc1. fold wa. rewrite Hjob.
    unfold asyncio_sleep, emit, suspend, mbind, M_bind.
    assert (suspensions (record (EvSleep d) wj) = S (suspensions w)) as ->.
    { change (suspensions (record (EvSleep d) wj)) with (suspensions wj). rewrite Hsj.
      change (suspensions wf) with (suspensions wa).
      unfold wa. by rewrite suspensions_apply_interference. }
    by rewrite Hc2.
  - rewrite Haj. change (attrs wf) with (attrs wa). unfold wa, apply_interference, write.
    by destruct (stop_requested _), (foreground_finished _).
  - rewrite Hfj. change (fetches wf) with (S (fetches wa)). unfold wa.
    by rewrite fetches_apply_interference.
Qed.

(** X12.  The [running] flag is honoured at the next test of the loop:
    when it is cleared while the loop awaits the polling job or sleeps,
    the cycle under way is completed, its updates are enqueued, and the
    loop is left before another fetch; [_polling_loop] returns normally
    with the sentinels behind the updates. *)
Theorem polling_loop_honours_running_flag fuel pt d n q l late E w :
  attrs w !! "number_of_workers" = Some (PyInt n) →
  attrs w !! "request_queue" = Some (PyQueue q) →
  attrs w !! "running" = Some (PyBool true) →
  loop_fn E (loop_calls w) = true →
  get_updates E (fetches w) = Returns (Some l) late →
  (pt = None ∨ late = false) →
  cancel_delivered (resume E (suspensions w)) = false →
  cancel_delivered (resume E (S (suspensions w))) = false →
  (stop_requested (resume E (suspensions w)) = true ∨
   stop_requested (resume E (S (suspensions w))) = true) →
  ∃ w', _polling_loop (S (S fuel)) pt d E w = (Ret tt, w') ∧
        fetches w' = S (fetches w) ∧
        attrs w' !! "request_queue" =
          Some (PyQueue (q ++ map Some l ++ replicate (Z.to_nat n) None)).
Proof.
  intros Hn Hq Hr Hl Hf Hok Hc1 Hc2 Hstop.
  destruct (polling_while_cycle (S fuel) pt d q l late E w Hq Hr Hl Hf Hok Hc1 Hc2)
    as (wj & Hcycle & Haj & Hfj).
  set (wc := apply_interference (resume E (S (suspensions w))) (record (EvSleep d) wj))
    in *.
  assert (Hrunning : attrs wc !! "running" = Some (PyBool false)).
  { unfold wc. apply running_after_interference.
    destruct Hstop as [Hs | Hs]; [right|by left].
    change (attrs (record (EvSleep d) wj)) with (attrs wj).
    rewrite Haj, lookup_insert_ne by done.
    apply running_after_interference. by left. }
  assert (Hnc : attrs wc !! "number_of_workers" = Some (PyInt n)).
  { unfold wc. rewrite attrs_apply_interference by done.
    change (attrs (record (EvSleep d) wj)) with (attrs wj).
    rewrite Haj, lookup_insert_ne by done. by rewrite attrs_apply_interference. }
  assert (Hqc : attrs wc !! "request_queue" = Some (PyQueue (q ++ map Some l))).
  { unfold wc. rewrite attrs_apply_interference by done.
    change (attrs (record (EvSleep d) wj)) with (attrs wj).
    by rewrite Haj, lookup_insert_eq. }
  assert (Hfc : fetches wc = S (fetches w)).
  { unfold wc. by rewrite fetches_apply_interference. }
  clearbody wc.
  set (b := loop_fn E (loop_calls wc)).
  set (wd := record (EvLoopCall b) (tick_loop wc)).
  assert (Hexit : polling_while (S fuel) pt d E wc = (Ret tt, wd)).
  { cbn [polling_while]. unfold mbind, M_bind, call_loop. fold b. fold wd.
    destruct b; [|done].
    by rewrite (getattr_eq "running" (PyBool false)). }
  destruct (polling_loop_finally_block_eq n _ E wd Hnc Hqc)
    as (w' & Hfin & _ & Ha & Hff & _).
  exists w'. split; [|split].
  - rewrite polling_loop_unfold. unfold try_finally.
    by rewrite Hcycle, Hexit, Hfin.
  - by rewrite Hff.
  - rewrite Ha, lookup_insert_eq. by rewrite <- app_assoc.
Qed.

Lemma polling_loop_honours_running_flag_witness :
  loop_fn stopping_env (loop_calls (polling_interface 2)) = true ∧
  stop_requested (resume stopping_env (S (suspensions (polling_interface 2)))) = true ∧
  ∃ w', _polling_loop 2 (Some 5) 1 stopping_env (polling_interface 2) = (Ret tt, w') ∧
        fetches w' = 1 ∧
        attrs w' !! "request_queue" =
          Some (PyQueue [Some ("A", "one"); Some ("B", "two"); Some ("A", "three");
                         None; None]).
Proof.
  split; [reflexivity|]. split; [reflexivity|].
  destruct (polling_loop_honours_running_flag 0 (Some 5) 1 2 []
              [("A", "one"); ("B", "two"); ("A", "three")] false stopping_env
              (polling_interface 2))
    as (w' & Hrun & Hf & Hq); try (vm_compute; reflexivity); try (by right).
  exists w'. split; [exact Hrun|]. split; [exact Hf|exact Hq].
Defined.

(** ** run_in_foreground and shutdown: failures *)

Lemma worker_tasks_empty_closed :
  closed_under any_event not_worker_tasks (keeps_attrs worker_tasks_empty).
Proof.
  apply keeps_attrs_closed. intros a k v Hk Ha.
  unfold worker_tasks_empty. by rewrite lookup_insert_ne.
Qed.

Lemma dispatch_task_body_keeps_worker_tasks fuel pr c :
  maintains (keeps_attrs worker_tasks_empty) (dispatch_task_body fuel pr c).
Proof.
  pose proof worker_tasks_empty_closed as HR.
  intros E w. unfold dispatch_task_body. destruct c.
  - apply (maintains_worker HR); done.
  - apply (maintains_ret HR).
  - apply (maintains_polling_job HR); done.
  - apply (maintains_ret HR).
  - destruct (self_class w).
    + unfold MessengerInterface.subclass_connect.
      destruct (user_connect E); cbn; by apply (cu_record _ _ _ HR).
    + intros H. by apply polling_connect_leaves_worker_tasks_empty.
    + unfold CallbackMessengerInterface.connect. by apply (maintains_setattr HR).
Qed.

Lemma await_connect_keeps_worker_tasks fuel pr :
  maintains (keeps_attrs worker_tasks_empty)
    (try_except
       (t ← getattr "task"; await_task (dispatch_task_body fuel pr) t)
       (fun e => match e with
                 | CancelledError => Some (asyncio_sleep 0)
                 | _ => None
                 end)).
Proof.
  pose proof worker_tasks_empty_closed as HR.
  maintain_with HR ltac:(apply dispatch_task_body_keeps_worker_tasks).
  all: by repeat split.
Qed.

(** X13.  A foreground run of a polling interface never returns:
    whenever it ends, it ends with the [ValueError] that [cleanup]
    raises on the empty list of worker tasks, which replaces whatever
    exception the connect task ended with, and the assignment
    [self.finished_working = True] is not reached. *)
Theorem polling_foreground_run_ends_in_cleanup_error fuel p pr pt wt d E w :
  self_class w = PollingMessengerInterfaceT →
  worker_tasks_empty (attrs w) →
  let r := (run_in_foreground fuel p pr pt wt d E w).1 in
  r = Unfinished ∨ r = Exc (ValueError "Set of Tasks/Futures is empty.").
Proof.
  intros Hk Hw. cbv zeta.
  rewrite run_in_foreground_unfold by (by rewrite Hk).
  set (w6 := foreground_started p pt wt d w).
  assert (H6 : worker_tasks_empty (attrs w6)).
  { unfold w6, foreground_started, worker_tasks_empty. cbn.
    by rewrite !lookup_insert_ne. }
  assert (Hk6 : self_class w6 = PollingMessengerInterfaceT) by exact Hk.
  clearbody w6.
  unfold mbind, M_bind, try_finally.
  pose proof (await_connect_keeps_worker_tasks fuel pr E w6 H6) as Hb.
  set (body := try_except _ _) in *.
  assert (Hkb : self_class (body E w6).2 = PollingMessengerInterfaceT).
  { rewrite <- Hk6.
    assert (maintains (λ w w', self_class w' = self_class w) body) as Hm; [|apply Hm].
    assert (closed_under any_event any_write (λ w w', self_class w' = self_class w))
      as HR by (split; cbn; congruence).
    unfold body.
    maintain_with HR ltac:(first [ apply (maintains_dispatch_task_body HR); done ]).
    all: try done. all: by repeat split. }
  destruct (body E w6) as [rb wb]. cbn [snd] in Hb, Hkb.
  assert (Hc : call_cleanup fuel E wb =
               (Exc (ValueError "Set of Tasks/Futures is empty."),
                record (EvCall "cleanup") wb)).
  { unfold call_cleanup, emit, mbind, M_bind, dispatch_cleanup.
    change (self_class (record (EvCall "cleanup") wb)) with (self_class wb).
    rewrite Hkb. unfold PollingMessengerInterface.cleanup, MessengerInterface.cleanup.
    unfold mbind, M_bind. cbn [mret M_ret].
    by rewrite (getattr_eq "_worker_tasks" (PyTaskList [])). }
  rewrite Hc. destruct rb as [[]|e|]; cbn; auto.
Qed.

Lemma polling_foreground_run_ends_in_cleanup_error_witness :
  self_class (polling_interface 0) = PollingMessengerInterfaceT ∧
  worker_tasks_empty (attrs (polling_interface 0)) ∧
  (run_in_foreground 1 (PyPipeline "pipeline") (PyRunner "run") None None 0 idle_env
     (polling_interface 0)).1 = Exc (ValueError "Set of Tasks/Futures is empty.").
Proof.
  split; [reflexivity|]. split; [reflexivity|].
  destruct (polling_foreground_run_ends_in_cleanup_error 1 (PyPipeline "pipeline")
              (PyRunner "run") None None 0 idle_env (polling_interface 0)
              eq_refl eq_refl) as [H|H]; [|exact H].
  exfalso. revert H. vm_compute. discriminate.
Defined.

(** X14.  [run_in_foreground] cannot start a callback interface, in any
    state: the [connect] of that class takes the runner only, so the
    call with the keyword arguments is refused before a task exists.
    The two assignments made before are kept, the [try] statement is not
    entered, and [cleanup] is not called. *)
Theorem callback_foreground_run_is_refused fuel p pr pt wt d E w :
  self_class w = CallbackMessengerInterfaceT →
  ∃ msg w', run_in_foreground fuel p pr pt wt d E w = (Exc (TypeError msg), w') ∧
            tasks w' = tasks w ∧
            attrs w' = <["pipeline" := p]>
                         (<["running_in_foreground" := PyBool true]> (attrs w)) ∧
            new_events w w' =
              [EvSetAttr "running_in_foreground" (PyBool true);
               EvSetAttr "pipeline" p; EvSignal].
Proof.
  intros Hk. eexists _, _. split; [|split; [|split]].
  - unfold run_in_foreground, install_sigint_handler.
    unfold mbind at 1, M_bind at 1. cbn [setattr].
    unfold mbind at 1, M_bind at 1. cbn [setattr].
    unfold mbind at 1, M_bind at 1. cbn [emit].
    unfold mbind at 1, M_bind at 1.
    unfold call_connect. cbn [self_class record with_trace with_attrs].
    rewrite Hk. reflexivity.
  - done.
  - done.
  - apply new_events_app. cbn. by rewrite <- !app_assoc.
Qed.

Lemma callback_foreground_run_is_refused_witness :
  self_class callback_interface = CallbackMessengerInterfaceT ∧
  ∃ msg w', run_in_foreground 1 (PyPipeline "pipeline") (PyRunner "run") None None 0
              idle_env callback_interface = (Exc (TypeError msg), w') ∧
            tasks w' = [].
Proof.
  split; [reflexivity|].
  destruct (callback_foreground_run_is_refused 1 (PyPipeline "pipeline")
              (PyRunner "run") None None 0 idle_env callback_interface eq_refl)
    as (msg & w' & Hrun & Ht & _).
  exists msg, w'. split; [exact Hrun|exact Ht].
Defined.

(** X15.  [shutdown] catches [CancelledError] only.  When the connect
    task has failed with another exception, [shutdown] clears [running],
    asks for a cancellation that has no effect on the finished task, and
    raises the exception of the task; the closing log record is not
    written. *)
Theorem shutdown_reraises_task_failure fuel pr E w t c e :
  attrs w !! "task" = Some (PyTask t) →
  tasks w !! t = Some (c, Failed e) →
  e ≠ CancelledError →
  ∃ w', shutdown fuel pr E w = (Exc e, w') ∧
        tasks w' = tasks w ∧
        attrs w' = <["running" := PyBool false]> (attrs w) ∧
        new_events w w' =
          [EvLog INFO "messenger_interface.shutdown() called - shutting down interface";
           clear_running; EvCancel t].
Proof.
  intros Ht Hs He. exists (shutdown_cancelled t E w).
  pose proof (shutdown_cancelled_tasks t E w) as Hts. rewrite Hs in Hts.
  split; [|split; [|split]].
  - rewrite (shutdown_unfold _ _ _ _ _ Ht).
    rewrite (await_task_done _ _ _ _ _ _ Hts eq_refl).
    cbn [task_outcome]. by destruct e.
  - unfold shutdown_cancelled. cbn. by rewrite Hs.
  - unfold shutdown_cancelled. cbn. by rewrite Hs.
  - apply new_events_app, shutdown_cancelled_trace.
Qed.

Lemma shutdown_reraises_task_failure_witness :
  attrs failed_interface !! "task" = Some (PyTask 0) ∧
  tasks failed_interface !! 0
    = Some (CoConnect None None 0, Failed (TypeError "a coroutine was expected")) ∧
  (shutdown 1 (PyRunner "run") idle_env failed_interface).1
    = Exc (TypeError "a coroutine was expected").
Proof.
  assert (H1 : attrs failed_interface !! "task" = Some (PyTask 0))
    by (vm_compute; reflexivity).
  assert (H2 : tasks failed_interface !! 0
               = Some (CoConnect None None 0, Failed (TypeError "a coroutine was expected")))
    by reflexivity.
  split; [exact H1|]. split; [exact H2|].
  destruct (shutdown_reraises_task_failure 1 (PyRunner "run") idle_env
              failed_interface 0 _ _ H1 H2) as (w' & -> & _); done.
Defined.

(** X16.  An exception of the [connect] of a direct subclass reaches the
    caller of [run_in_foreground]: the connect task ends failed,
    [cleanup] is called, the exception is raised again, and
    [finished_working] is not assigned. *)
Theorem foreground_run_propagates_connect_failure fuel p pr pt wt d e E w :
  self_class w = MessengerInterfaceT →
  user_connect E = Raises e →
  e ≠ CancelledError →
  cancel_delivered (resume E (suspensions w)) = false →
  ∃ w', run_in_foreground fuel p pr pt wt d E w = (Exc e, w') ∧
        tasks w' = tasks w ++ [(CoConnect pt wt d, Failed e)] ∧
        new_events w w' =
          [EvSetAttr "running_in_foreground" (PyBool true); EvSetAttr "pipeline" p;
           EvSignal; EvCoroutine (CoConnect pt wt d);
           EvSpawn (length (tasks w)) (CoConnect pt wt d);
           EvSetAttr "task" (PyTask (length (tasks w)));
           EvCall "connect"; EvResume (resume E (suspensions w)); EvCall "cleanup"].
Proof.
  intros Hk Hu He Hc0.
  rewrite run_in_foreground_unfold by (by rewrite Hk).
  set (w6 := foreground_started p pt wt d w).
  set (t := length (tasks w)).
  assert (Ht : attrs w6 !! "task" = Some (PyTask t)).
  { unfold w6, foreground_started. cbn. by rewrite lookup_insert_eq. }
  assert (Hts : tasks w6 !! t = Some (CoConnect pt wt d, Scheduled false)).
  { unfold w6, foreground_started, t. cbn.
    by rewrite lookup_app_r, Nat.sub_diag. }
  set (w7 := set_task_state t (Failed e) (record (EvCall "connect") w6)).
  assert (Hdrive : drive_task (dispatch_task_body fuel pr) t E w6 = (Ret tt, w7)).
  { unfold drive_task. rewrite Hts. unfold dispatch_task_body.
    change (self_class w6) with (self_class w). rewrite Hk.
    unfold MessengerInterface.subclass_connect, w7. rewrite Hu. by destruct e. }
  assert (Hts7 : tasks w7 !! t = Some (CoConnect pt wt d, Failed e)).
  { unfold w7. by apply (lookup_set_task_state t (Failed e) _ (Scheduled false)). }
  pose proof (await_task_driven (dispatch_task_body fuel pr) t _ _ (Failed e) E w6 w7
                Hts eq_refl Hdrive Hts7) as Hawait.
  change (suspensions w7) with (suspensions w) in Hawait. rewrite Hc0 in Hawait.
  set (w8 := apply_interference (resume E (suspensions w)) w7) in *.
  exists (record (EvCall "cleanup") w8).
  split; [|split].
  - unfold mbind at 1, M_bind at 1. unfold try_finally, try_except.
    unfold mbind at 1, M_bind at 1. rewrite (getattr_eq _ _ _ _ Ht), Hawait.
    cbn [task_outcome].
    assert (Hk8 : self_class w8 = MessengerInterfaceT).
    { unfold w8. rewrite self_class_apply_interference.
      change (self_class w7) with (self_class w). exact Hk. }
    clearbody w8.
    unfold call_cleanup, dispatch_cleanup, MessengerInterface.cleanup.
    unfold emit, mbind, M_bind.
    destruct e; try done; cbn [self_class record with_trace]; by rewrite Hk8.
  - cbn [tasks record with_trace]. unfold w8. rewrite tasks_apply_interference.
    unfold w7, w6, foreground_started, t. cbn.
    rewrite alter_app_r_alt by lia. by rewrite Nat.sub_diag.
  - apply new_events_app. cbn [trace record with_trace].
    unfold w8. rewrite trace_apply_interference.
    unfold w7, w6, foreground_started. cbn. by rewrite <- !app_assoc.
Qed.

Lemma foreground_run_propagates_connect_failure_witness :
  self_class base_interface = MessengerInterfaceT ∧
  user_connect failing_connect_env = Raises (OtherError "no network") ∧
  ∃ w', run_in_foreground 1 (PyPipeline "pipeline") (PyRunner "run") None None 0
          failing_connect_env base_interface = (Exc (OtherError "no network"), w') ∧
        tasks w' = [(CoConnect None None 0, Failed (OtherError "no network"))].
Proof.
  split; [reflexivity|]. split; [reflexivity|].
  destruct (foreground_run_propagates_connect_failure 1 (PyPipeline "pipeline")
              (PyRunner "run") None None 0 (OtherError "no network")
              failing_connect_env base_interface)
    as (w' & Hrun & Ht & _); try done.
  exists w'. split; [exact Hrun|exact Ht].
Defined.

(** ** _on_exception *)

(** No method records what [_on_exception] would: each lemma follows
    the text of its method, with the log lines compared one by one. *)

Section OnException.

Local Ltac not_reported :=
  intros; unfold not_on_exception_record; cbn;
  first [ by intros [] | by intros [[] ?]
        | match goal with k : class_id |- _ => destruct k; by intros [[] ?] end
        | tauto ].

Local Ltac follow extra :=
  let HR := fresh "HR" in
  pose proof (trace_grows_closed not_on_exception_record) as HR;
  assert (allows_interference not_on_exception_record any_write)
    by (repeat split; not_reported);
  maintain_with HR extra; try not_reported.

Lemma worker_reports_nothing fuel wt :
  maintains (trace_grows not_on_exception_record) (_worker fuel wt).
Proof. induction fuel as [|fuel IH]; cbn [_worker]; follow fail. Qed.

Lemma polling_loop_reports_nothing fuel pt d :
  maintains (trace_grows not_on_exception_record) (_polling_loop fuel pt d).
Proof.
  pose proof (trace_grows_closed not_on_exception_record) as HR.
  unfold _polling_loop. apply (maintains_try_finally HR).
  - apply (maintains_polling_while HR); try done; try not_reported.
    repeat split. not_reported.
  - follow fail.
Qed.

Lemma connect_reports_nothing fuel pr pt wt d :
  maintains (trace_grows not_on_exception_record) (connect fuel pr pt wt d).
Proof.
  unfold connect, append_worker_task.
  follow ltac:(apply polling_loop_reports_nothing).
Qed.

Lemma polling_task_body_reports_nothing fuel c :
  maintains (trace_grows not_on_exception_record) (task_body fuel c).
Proof.
  pose proof (trace_grows_closed not_on_exception_record) as HR.
  destruct c; cbn [task_body]; try apply (maintains_ret HR).
  - apply worker_reports_nothing.
  - apply (maintains_polling_job HR); try done; not_reported.
Qed.

Lemma task_body_reports_nothing fuel pr c :
  maintains (trace_grows not_on_exception_record) (dispatch_task_body fuel pr c).
Proof.
  pose proof (trace_grows_closed not_on_exception_record) as HR.
  intros E w. unfold dispatch_task_body. destruct c.
  1-4: apply polling_task_body_reports_nothing.
  destruct (self_class w).
  - unfold MessengerInterface.subclass_connect.
    destruct (user_connect E); cbn; apply (cu_record _ _ _ HR); not_reported.
  - apply connect_reports_nothing.
  - unfold CallbackMessengerInterface.connect. revert E w. follow fail.
Qed.

Lemma cleanup_reports_nothing fuel :
  maintains (trace_grows not_on_exception_record) (dispatch_cleanup fuel).
Proof.
  pose proof (trace_grows_closed not_on_exception_record) as HR0.
  intros E w. unfold dispatch_cleanup. destruct (self_class w).
  - apply (maintains_ret HR0).
  - revert E w. unfold PollingMessengerInterface.cleanup, MessengerInterface.cleanup.
    follow ltac:(apply polling_task_body_reports_nothing).
  - apply (maintains_ret HR0).
Qed.

Lemma call_connect_reports_nothing pt wt d :
  maintains (trace_grows not_on_exception_record) (call_connect pt wt d).
Proof.
  pose proof (trace_grows_closed not_on_exception_record) as HR0.
  intros E w. unfold call_connect. destruct (self_class w).
  - revert E w. follow fail.
  - revert E w. follow fail.
  - apply (cu_refl _ _ _ HR0).
Qed.

Lemma foreground_run_reports_nothing fuel p pr pt wt d :
  maintains (trace_grows not_on_exception_record) (run_in_foreground fuel p pr pt wt d).
Proof.
  unfold run_in_foreground, install_sigint_handler, call_cleanup.
  follow ltac:(first [ apply task_body_reports_nothing
                     | apply cleanup_reports_nothing
                     | apply call_connect_reports_nothing ]).
Qed.

Lemma shutdown_reports_nothing fuel pr :
  maintains (trace_grows not_on_exception_record) (shutdown fuel pr).
Proof. unfold shutdown. follow ltac:(apply task_body_reports_nothing). Qed.

End OnException.

(** X17.  [_on_exception] writes one log record, at error level for an
    [Exception] and at info level otherwise, and nothing in the file
    calls it: no execution of [run_in_foreground], of [shutdown], of the
    [connect] of the polling class, which contains the whole polling
    cycle, or of a worker writes a record at error level or the farewell
    of [_on_exception].  The failure of a polling cycle is reported
    nowhere. *)
Theorem on_exception_is_never_invoked :
  (∀ e E w, ∃ ev, _on_exception e E w = (Ret tt, record ev w) ∧
                  on_exception_record ev ∧
                  (is_exception e = true ↔ ∃ msg, ev = EvLog ERROR msg)) ∧
  (∀ fuel p pr pt wt d E w,
     Forall not_on_exception_record
       (new_events w (run_in_foreground fuel p pr pt wt d E w).2)) ∧
  (∀ fuel pr E w,
     Forall not_on_exception_record (new_events w (shutdown fuel pr E w).2)) ∧
  (∀ fuel pr pt wt d E w,
     Forall not_on_exception_record
       (new_events w (connect fuel pr pt wt d E w).2)) ∧
  (∀ fuel wt E w,
     Forall not_on_exception_record (new_events w (_worker fuel wt E w).2)).
Proof.
  split; [|split; [|split; [|split]]].
  - intros e E w. unfold _on_exception, mbind, M_bind, type_of_self, log, emit.
    destruct (is_exception e); eexists; (split; [reflexivity|]); split.
    + exact I.
    + split; [by eexists|done].
    + by exists (self_class w).
    + split; [done|]. by intros [msg [=]].
  - intros. destruct (foreground_run_reports_nothing fuel p pr pt wt d E w)
      as (evs & Ht & H).
    by rewrite (new_events_app _ _ _ Ht).
  - intros. destruct (shutdown_reports_nothing fuel pr E w) as (evs & Ht & H).
    by rewrite (new_events_app _ _ _ Ht).
  - intros. destruct (connect_reports_nothing fuel pr pt wt d E w) as (evs & Ht & H).
    by rewrite (new_events_app _ _ _ Ht).
  - intros. destruct (worker_reports_nothing fuel wt E w) as (evs & Ht & H).
    by rewrite (new_events_app _ _ _ Ht).
Qed.

(** ** The constructor of MessengerInterfaceWithAttachments *)

(** X18.  The constructor of [MessengerInterfaceWithAttachments] never
    replaces a directory it is given: the given directory becomes
    [attachments_directory] and is the one created, also when it lies in
    the temporary directory and the log says that attachments will not
    be cached; the default under the temporary directory is taken only
    when no directory is given.  The constructor logs exactly in these
    two cases, raises exactly when [mkdir] does, and has assigned the
    attribute by then. *)
Theorem attachments_directory_is_the_given_one fs directory o :
  let chosen := match directory with
                | Some given => given
                | None => joinpath fs (gettempdir fs)
                            ("chatsky-cache-" +:+ class_name (self_class (lifecycle o)))
                end in
  let r := (MessengerInterfaceWithAttachments.__init__ fs directory o).1 in
  let o' := (MessengerInterfaceWithAttachments.__init__ fs directory o).2 in
  attachments_directory o' = Some chosen ∧
  mkdir_calls o' = mkdir_calls o ++ [chosen] ∧
  r = match mkdir_outcome fs chosen with None => Ret tt | Some e => Exc e end ∧
  attrs (lifecycle o') = attrs (lifecycle o) ∧
  (∃ logged, trace (lifecycle o') = trace (lifecycle o) ++ logged ∧
     (logged = [] ↔
      ∃ given, directory = Some given ∧
               String.prefix (gettempdir fs) (absolute fs given) = false) ∧
     ∀ ev, ev ∈ logged → ∃ msg, ev = EvLog INFO msg).
Proof.
  unfold MessengerInterfaceWithAttachments.__init__,
    MessengerInterfaceWithAttachments.mkdir,
    MessengerInterfaceWithAttachments.info,
    MessengerInterfaceWithAttachments.set_attachments_directory.
  destruct directory as [given|]; cbn -[String.prefix String.append].
  - destruct (String.prefix (gettempdir fs) (absolute fs given)) eqn:Hp;
      cbn -[String.prefix String.append].
    + repeat split; try done. eexists. split; [reflexivity|]. split.
      * split; [done|]. intros (g & [= <-] & H). congruence.
      * intros ev ->%list_elem_of_singleton. by eexists.
    + repeat split; try done. exists []. split; [by rewrite app_nil_r|]. split.
      * split; [|done]. intros _. by exists given.
      * intros ev H. by apply elem_of_nil in H.
  - repeat split; try done. eexists. split; [reflexivity|]. split.
    + split; [done|]. by intros (g & [=] & _).
    + intros ev ->%list_elem_of_singleton. by eexists.
Qed.

(** What the constructor does to the object as a [MessengerInterface]:
    nothing but logging. *)
Lemma attachments_init_lifecycle fs directory o :
  let w' := lifecycle (MessengerInterfaceWithAttachments.__init__ fs directory o).2 in
  self_class w' = self_class (lifecycle o) ∧
  attrs w' = attrs (lifecycle o) ∧
  tasks w' = tasks (lifecycle o) ∧
  ∃ logged, trace w' = trace (lifecycle o) ++ logged ∧
            ∀ ev, ev ∈ logged → ∃ msg, ev = EvLog INFO msg.
Proof.
  unfold MessengerInterfaceWithAttachments.__init__,
    MessengerInterfaceWithAttachments.mkdir,
    MessengerInterfaceWithAttachments.info,
    MessengerInterfaceWithAttachments.set_attachments_directory.
  destruct directory as [given|]; cbn -[String.prefix String.append].
  - destruct (String.prefix (gettempdir fs) (absolute fs given));
      cbn -[String.prefix String.append]; repeat split; try done.
    + eexists. split; [reflexivity|].
      intros ev ->%list_elem_of_singleton. by eexists.
    + exists []. split; [by rewrite app_nil_r|].
      intros ev H. by apply elem_of_nil in H.
  - repeat split; try done. eexists. split; [reflexivity|].
    intros ev ->%list_elem_of_singleton. by eexists.
Qed.

(** X19.  The constructor does not call [MessengerInterface.__init__]:
    an object that it alone has initialised has none of the lifecycle
    attributes, and [shutdown] fails on it with an attribute error at
    [self.task], having cancelled and awaited nothing. *)
Theorem attachments_constructor_skips_lifecycle_state fs directory fuel pr E :
  let o' := (MessengerInterfaceWithAttachments.__init__ fs directory
               new_attachments_object).2 in
  attrs (lifecycle o') = ∅ ∧
  ∃ w', shutdown fuel pr E (lifecycle o')
          = (Exc (AttributeError "MessengerInterface" "task"), w') ∧
        tasks w' = [] ∧
        ∀ t, EvCancel t ∉ trace w'.
Proof.
  destruct (attachments_init_lifecycle fs directory new_attachments_object)
    as (Hk & Ha & Hts & logged & Ht & Hl).
  change (attrs (lifecycle new_attachments_object)) with (∅ : gmap string pyval) in Ha.
  change (trace (lifecycle new_attachments_object)) with ([] : list event) in Ht.
  change (tasks (lifecycle new_attachments_object))
    with ([] : list (coro * task_state)) in Hts.
  change (self_class (lifecycle new_attachments_object)) with MessengerInterfaceT in Hk.
  cbv zeta. split; [exact Ha|].
  generalize dependent
    (lifecycle (MessengerInterfaceWithAttachments.__init__ fs directory
                  new_attachments_object).2).
  intros w Hk Ha Hts Ht.
  eexists. split; [|split].
  - unfold shutdown, mbind, M_bind. cbn [log emit setattr].
    unfold getattr. cbn [attrs record with_trace with_attrs].
    rewrite lookup_insert_ne by done. rewrite Ha, lookup_empty.
    cbn [self_class record with_trace with_attrs]. rewrite Hk. reflexivity.
  - exact Hts.
  - intros t. cbn. rewrite Ht. cbn.
    rewrite !elem_of_app, !list_elem_of_singleton.
    intros [[H|H]|H]; try done.
    destruct (Hl _ H) as [msg Hm]. done.
Qed.

(** The test for "in the temporary directory" is a test on strings:
    with [/tmp] as temporary directory, [/tmpfiles/bot] passes it, is
    reported as lying in the temporary directory, and is used. *)
Example sibling_of_tempdir_counts_as_tempdir :
  MessengerInterfaceWithAttachments.__init__ posix_fs (Some "/tmpfiles/bot")
    new_attachments_object
  = (Ret tt,
     AttachmentsObject
       (record (EvLog INFO "Attachments directory for MessengerInterface messenger interface is in tempdir, so attachment data won't be cached locally!")
          (new_object MessengerInterfaceT))
       (Some "/tmpfiles/bot") ["/tmpfiles/bot"]).
Proof. vm_compute; reflexivity. Qed.
